(** * minigbm: layout calculator, combination registry and resource ledger

    A shallow embedding of the backend-agnostic helpers of minigbm
    (helpers.c, drm_helpers.c) together with the properties the design
    document states about them.

    Conventions.
    - A [uint32_t] / [uint64_t] / [uintptr_t] value is a [Z]; every C
      operation that can leave the range is followed by its wrap-around
      ([wrap32], [wrap64]).
    - A plane index or a plane count ([size_t]) is a [nat].
    - A fixed C array ([DRV_MAX_PLANES] entries) is a [list Z] read with
      [!!!] and written with [<[ i := v ]>].
    - A function that can dereference NULL or trip an [assert] returns an
      [outcome]; kernel calls go through an oracle and are recorded in a
      log. *)

From Stdlib Require Import ZArith List Ascii Lia Bool.
From stdpp Require Import base numbers list gmap.

Local Open Scope Z_scope.

(** ** Machine arithmetic *)

Definition wrap32 (z : Z) : Z := z mod 2 ^ 32.
Definition wrap64 (z : Z) : Z := z mod 2 ^ 64.

Definition is_uint32 (z : Z) : Prop := 0 <= z < 2 ^ 32.

(** Modelled from the spec: util.h (the macros [DIV_ROUND_UP] and [ALIGN])
    is not among the sources.  The design document describes the first as
    a ceiling division ("ceil", "halved, rounded up") and the second as
    rounding up to a multiple of the alignment ("32-aligned").  They are
    written here as the customary C macros, [((n) + (d) - 1) / (d)] and
    [((a) + (b) - 1) & ~((b) - 1)], evaluated in the [uint32_t] of their
    first operand at every use in these sources; they are what the document
    says whenever the sum does not wrap ([DIV_ROUND_UP_ceil],
    [ALIGN_pow2]). *)
Definition DIV_ROUND_UP (n d : Z) : Z := wrap32 (n + d - 1) / d.

Definition ALIGN (a b : Z) : Z := Z.land (wrap32 (a + b - 1)) (Z.lnot (b - 1)).

(** ** Outcomes of fallible C code *)

Inductive fault : Set :=
| NullDeref      (* a NULL layout pointer was dereferenced *)
| AssertFail     (* an assert() did not hold *)
| UseAfterFree.  (* a freed vma was read *)

Inductive outcome (A : Type) : Type :=
| Ok (a : A)
| Fault (f : fault).

Arguments Ok {A} a.
Arguments Fault {A} f.

#[global] Instance outcome_ret : MRet outcome := fun A a => Ok a.

#[global] Instance outcome_bind : MBind outcome := fun A B k m =>
  match m with
  | Ok a => k a
  | Fault f => Fault f
  end.

Definition assert (b : bool) : outcome unit :=
  if b then Ok tt else Fault AssertFail.

(** ** Format codes *)

Definition fourcc_code (a b c d : ascii) : Z :=
  Z.lor (Z.lor (Z.lor (Z.of_N (N_of_ascii a))
                      (Z.shiftl (Z.of_N (N_of_ascii b)) 8))
               (Z.shiftl (Z.of_N (N_of_ascii c)) 16))
        (Z.shiftl (Z.of_N (N_of_ascii d)) 24).

Module Fourcc.
Local Open Scope char_scope.
(* drm_fourcc.h *)
Definition DRM_FORMAT_C8 := fourcc_code "C" "8" " " " ".
Definition DRM_FORMAT_R8 := fourcc_code "R" "8" " " " ".
Definition DRM_FORMAT_R16 := fourcc_code "R" "1" "6" " ".
Definition DRM_FORMAT_RG88 := fourcc_code "R" "G" "8" "8".
Definition DRM_FORMAT_GR88 := fourcc_code "G" "R" "8" "8".
Definition DRM_FORMAT_RGB332 := fourcc_code "R" "G" "B" "8".
Definition DRM_FORMAT_BGR233 := fourcc_code "B" "G" "R" "8".
Definition DRM_FORMAT_XRGB4444 := fourcc_code "X" "R" "1" "2".
Definition DRM_FORMAT_XBGR4444 := fourcc_code "X" "B" "1" "2".
Definition DRM_FORMAT_RGBX4444 := fourcc_code "R" "X" "1" "2".
Definition DRM_FORMAT_BGRX4444 := fourcc_code "B" "X" "1" "2".
Definition DRM_FORMAT_ARGB4444 := fourcc_code "A" "R" "1" "2".
Definition DRM_FORMAT_ABGR4444 := fourcc_code "A" "B" "1" "2".
Definition DRM_FORMAT_RGBA4444 := fourcc_code "R" "A" "1" "2".
Definition DRM_FORMAT_BGRA4444 := fourcc_code "B" "A" "1" "2".
Definition DRM_FORMAT_XRGB1555 := fourcc_code "X" "R" "1" "5".
Definition DRM_FORMAT_XBGR1555 := fourcc_code "X" "B" "1" "5".
Definition DRM_FORMAT_RGBX5551 := fourcc_code "R" "X" "1" "5".
Definition DRM_FORMAT_BGRX5551 := fourcc_code "B" "X" "1" "5".
Definition DRM_FORMAT_ARGB1555 := fourcc_code "A" "R" "1" "5".
Definition DRM_FORMAT_ABGR1555 := fourcc_code "A" "B" "1" "5".
Definition DRM_FORMAT_RGBA5551 := fourcc_code "R" "A" "1" "5".
Definition DRM_FORMAT_BGRA5551 := fourcc_code "B" "A" "1" "5".
Definition DRM_FORMAT_RGB565 := fourcc_code "R" "G" "1" "6".
Definition DRM_FORMAT_BGR565 := fourcc_code "B" "G" "1" "6".
Definition DRM_FORMAT_RGB888 := fourcc_code "R" "G" "2" "4".
Definition DRM_FORMAT_BGR888 := fourcc_code "B" "G" "2" "4".
Definition DRM_FORMAT_XRGB8888 := fourcc_code "X" "R" "2" "4".
Definition DRM_FORMAT_XBGR8888 := fourcc_code "X" "B" "2" "4".
Definition DRM_FORMAT_RGBX8888 := fourcc_code "R" "X" "2" "4".
Definition DRM_FORMAT_BGRX8888 := fourcc_code "B" "X" "2" "4".
Definition DRM_FORMAT_ARGB8888 := fourcc_code "A" "R" "2" "4".
Definition DRM_FORMAT_ABGR8888 := fourcc_code "A" "B" "2" "4".
Definition DRM_FORMAT_RGBA8888 := fourcc_code "R" "A" "2" "4".
Definition DRM_FORMAT_BGRA8888 := fourcc_code "B" "A" "2" "4".
Definition DRM_FORMAT_XRGB2101010 := fourcc_code "X" "R" "3" "0".
Definition DRM_FORMAT_XBGR2101010 := fourcc_code "X" "B" "3" "0".
Definition DRM_FORMAT_RGBX1010102 := fourcc_code "R" "X" "3" "0".
Definition DRM_FORMAT_BGRX1010102 := fourcc_code "B" "X" "3" "0".
Definition DRM_FORMAT_ARGB2101010 := fourcc_code "A" "R" "3" "0".
Definition DRM_FORMAT_ABGR2101010 := fourcc_code "A" "B" "3" "0".
Definition DRM_FORMAT_RGBA1010102 := fourcc_code "R" "A" "3" "0".
Definition DRM_FORMAT_BGRA1010102 := fourcc_code "B" "A" "3" "0".
Definition DRM_FORMAT_ABGR16161616F := fourcc_code "A" "B" "4" "H".
Definition DRM_FORMAT_YUYV := fourcc_code "Y" "U" "Y" "V".
Definition DRM_FORMAT_YVYU := fourcc_code "Y" "V" "Y" "U".
Definition DRM_FORMAT_UYVY := fourcc_code "U" "Y" "V" "Y".
Definition DRM_FORMAT_VYUY := fourcc_code "V" "Y" "U" "Y".
Definition DRM_FORMAT_AYUV := fourcc_code "A" "Y" "U" "V".
Definition DRM_FORMAT_NV12 := fourcc_code "N" "V" "1" "2".
Definition DRM_FORMAT_NV21 := fourcc_code "N" "V" "2" "1".
Definition DRM_FORMAT_P010 := fourcc_code "P" "0" "1" "0".
Definition DRM_FORMAT_YVU420 := fourcc_code "Y" "V" "1" "2".
(* drv.h, not among the sources: the project's own codes *)
Definition DRM_FORMAT_YVU420_ANDROID := fourcc_code "9" "9" "9" "7".
Definition DRM_FORMAT_MTISP_SXYZW10 := fourcc_code "M" "B" "1" "0".
End Fourcc.
Export Fourcc.

Definition DRM_FORMAT_MOD_LINEAR : Z := 0.

(** [DRV_MAX_PLANES] (drv.h): the design document fixes it at 4. *)
Definition DRV_MAX_PLANES : nat := 4.

(** ** Layout catalog (helpers.c) *)

Record planar_layout : Type := {
  num_planes : nat;
  horizontal_subsampling : list Z;
  vertical_subsampling : list Z;
  bytes_per_pixel : list Z
}.

(* A C initialiser shorter than the array leaves the rest zero. *)
Definition packed_1bpp_layout : planar_layout :=
  {| num_planes := 1; horizontal_subsampling := [1; 0; 0; 0];
     vertical_subsampling := [1; 0; 0; 0]; bytes_per_pixel := [1; 0; 0; 0] |}.

Definition packed_2bpp_layout : planar_layout :=
  {| num_planes := 1; horizontal_subsampling := [1; 0; 0; 0];
     vertical_subsampling := [1; 0; 0; 0]; bytes_per_pixel := [2; 0; 0; 0] |}.

Definition packed_3bpp_layout : planar_layout :=
  {| num_planes := 1; horizontal_subsampling := [1; 0; 0; 0];
     vertical_subsampling := [1; 0; 0; 0]; bytes_per_pixel := [3; 0; 0; 0] |}.

Definition packed_4bpp_layout : planar_layout :=
  {| num_planes := 1; horizontal_subsampling := [1; 0; 0; 0];
     vertical_subsampling := [1; 0; 0; 0]; bytes_per_pixel := [4; 0; 0; 0] |}.

Definition packed_8bpp_layout : planar_layout :=
  {| num_planes := 1; horizontal_subsampling := [1; 0; 0; 0];
     vertical_subsampling := [1; 0; 0; 0]; bytes_per_pixel := [8; 0; 0; 0] |}.

Definition biplanar_yuv_420_layout : planar_layout :=
  {| num_planes := 2; horizontal_subsampling := [1; 2; 0; 0];
     vertical_subsampling := [1; 2; 0; 0]; bytes_per_pixel := [1; 2; 0; 0] |}.

Definition triplanar_yuv_420_layout : planar_layout :=
  {| num_planes := 3; horizontal_subsampling := [1; 2; 2; 0];
     vertical_subsampling := [1; 2; 2; 0]; bytes_per_pixel := [1; 1; 1; 0] |}.

Definition biplanar_yuv_p010_layout : planar_layout :=
  {| num_planes := 2; horizontal_subsampling := [1; 2; 0; 0];
     vertical_subsampling := [1; 2; 0; 0]; bytes_per_pixel := [2; 4; 0; 0] |}.

(** One group of [case] labels of the [switch]. *)
Definition format_in (format : Z) (labels : list Z) : bool :=
  existsb (Z.eqb format) labels.

(** [layout_from_format]: [None] is the NULL of the [default] branch. *)
Definition layout_from_format (format : Z) : option planar_layout :=
  if format_in format
       [DRM_FORMAT_BGR233; DRM_FORMAT_C8; DRM_FORMAT_R8; DRM_FORMAT_RGB332]
  then Some packed_1bpp_layout
  else if format_in format [DRM_FORMAT_R16]
  then Some packed_2bpp_layout
  else if format_in format [DRM_FORMAT_YVU420; DRM_FORMAT_YVU420_ANDROID]
  then Some triplanar_yuv_420_layout
  else if format_in format [DRM_FORMAT_NV12; DRM_FORMAT_NV21]
  then Some biplanar_yuv_420_layout
  else if format_in format [DRM_FORMAT_P010]
  then Some biplanar_yuv_p010_layout
  else if format_in format
       [DRM_FORMAT_ABGR1555; DRM_FORMAT_ABGR4444; DRM_FORMAT_ARGB1555;
        DRM_FORMAT_ARGB4444; DRM_FORMAT_BGR565; DRM_FORMAT_BGRA4444;
        DRM_FORMAT_BGRA5551; DRM_FORMAT_BGRX4444; DRM_FORMAT_BGRX5551;
        DRM_FORMAT_GR88; DRM_FORMAT_RG88; DRM_FORMAT_RGB565;
        DRM_FORMAT_RGBA4444; DRM_FORMAT_RGBA5551; DRM_FORMAT_RGBX4444;
        DRM_FORMAT_RGBX5551; DRM_FORMAT_UYVY; DRM_FORMAT_VYUY;
        DRM_FORMAT_XBGR1555; DRM_FORMAT_XBGR4444; DRM_FORMAT_XRGB1555;
        DRM_FORMAT_XRGB4444; DRM_FORMAT_YUYV; DRM_FORMAT_YVYU;
        DRM_FORMAT_MTISP_SXYZW10]
  then Some packed_2bpp_layout
  else if format_in format [DRM_FORMAT_BGR888; DRM_FORMAT_RGB888]
  then Some packed_3bpp_layout
  else if format_in format
       [DRM_FORMAT_ABGR2101010; DRM_FORMAT_ABGR8888; DRM_FORMAT_ARGB2101010;
        DRM_FORMAT_ARGB8888; DRM_FORMAT_AYUV; DRM_FORMAT_BGRA1010102;
        DRM_FORMAT_BGRA8888; DRM_FORMAT_BGRX1010102; DRM_FORMAT_BGRX8888;
        DRM_FORMAT_RGBA1010102; DRM_FORMAT_RGBA8888; DRM_FORMAT_RGBX1010102;
        DRM_FORMAT_RGBX8888; DRM_FORMAT_XBGR2101010; DRM_FORMAT_XBGR8888;
        DRM_FORMAT_XRGB2101010; DRM_FORMAT_XRGB8888]
  then Some packed_4bpp_layout
  else if format_in format [DRM_FORMAT_ABGR16161616F]
  then Some packed_8bpp_layout
  else None.

(** Dereferencing the pointer [layout_from_format] returned. *)
Definition deref_layout (format : Z) : outcome planar_layout :=
  match layout_from_format format with
  | Some layout => Ok layout
  | None => Fault NullDeref
  end.

(** ** Geometry queries (helpers.c) *)

Definition drv_num_planes_from_format (format : Z) : nat :=
  match layout_from_format format with
  | Some layout => num_planes layout
  | None => 0%nat
  end.

Definition drv_height_from_format (format height : Z) (plane : nat) : outcome Z :=
  layout ← deref_layout format;
  _ ← assert (plane <? num_planes layout)%nat;
  Ok (DIV_ROUND_UP height (vertical_subsampling layout !!! plane)).

Definition drv_vertical_subsampling_from_format (format : Z) (plane : nat) : outcome Z :=
  layout ← deref_layout format;
  _ ← assert (plane <? num_planes layout)%nat;
  Ok (vertical_subsampling layout !!! plane).

Definition drv_bytes_per_pixel_from_format (format : Z) (plane : nat) : outcome Z :=
  layout ← deref_layout format;
  _ ← assert (plane <? num_planes layout)%nat;
  Ok (bytes_per_pixel layout !!! plane).

Definition drv_stride_from_format (format width : Z) (plane : nat) : outcome Z :=
  layout ← deref_layout format;
  _ ← assert (plane <? num_planes layout)%nat;
  let plane_width := DIV_ROUND_UP width (horizontal_subsampling layout !!! plane) in
  let stride := wrap32 (plane_width * (bytes_per_pixel layout !!! plane)) in
  Ok (if format =? DRM_FORMAT_YVU420_ANDROID
      then (if (plane =? 0)%nat then ALIGN stride 32 else ALIGN stride 16)
      else stride).

Definition drv_size_from_format (format stride height : Z) (plane : nat) : outcome Z :=
  h ← drv_height_from_format format height plane;
  Ok (wrap32 (stride * h)).

Definition subsample_stride (stride format : Z) (plane : nat) : Z :=
  if negb (plane =? 0)%nat
  then (if format_in format [DRM_FORMAT_YVU420; DRM_FORMAT_YVU420_ANDROID]
        then DIV_ROUND_UP stride 2
        else stride)
  else stride.

(** ** Buffer objects *)

(** Modelled from the spec: drv_priv.h ([struct bo], [struct bo_metadata])
    is not among the sources.  The records hold the fields the functions
    below read and write: the "BufferGeometry" of the design document
    (format, width, height, per-plane stride, offset and size, total size,
    tiling) and one handle per plane. *)

Record bo_metadata : Type := {
  meta_width : Z;
  meta_height : Z;
  meta_format : Z;
  meta_tiling : Z;
  meta_num_planes : nat;
  meta_offsets : list Z;
  meta_sizes : list Z;
  meta_strides : list Z;
  meta_total_size : Z
}.

Record bo : Type := {
  meta : bo_metadata;
  handles : list Z
}.

Definition set_stride (p : nat) (v : Z) (m : bo_metadata) : bo_metadata :=
  {| meta_width := meta_width m; meta_height := meta_height m;
     meta_format := meta_format m; meta_tiling := meta_tiling m;
     meta_num_planes := meta_num_planes m;
     meta_offsets := meta_offsets m; meta_sizes := meta_sizes m;
     meta_strides := <[p := v]> (meta_strides m);
     meta_total_size := meta_total_size m |}.

Definition set_size (p : nat) (v : Z) (m : bo_metadata) : bo_metadata :=
  {| meta_width := meta_width m; meta_height := meta_height m;
     meta_format := meta_format m; meta_tiling := meta_tiling m;
     meta_num_planes := meta_num_planes m;
     meta_offsets := meta_offsets m; meta_sizes := <[p := v]> (meta_sizes m);
     meta_strides := meta_strides m;
     meta_total_size := meta_total_size m |}.

Definition set_offset (p : nat) (v : Z) (m : bo_metadata) : bo_metadata :=
  {| meta_width := meta_width m; meta_height := meta_height m;
     meta_format := meta_format m; meta_tiling := meta_tiling m;
     meta_num_planes := meta_num_planes m;
     meta_offsets := <[p := v]> (meta_offsets m); meta_sizes := meta_sizes m;
     meta_strides := meta_strides m;
     meta_total_size := meta_total_size m |}.

Definition set_total_size (v : Z) (m : bo_metadata) : bo_metadata :=
  {| meta_width := meta_width m; meta_height := meta_height m;
     meta_format := meta_format m; meta_tiling := meta_tiling m;
     meta_num_planes := meta_num_planes m;
     meta_offsets := meta_offsets m; meta_sizes := meta_sizes m;
     meta_strides := meta_strides m;
     meta_total_size := v |}.

Definition set_num_planes (n : nat) (m : bo_metadata) : bo_metadata :=
  {| meta_width := meta_width m; meta_height := meta_height m;
     meta_format := meta_format m; meta_tiling := meta_tiling m;
     meta_num_planes := n;
     meta_offsets := meta_offsets m; meta_sizes := meta_sizes m;
     meta_strides := meta_strides m;
     meta_total_size := meta_total_size m |}.

Definition set_tiling (t : Z) (m : bo_metadata) : bo_metadata :=
  {| meta_width := meta_width m; meta_height := meta_height m;
     meta_format := meta_format m; meta_tiling := t;
     meta_num_planes := meta_num_planes m;
     meta_offsets := meta_offsets m; meta_sizes := meta_sizes m;
     meta_strides := meta_strides m;
     meta_total_size := meta_total_size m |}.

Definition with_meta (m : bo_metadata) (b : bo) : bo :=
  {| meta := m; handles := handles b |}.

Definition set_handle (p : nat) (h : Z) (b : bo) : bo :=
  {| meta := meta b; handles := <[p := h]> (handles b) |}.

(** The per-plane arrays of a buffer object have [DRV_MAX_PLANES] slots. *)
Definition meta_wf (m : bo_metadata) : Prop :=
  length (meta_offsets m) = DRV_MAX_PLANES /\
  length (meta_sizes m) = DRV_MAX_PLANES /\
  length (meta_strides m) = DRV_MAX_PLANES.

Definition bo_wf (b : bo) : Prop :=
  meta_wf (meta b) /\ length (handles b) = DRV_MAX_PLANES.

(** ** The layout resolver (helpers.c) *)

(** The body of the [for (p = 0; p < num_planes; p++)] loop of
    [drv_bo_from_format_and_padding], run for the [n] planes from [p] on;
    [offset] is the running local of the same name. *)
Fixpoint fill_planes (n p : nat) (stride aligned_height format : Z)
    (padding : list Z) (m : bo_metadata) (offset : Z) : outcome (bo_metadata * Z) :=
  match n with
  | O => Ok (m, offset)
  | S n' =>
      let m1 := set_stride p (subsample_stride stride format p) m in
      sz ← drv_size_from_format format (meta_strides m1 !!! p) aligned_height p;
      let m2 := set_size p (wrap32 (sz + padding !!! p)) m1 in
      let m3 := set_offset p offset m2 in
      fill_planes n' (S p) stride aligned_height format padding m3
        (wrap32 (offset + meta_sizes m3 !!! p))
  end.

Definition drv_bo_from_format_and_padding (b : bo) (stride aligned_height format : Z)
    (padding : list Z) : outcome (Z * bo) :=
  let num_planes := drv_num_planes_from_format format in
  _ ← assert (negb (num_planes =? 0)%nat);
  _ ← (if format =? DRM_FORMAT_YVU420_ANDROID
       then _ ← assert (aligned_height =? meta_height (meta b));
            assert (stride =? ALIGN stride 32)
       else Ok tt);
  r ← fill_planes num_planes 0 stride aligned_height format padding (meta b) 0;
  Ok (0, with_meta (set_total_size r.2 r.1) b).

Definition drv_bo_from_format (b : bo) (stride aligned_height format : Z) : outcome (Z * bo) :=
  drv_bo_from_format_and_padding b stride aligned_height format [0; 0; 0; 0].

(** A zeroed buffer object of the given format and size, as [drv_bo_new]
    hands it to the backend. *)
Definition blank_bo (width height format : Z) : bo :=
  {| meta := {| meta_width := width; meta_height := height; meta_format := format;
                meta_tiling := 0;
                meta_num_planes := drv_num_planes_from_format format;
                meta_offsets := [0; 0; 0; 0]; meta_sizes := [0; 0; 0; 0];
                meta_strides := [0; 0; 0; 0]; meta_total_size := 0 |};
     handles := [0; 0; 0; 0] |}.

(** ** Stating the layout invariant *)

Definition sumZ (l : list Z) : Z := foldr Z.add 0 l.

(** The invariant of the design document, on unbounded integers, for a
    buffer of [n] planes. *)
Definition exact_layout (n : nat) (m : bo_metadata) : Prop :=
  meta_total_size m = sumZ (take n (meta_sizes m)) /\
  (forall p : nat, (p < n)%nat ->
     meta_offsets m !!! p = sumZ (take p (meta_sizes m))) /\
  (forall p q : nat, (p <= q < n)%nat ->
     meta_offsets m !!! p <= meta_offsets m !!! q).

(** The same equalities as the code keeps them: in [uint32_t]. *)
Definition wrapped_layout (n : nat) (m : bo_metadata) : Prop :=
  meta_total_size m = wrap32 (sumZ (take n (meta_sizes m))) /\
  (forall p : nat, (p < n)%nat ->
     meta_offsets m !!! p = wrap32 (sumZ (take p (meta_sizes m)))).

(** [q] is [n / d] rounded up. *)
Definition is_ceil_div (n d q : Z) : Prop := d * (q - 1) < n <= d * q.

(** ** Combination registry (helpers.c) *)

(** Modelled from the spec: drv_priv.h ([struct format_metadata],
    [struct combination]) is not among the sources.  A combination is
    "(format, tiling id, modifier, priority, usage bitmask)". *)
Record format_metadata : Type := {
  priority : Z;
  tiling : Z;
  modifier : Z
}.

Record combination : Type := {
  combo_format : Z;
  metadata : format_metadata;
  use_flags : Z
}.

Definition set_use_flags (u : Z) (c : combination) : combination :=
  {| combo_format := combo_format c; metadata := metadata c; use_flags := u |}.

(** Modelled from the spec: drv_array_helpers.c is not among the sources.
    A [struct drv_array] is "a growable ordered collection": a list, with
    [drv_array_size] its length, [drv_array_at_idx] the lookup,
    [drv_array_append] adding at the end and [drv_array_remove] an
    order-preserving removal that shifts the later entries down. *)
Definition drv_array_size {A : Type} (a : list A) : nat := length a.
Definition drv_array_at_idx {A : Type} (a : list A) (idx : nat) : option A := a !! idx.
Definition drv_array_append {A : Type} (a : list A) (x : A) : list A := a ++ [x].
Definition drv_array_remove {A : Type} (a : list A) (idx : nat) : list A := delete idx a.

Definition drv_add_combination (combos : list combination) (format : Z)
    (md : format_metadata) (flags : Z) : list combination :=
  drv_array_append combos {| combo_format := format; metadata := md; use_flags := flags |}.

Fixpoint drv_add_combinations (combos : list combination) (formats : list Z)
    (md : format_metadata) (flags : Z) : list combination :=
  match formats with
  | [] => combos
  | f :: rest => drv_add_combinations (drv_add_combination combos f md flags) rest md flags
  end.

(** The test of the [if] in [drv_modify_combination]. *)
Definition combo_matches (format : Z) (md : format_metadata) (combo : combination) : bool :=
  (combo_format combo =? format) && (tiling (metadata combo) =? tiling md)
  && (modifier (metadata combo) =? modifier md).

(** The loop of [drv_modify_combination], for the [n] indices from [i] on. *)
Fixpoint modify_loop (n i : nat) (combos : list combination) (format : Z)
    (md : format_metadata) (flags : Z) : list combination :=
  match n with
  | O => combos
  | S n' =>
      let combos' :=
        match drv_array_at_idx combos i with
        | Some combo =>
            if combo_matches format md combo
            then <[i := set_use_flags (Z.lor (use_flags combo) flags) combo]> combos
            else combos
        | None => combos
        end in
      modify_loop n' (S i) combos' format md flags
  end.

Definition drv_modify_combination (combos : list combination) (format : Z)
    (md : format_metadata) (flags : Z) : list combination :=
  modify_loop (drv_array_size combos) 0 combos format md flags.

(** ** Modifier selector (helpers.c) *)

(** The inner [for (j = 0; j < count; j++)] loop: the first candidate equal
    to [wanted], if any. *)
Fixpoint scan_modifiers (modifiers : list Z) (wanted : Z) : option Z :=
  match modifiers with
  | [] => None
  | m :: rest => if m =? wanted then Some m else scan_modifiers rest wanted
  end.

Fixpoint drv_pick_modifier (modifiers modifier_order : list Z) : Z :=
  match modifier_order with
  | [] => DRM_FORMAT_MOD_LINEAR
  | o :: rest =>
      match scan_modifiers modifiers o with
      | Some m => m
      | None => drv_pick_modifier modifiers rest
      end
  end.

Fixpoint drv_has_modifier (l : list Z) (m : Z) : bool :=
  match l with
  | [] => false
  | x :: rest => if x =? m then true else drv_has_modifier rest m
  end.

(** ** Handle reference counts (drm_helpers.c) *)

(** libdrm's hash table ([xf86drmHash.c]): [drmHashInsert] refuses a key
    that is present, [drmHashDelete] of an absent key changes nothing. *)
Definition drmHashLookup (t : gmap Z Z) (key : Z) : option Z := t !! key.

Definition drmHashDelete (t : gmap Z Z) (key : Z) : gmap Z Z := delete key t.

Definition drmHashInsert (t : gmap Z Z) (key value : Z) : gmap Z Z :=
  match t !! key with
  | Some _ => t
  | None => <[key := value]> t
  end.

Definition drv_get_reference_count (buffer_table : gmap Z Z) (b : bo) (plane : nat) : Z :=
  match drmHashLookup buffer_table (handles b !!! plane) with
  | Some count => count
  | None => 0
  end.

Definition drv_increment_reference_count (buffer_table : gmap Z Z) (b : bo) (plane : nat)
    : gmap Z Z :=
  let num := drv_get_reference_count buffer_table b plane in
  let t := drmHashDelete buffer_table (handles b !!! plane) in
  drmHashInsert t (handles b !!! plane) (wrap64 (num + 1)).

Definition drv_decrement_reference_count (buffer_table : gmap Z Z) (b : bo) (plane : nat)
    : gmap Z Z :=
  let num := drv_get_reference_count buffer_table b plane in
  let t := drmHashDelete buffer_table (handles b !!! plane) in
  if 0 <? num
  then drmHashInsert t (handles b !!! plane) (wrap64 (num - 1))
  else t.

(** ** The kernel interface *)

Inductive ioctl_request : Type :=
| DRM_IOCTL_MODE_CREATE_DUMB (width height bpp flags : Z)
| DRM_IOCTL_MODE_DESTROY_DUMB (handle : Z)
| DRM_IOCTL_GEM_CLOSE (handle : Z)
| DRM_IOCTL_PRIME_FD_TO_HANDLE (fd : Z).

(** What one [drmIoctl] leaves behind: its return value, the [errno] of a
    failure and the fields the kernel writes back. *)
Record ioctl_reply : Type := {
  ret : Z;
  errno : Z;
  out_handle : Z;
  out_pitch : Z;
  out_size : Z
}.

(** The requests issued so far, oldest first, and the current [errno]. *)
Record kstate : Type := {
  klog : list ioctl_request;
  kerrno : Z
}.

(* drv_helpers.h, not among the sources *)
Definition BO_QUIRK_NONE : Z := 0.
Definition BO_QUIRK_DUMB32BPP : Z := 1.

Record drv_import_fd_data : Type := {
  fds : list Z;
  data_tiling : Z
}.

Section Kernel.
(** The kernel answers a request knowing the requests made before it. *)
Variable drmIoctl : list ioctl_request -> ioctl_request -> ioctl_reply.

Definition do_ioctl (k : kstate) (req : ioctl_request) : ioctl_reply * kstate :=
  let r := drmIoctl (klog k) req in
  (r, {| klog := klog k ++ [req];
         kerrno := if ret r =? 0 then kerrno k else errno r |}).

(** [for (i = 0; i < plane; i++) if (handles[i] == handles[plane]) break;]
    run for the [n] indices from [i] on: the value of [i] after the loop. *)
Fixpoint first_alias (hs : list Z) (plane n i : nat) : nat :=
  match n with
  | O => i
  | S n' =>
      if hs !!! i =? hs !!! plane then i else first_alias hs plane n' (S i)
  end.

Fixpoint gem_destroy_loop (n plane : nat) (b : bo) (k : kstate) (error : Z)
    : Z * kstate :=
  match n with
  | O => (error, k)
  | S n' =>
      let i := first_alias (handles b) plane plane 0 in
      if negb (i =? plane)%nat
      then gem_destroy_loop n' (S plane) b k error
      else
        let '(r, k1) := do_ioctl k (DRM_IOCTL_GEM_CLOSE (handles b !!! plane)) in
        gem_destroy_loop n' (S plane) b k1
          (if ret r =? 0 then error else - kerrno k1)
  end.

Definition drv_gem_bo_destroy (b : bo) (k : kstate) : Z * kstate :=
  gem_destroy_loop (meta_num_planes (meta b)) 0 b k 0.

(** The loop of [drv_prime_bo_import] for the [n] planes from [plane] on;
    the result is the return value, the buffer object and the kernel
    state. *)
Fixpoint prime_import_loop (n plane : nat) (b : bo) (data : drv_import_fd_data)
    (k : kstate) : Z * bo * kstate :=
  match n with
  | O => (0, with_meta (set_tiling (data_tiling data) (meta b)) b, k)
  | S n' =>
      let '(r, k1) := do_ioctl k (DRM_IOCTL_PRIME_FD_TO_HANDLE (fds data !!! plane)) in
      if negb (ret r =? 0)
      then
        let b1 := with_meta (set_num_planes plane (meta b)) b in
        let '(_, k2) := drv_gem_bo_destroy b1 k1 in
        (- kerrno k2, b1, k2)
      else prime_import_loop n' (S plane) (set_handle plane (out_handle r) b) data k1
  end.

Definition drv_prime_bo_import (b : bo) (data : drv_import_fd_data) (k : kstate)
    : Z * bo * kstate :=
  prime_import_loop (meta_num_planes (meta b)) 0 b data k.

(** [for (plane = 0; plane < bo->meta.num_planes; plane++)
      bo->handles[plane].u32 = create_dumb.handle;] *)
Fixpoint set_all_handles (n plane : nat) (h : Z) (b : bo) : bo :=
  match n with
  | O => b
  | S n' => set_all_handles n' (S plane) h (set_handle plane h b)
  end.

(** The [switch (format)] of [drv_dumb_bo_create_ex]: the values of
    [height], [aligned_width] and [aligned_height] after it. *)
Definition dumb_alignment (b : bo) (width height format : Z) : Z * Z * Z :=
  if format =? DRM_FORMAT_R16
  then (height, ALIGN width 16, height)
  else if format =? DRM_FORMAT_YVU420_ANDROID
  then
    let height := meta_height (meta b) in
    (height, ALIGN width 32, wrap32 (3 * DIV_ROUND_UP height 2))
  else if format_in format [DRM_FORMAT_YVU420; DRM_FORMAT_NV12; DRM_FORMAT_NV21]
  then (height, width, wrap32 (3 * DIV_ROUND_UP height 2))
  else (height, width, height).

Definition drv_dumb_bo_create_ex (b : bo) (width height format flags quirks : Z)
    (k : kstate) : outcome (Z * bo * kstate) :=
  let '(height, aligned_width, aligned_height) := dumb_alignment b width height format in
  layout ← deref_layout format;
  let bpp0 := bytes_per_pixel layout !!! 0%nat in
  let '(aligned_width, bpp) :=
    if negb (Z.land quirks BO_QUIRK_DUMB32BPP =? 0)
    then (DIV_ROUND_UP (wrap32 (aligned_width * bpp0)) 4, 32)
    else (aligned_width, wrap32 (bpp0 * 8)) in
  let '(r, k1) :=
    do_ioctl k (DRM_IOCTL_MODE_CREATE_DUMB aligned_width aligned_height bpp 0) in
  if negb (ret r =? 0)
  then Ok (- kerrno k1, b, k1)
  else
    filled ← drv_bo_from_format b (out_pitch r) height format;
    let b1 := set_all_handles (meta_num_planes (meta filled.2)) 0 (out_handle r) filled.2 in
    Ok (0, with_meta (set_total_size (out_size r) (meta b1)) b1, k1).

Definition drv_dumb_bo_create (b : bo) (width height format flags : Z) (k : kstate)
    : outcome (Z * bo * kstate) :=
  drv_dumb_bo_create_ex b width height format flags BO_QUIRK_NONE k.
End Kernel.

(** ** Mapping cache (helpers.c) *)

(** Modelled from the spec: drv_priv.h ([struct vma], [struct mapping]) is
    not among the sources.  A mapping record points to a vma; several
    records may point to the same vma, whose [refcount] (a 32-bit counter)
    counts them. *)
Record vma : Type := {
  vma_handle : Z;
  vma_refcount : Z;
  vma_length : Z
}.

Record mapping : Type := {
  mapping_vma : nat   (* the address of the vma *)
}.

Definition set_refcount (r : Z) (v : vma) : vma :=
  {| vma_handle := vma_handle v; vma_refcount := r; vma_length := vma_length v |}.

(** The part of the driver the destruction of mappings works on: the cache
    [drv->mappings], the vmas that are allocated, and the addresses handed
    to the backend's [bo_unmap] so far, oldest first. *)
Record ledger : Type := {
  mappings : list mapping;
  vmas : gmap nat vma;
  unmapped : list nat
}.

(** How the [while] loop over one plane ends: it runs off the end of the
    cache at [idx], or the function returns [ret] from inside it. *)
Inductive scan_exit : Type :=
| Continue (idx : nat) (st : ledger)
| Return (ret : Z) (st : ledger).

Section Backend.
(** [bo->drv->backend->bo_unmap]: its return value, given the unmap calls
    made before, the buffer object, and the vma with its address. *)
Variable bo_unmap : list nat -> bo -> nat -> vma -> Z.

(** The [while (idx < drv_array_size(bo->drv->mappings))] loop.  Each
    iteration either increments [idx] or removes an entry, so [fuel]
    iterations are enough when [fuel] is the size of the cache; the loop
    never reaches [None]. *)
Fixpoint scan_mappings (fuel : nat) (b : bo) (plane idx : nat) (st : ledger)
    : option (outcome scan_exit) :=
  match drv_array_at_idx (mappings st) idx with
  | None => Some (Ok (Continue idx st))
  | Some m =>
      match fuel with
      | O => None
      | S fuel' =>
          match vmas st !! mapping_vma m with
          | None => Some (Fault UseAfterFree)
          | Some v =>
              if negb (vma_handle v =? handles b !!! plane)
              then scan_mappings fuel' b plane (S idx) st
              else
                let v' := set_refcount (wrap32 (vma_refcount v - 1)) v in
                let st1 := {| mappings := mappings st;
                              vmas := <[mapping_vma m := v']> (vmas st);
                              unmapped := unmapped st |} in
                if vma_refcount v' =? 0
                then
                  let r := bo_unmap (unmapped st1) b (mapping_vma m) v' in
                  let st2 := {| mappings := mappings st1; vmas := vmas st1;
                                unmapped := unmapped st1 ++ [mapping_vma m] |} in
                  if negb (r =? 0)
                  then Some (Ok (Return r st2))
                  else
                    scan_mappings fuel' b plane idx
                      {| mappings := drv_array_remove (mappings st2) idx;
                         vmas := delete (mapping_vma m) (vmas st2);
                         unmapped := unmapped st2 |}
                else
                  scan_mappings fuel' b plane idx
                    {| mappings := drv_array_remove (mappings st1) idx;
                       vmas := vmas st1;
                       unmapped := unmapped st1 |}
          end
      end
  end.

(** The [for (plane = 0; ...)] loop around it, for the [n] planes from
    [plane] on.  [idx] is set to 0 once, before this loop. *)
Fixpoint mapping_destroy_loop (n plane idx : nat) (b : bo) (st : ledger)
    : option (outcome (Z * ledger)) :=
  match n with
  | O => Some (Ok (0, st))
  | S n' =>
      match scan_mappings (drv_array_size (mappings st)) b plane idx st with
      | None => None
      | Some (Fault f) => Some (Fault f)
      | Some (Ok (Return r st')) => Some (Ok (r, st'))
      | Some (Ok (Continue idx' st')) => mapping_destroy_loop n' (S plane) idx' b st'
      end
  end.

Definition drv_mapping_destroy (b : bo) (st : ledger) : option (outcome (Z * ledger)) :=
  mapping_destroy_loop (meta_num_planes (meta b)) 0 0 b st.
End Backend.

(** ** Stating the properties of the mapping cache *)

(** The number of entries of the cache that point to the vma at [a]. *)
Definition vma_uses (a : nat) (ms : list mapping) : nat :=
  length (filter (fun m => mapping_vma m = a) ms).

(** Every entry points to an allocated vma whose refcount is the number of
    entries pointing to it. *)
Definition ledger_wf (st : ledger) : Prop :=
  forall m, m ∈ mappings st ->
    exists v, vmas st !! mapping_vma m = Some v /\
              is_uint32 (vma_refcount v) /\
              vma_refcount v = Z.of_nat (vma_uses (mapping_vma m) (mappings st)).

(** The handle an entry is tied to. *)
Definition mapping_handle (heap : gmap nat vma) (m : mapping) : option Z :=
  vma_handle <$> heap !! mapping_vma m.

Definition handle_matches (heap : gmap nat vma) (h : Z) (m : mapping) : bool :=
  match mapping_handle heap m with
  | Some h' => h' =? h
  | None => false
  end.

(** The vmas the entries for handle [h] give up: each at the last entry
    that points to it. *)
Fixpoint released_vmas (heap : gmap nat vma) (h : Z) (ms : list mapping) : list nat :=
  match ms with
  | [] => []
  | m :: rest =>
      if handle_matches heap h m && (vma_uses (mapping_vma m) rest =? 0)%nat
      then mapping_vma m :: released_vmas heap h rest
      else released_vmas heap h rest
  end.

(** The cache without the entries for handle [h]. *)
Definition other_mappings (heap : gmap nat vma) (h : Z) (ms : list mapping) : list mapping :=
  filter (fun m => handle_matches heap h m = false) ms.

(** The stride and the size the resolver gives plane [p], written out. *)
Definition plane_stride (format stride : Z) (p : nat) : Z :=
  subsample_stride stride format p.

Definition plane_size (l : planar_layout) (format stride aligned_height : Z)
    (padding : list Z) (p : nat) : Z :=
  wrap32 (wrap32 (plane_stride format stride p *
                  DIV_ROUND_UP aligned_height (vertical_subsampling l !!! p))
          + padding !!! p).

(** The legacy three-plane YVU formats whose chroma strides are halved. *)
Definition is_legacy_yvu420 (format : Z) : Prop :=
  format = DRM_FORMAT_YVU420 \/ format = DRM_FORMAT_YVU420_ANDROID.

(** The two asserts [drv_bo_from_format_and_padding] makes for the Android
    YV12 format hold. *)
Definition resolver_asserts_hold (b : bo) (stride aligned_height format : Z) : Prop :=
  format = DRM_FORMAT_YVU420_ANDROID ->
  aligned_height = meta_height (meta b) /\ stride = ALIGN stride 32.

(** A padding array as the caller passes it: [DRV_MAX_PLANES] values of
    type [uint32_t]. *)
Definition padding_wf (padding : list Z) : Prop :=
  length padding = DRV_MAX_PLANES /\ Forall is_uint32 padding.

(** What the widening does to a single record. *)
Definition widen_record (format : Z) (md : format_metadata) (flags : Z)
    (combo : combination) : combination :=
  if combo_matches format md combo
  then set_use_flags (Z.lor (use_flags combo) flags) combo
  else combo.

(** Plane [q] is the first plane of the buffer object to carry its handle. *)
Definition no_earlier_alias (hs : list Z) (q : nat) : bool :=
  forallb (fun j => negb (hs !!! j =? hs !!! q)) (seq 0 q).

(** The handles [drv_gem_bo_destroy] is to close when it looks at the planes
    [qs]: those of the planes that carry their handle first. *)
Definition handles_to_close (hs : list Z) (qs : list nat) : list Z :=
  (fun q => hs !!! q) <$> filter (fun q => no_earlier_alias hs q = true) qs.

(** The requests [drv_prime_bo_import] has made once the planes below [i]
    are imported. *)
Definition import_requests (data : drv_import_fd_data) (i : nat) : list ioctl_request :=
  (fun p => DRM_IOCTL_PRIME_FD_TO_HANDLE (fds data !!! p)) <$> seq 0 i.

(** The kernel's answer to the import of plane [i], when the planes below
    it have been imported from the kernel state [k]. *)
Definition import_reply (drmIoctl : list ioctl_request -> ioctl_request -> ioctl_reply)
    (k : kstate) (data : drv_import_fd_data) (i : nat) : ioctl_reply :=
  drmIoctl (klog k ++ import_requests data i)
    (DRM_IOCTL_PRIME_FD_TO_HANDLE (fds data !!! i)).

(** The scan for handle [h] went through the entries [rest] that followed
    the entries [prefix]: the entries for [h] are gone from the cache, the
    others are kept in their order, and every vma of [h] was handed to the
    backend once and freed; no other vma changed.  [heap0] is the heap the
    handles are read in, [heap] and [log] the vmas and the unmap calls
    before the scan. *)
Definition swept (h : Z) (prefix rest : list mapping) (heap0 heap : gmap nat vma)
    (log : list nat) (st' : ledger) : Prop :=
  mappings st' = prefix ++ other_mappings heap0 h rest /\
  unmapped st' = log ++ released_vmas heap0 h rest /\
  (forall a, a ∈ released_vmas heap0 h rest -> vmas st' !! a = None) /\
  (forall a, (forall m, m ∈ rest -> mapping_vma m = a -> handle_matches heap0 h m = false) ->
     vmas st' !! a = heap !! a).

(** The scan for handle [h] stopped with the error [v] of a failed unmap:
    the entry whose vma could not be unmapped and all entries behind it
    are still in the cache, that vma is still allocated, with refcount 0,
    and the unmap calls made are the first of those a full scan makes. *)
Definition stopped (h : Z) (prefix rest : list mapping) (heap0 : gmap nat vma)
    (log : list nat) (v : Z) (st' : ledger) : Prop :=
  v <> 0 /\
  exists (i : nat) (m : mapping),
    rest !! i = Some m /\ handle_matches heap0 h m = true /\
    mappings st' = prefix ++ other_mappings heap0 h (take i rest) ++ drop i rest /\
    (exists l l', unmapped st' = log ++ l ++ [mapping_vma m] /\
                  released_vmas heap0 h rest = l ++ mapping_vma m :: l') /\
    (exists v', vmas st' !! mapping_vma m = Some v' /\ vma_refcount v' = 0).

(** What the scan relies on while it is at the entries [rest]: each of them
    points to an allocated vma, the refcount of a vma of handle [h] is
    the number of entries still to come that point to it, and but for its
    refcount the vma is as it was in [heap0]. *)
Definition scan_inv (h : Z) (heap0 heap : gmap nat vma) (rest : list mapping) : Prop :=
  forall m, m ∈ rest ->
    exists v, heap !! mapping_vma m = Some v /\
      is_uint32 (vma_refcount v) /\
      handle_matches heap0 h m = (vma_handle v =? h) /\
      (vma_handle v = h -> vma_refcount v = Z.of_nat (vma_uses (mapping_vma m) rest)) /\
      (exists v0, heap0 !! mapping_vma m = Some v0 /\ set_refcount 0 v0 = set_refcount 0 v).

(** The answer of the backend to the [i]-th unmap call of a scan that is to
    give up the vmas [released], in this order, after the calls [log]: the
    backend is handed the vma as it is allocated in [heap], its refcount
    at 0. *)
Definition unmap_answer (bo_unmap : list nat -> bo -> nat -> vma -> Z) (b : bo)
    (heap : gmap nat vma) (log released : list nat) (i : nat) : option Z :=
  match released !! i with
  | Some a =>
      match heap !! a with
      | Some v => Some (bo_unmap (log ++ take i released) b a (set_refcount 0 v))
      | None => None
      end
  | None => None
  end.

(** ** Sample inputs *)

(** A kernel that grants every request: handle 7, pitch 128. *)
Definition granting_kernel (log : list ioctl_request) (req : ioctl_request) : ioctl_reply :=
  {| ret := 0; errno := 0; out_handle := 7; out_pitch := 128; out_size := 14592 |}.

(** A kernel that imports every file descriptor but 11 (handle: the
    descriptor plus 100), and fails the import of 11 with EINVAL. *)
Definition picky_kernel (log : list ioctl_request) (req : ioctl_request) : ioctl_reply :=
  match req with
  | DRM_IOCTL_PRIME_FD_TO_HANDLE fd =>
      if fd =? 11
      then {| ret := -1; errno := 22; out_handle := 0; out_pitch := 0; out_size := 0 |}
      else {| ret := 0; errno := 0; out_handle := fd + 100; out_pitch := 0; out_size := 0 |}
  | _ => {| ret := 0; errno := 0; out_handle := 0; out_pitch := 0; out_size := 0 |}
  end.

Definition fresh_kstate : kstate := {| klog := []; kerrno := 0 |}.

(** A buffer object with the given handles in its first planes. *)
Definition bo_with_handles (n : nat) (hs : list Z) : bo :=
  {| meta := {| meta_width := 64; meta_height := 64; meta_format := DRM_FORMAT_NV12;
                meta_tiling := 0; meta_num_planes := n;
                meta_offsets := [0; 0; 0; 0]; meta_sizes := [0; 0; 0; 0];
                meta_strides := [0; 0; 0; 0]; meta_total_size := 0 |};
     handles := hs |}.

Definition unmap_ok (log : list nat) (b : bo) (a : nat) (v : vma) : Z := 0.

(** A cache with two entries on one vma of handle 5 and, between them, an
    entry on a vma of handle 7. *)
Definition sample_ledger : ledger :=
  {| mappings := [ {| mapping_vma := 1 |}; {| mapping_vma := 2 |}; {| mapping_vma := 1 |} ];
     vmas := <[1%nat := {| vma_handle := 5; vma_refcount := 2; vma_length := 4096 |}]>
             (<[2%nat := {| vma_handle := 7; vma_refcount := 1; vma_length := 4096 |}]> ∅);
     unmapped := [] |}.


(** A cache with two entries of handle 5, each on a vma of its own. *)
Definition two_vma_ledger : ledger :=
  {| mappings := [ {| mapping_vma := 1 |}; {| mapping_vma := 2 |} ];
     vmas := <[1%nat := {| vma_handle := 5; vma_refcount := 1; vma_length := 4096 |}]>
             (<[2%nat := {| vma_handle := 5; vma_refcount := 1; vma_length := 8192 |}]> ∅);
     unmapped := [] |}.


(** A buffer object of three planes, of sizes 4096, 2048 and 1024; planes 0
    and 2 carry handle 7, plane 1 carries handle 9. *)
Definition sized_bo : bo :=
  {| meta := {| meta_width := 64; meta_height := 64; meta_format := DRM_FORMAT_YVU420;
                meta_tiling := 0; meta_num_planes := 3;
                meta_offsets := [0; 4096; 6144; 0]; meta_sizes := [4096; 2048; 1024; 0];
                meta_strides := [64; 32; 32; 0]; meta_total_size := 7168 |};
     handles := [7; 9; 7; 0] |}.

(** An import of two planes, from the file descriptors 10 and 11. *)
Definition two_plane_import : drv_import_fd_data :=
  {| fds := [10; 11; 0; 0]; data_tiling := 0 |}.

(** ** Further operations of helpers.c *)

(* drv.h, not among the sources: the project's flexible format codes *)
Definition DRM_FORMAT_FLEX_IMPLEMENTATION_DEFINED : Z := fourcc_code "9" "9" "9" "8".
Definition DRM_FORMAT_FLEX_YCbCr_420_888 : Z := fourcc_code "9" "9" "9" "9".

(* drm_fourcc.h *)
Definition DRM_FORMAT_MOD_INVALID : Z := 0xffffffffffffff.

(** [drv->backend->num_planes_from_modifier] is an optional hook of the
    backend: [None] is the NULL function pointer. *)
Definition drv_num_planes_from_modifier (hook : option (Z -> Z -> nat))
    (format modifier : Z) : nat :=
  let planes := drv_num_planes_from_format format in
  if (planes =? 0)%nat
  then 0%nat
  else
    match hook with
    | Some num_planes_from_modifier =>
        if negb (modifier =? DRM_FORMAT_MOD_INVALID)
           && negb (modifier =? DRM_FORMAT_MOD_LINEAR)
        then num_planes_from_modifier format modifier
        else planes
    | None => planes
    end.

Definition drv_get_standard_fourcc (fourcc_internal : Z) : Z :=
  if fourcc_internal =? DRM_FORMAT_YVU420_ANDROID
  then DRM_FORMAT_YVU420
  else fourcc_internal.

(** The equalities [drv_stride_from_format] and the resolver are compared
    by: [stride] is a multiple of [a]. *)
Definition aligned_to (a stride : Z) : Prop := stride mod a = 0.

(** The part of a buffer object [drv_bo_from_format_and_padding] may write
    for a format of [n] planes is left as it was: everything but the total
    size and the first [n] strides, sizes and offsets. *)
Definition same_outside_planes (n : nat) (b b' : bo) : Prop :=
  handles b' = handles b /\
  meta_width (meta b') = meta_width (meta b) /\
  meta_height (meta b') = meta_height (meta b) /\
  meta_format (meta b') = meta_format (meta b) /\
  meta_tiling (meta b') = meta_tiling (meta b) /\
  meta_num_planes (meta b') = meta_num_planes (meta b) /\
  (forall p, (n <= p)%nat ->
     meta_strides (meta b') !! p = meta_strides (meta b) !! p /\
     meta_sizes (meta b') !! p = meta_sizes (meta b) !! p /\
     meta_offsets (meta b') !! p = meta_offsets (meta b) !! p).

Section UseFlags.
(** drv.h is not among the sources: the usage bits and [LINEAR_METADATA]
    the functions below name are taken as given. *)
Variables BO_USE_CAMERA_READ BO_USE_CAMERA_WRITE : Z.
Variables BO_USE_CURSOR BO_USE_SCANOUT : Z.
Variables BO_USE_RENDER_MASK BO_USE_TEXTURE_MASK : Z.
Variables BO_USE_HW_VIDEO_ENCODER BO_USE_HW_VIDEO_DECODER : Z.
Variable LINEAR_METADATA : format_metadata.

Definition drv_resolve_format_helper (format use_flags : Z) : Z :=
  if format =? DRM_FORMAT_FLEX_IMPLEMENTATION_DEFINED
  then
    if negb (Z.land use_flags (Z.lor BO_USE_CAMERA_READ BO_USE_CAMERA_WRITE) =? 0)
    then DRM_FORMAT_NV12
    else DRM_FORMAT_XBGR8888
  else if format =? DRM_FORMAT_FLEX_YCbCr_420_888
  then DRM_FORMAT_NV12
  else format.

Definition drv_modify_linear_combinations (combos : list combination)
    : Z * list combination :=
  let combos1 := drv_modify_combination combos DRM_FORMAT_XRGB8888 LINEAR_METADATA
                   (Z.lor BO_USE_CURSOR BO_USE_SCANOUT) in
  let combos2 := drv_modify_combination combos1 DRM_FORMAT_ARGB8888 LINEAR_METADATA
                   (Z.lor BO_USE_CURSOR BO_USE_SCANOUT) in
  (0, combos2).

(** *** vc4.c *)

Definition render_target_formats : list Z :=
  [DRM_FORMAT_ARGB8888; DRM_FORMAT_RGB565; DRM_FORMAT_XRGB8888].

Definition texture_only_formats : list Z := [DRM_FORMAT_NV12; DRM_FORMAT_YVU420].

Definition vc4_init (combos : list combination) : Z * list combination :=
  let combos1 := drv_add_combinations combos render_target_formats LINEAR_METADATA
                   BO_USE_RENDER_MASK in
  let combos2 := drv_add_combinations combos1 texture_only_formats LINEAR_METADATA
                   BO_USE_TEXTURE_MASK in
  let combos3 := drv_modify_combination combos2 DRM_FORMAT_YVU420 LINEAR_METADATA
                   BO_USE_HW_VIDEO_ENCODER in
  let combos4 := drv_modify_combination combos3 DRM_FORMAT_NV12 LINEAR_METADATA
                   (Z.lor (Z.lor BO_USE_HW_VIDEO_DECODER BO_USE_SCANOUT)
                          BO_USE_HW_VIDEO_ENCODER) in
  drv_modify_linear_combinations combos4.

(** The priority list of [vc4_bo_create_with_modifiers]. *)
Definition vc4_modifier_order : list Z := [DRM_FORMAT_MOD_LINEAR].

(** *** magma.c *)

(** The driver as [magma_init] sees it: its file descriptor, the
    connection in [priv] and the registry. *)
Record magma_driver : Type := {
  drv_fd : Z;
  drv_priv : Z;
  drv_combos : list combination
}.

(** libmagma's status of success. *)
Definition MAGMA_STATUS_OK : Z := 0.

Definition magma_formats : list Z :=
  [DRM_FORMAT_ABGR8888; DRM_FORMAT_ARGB8888; DRM_FORMAT_XBGR8888; DRM_FORMAT_XRGB8888].

(** [magma_init], given libmagma's [magma_device_import] and
    [magma_create_connection2] (each: the status and the object handed
    back); the result is the return value, the driver and the devices passed
    to [magma_device_release].  [return NULL] in this [int] function is
    [return 0]. *)
Definition magma_init (magma_device_import magma_create_connection2 : Z -> Z * Z)
    (drv : magma_driver) : Z * magma_driver * list Z :=
  let '(status, device) := magma_device_import (drv_fd drv) in
  if negb (status =? MAGMA_STATUS_OK)
  then (0, drv, [])
  else
    let '(status, connection) := magma_create_connection2 device in
    if negb (status =? MAGMA_STATUS_OK)
    then (0, drv, [device])
    else
      let metadata := {| priority := 0; tiling := 0; modifier := 0 |} in
      (0,
       {| drv_fd := drv_fd drv; drv_priv := connection;
          drv_combos := drv_add_combinations (drv_combos drv) magma_formats metadata
                          (Z.lor BO_USE_RENDER_MASK BO_USE_SCANOUT) |},
       [device]).
End UseFlags.

(** ** Further operations of drm_helpers.c *)

Section KernelMore.
Variable drmIoctl : list ioctl_request -> ioctl_request -> ioctl_reply.

Definition drv_dumb_bo_destroy (b : bo) (k : kstate) : Z * kstate :=
  let '(r, k1) := do_ioctl drmIoctl k (DRM_IOCTL_MODE_DESTROY_DUMB (handles b !!! 0%nat)) in
  if negb (ret r =? 0) then (- kerrno k1, k1) else (0, k1).
End KernelMore.

(* sys/mman.h *)
Definition PROT_READ : Z := 1.
Definition PROT_WRITE : Z := 2.
Definition MAP_FAILED : Z := 2 ^ 64 - 1.

Definition set_length (len : Z) (v : vma) : vma :=
  {| vma_handle := vma_handle v; vma_refcount := vma_refcount v; vma_length := len |}.

(** [for (i = 0; i < bo->meta.num_planes; i++)
      if (bo->handles[i].u32 == bo->handles[plane].u32)
        vma->length += bo->meta.sizes[i];]
    for the [n] planes from [i] on; [vma->length] is a [size_t]. *)
Fixpoint add_alias_sizes (n i : nat) (b : bo) (plane : nat) (len : Z) : Z :=
  match n with
  | O => len
  | S n' =>
      add_alias_sizes n' (S i) b plane
        (if handles b !!! i =? handles b !!! plane
         then wrap64 (len + meta_sizes (meta b) !!! i)
         else len)
  end.

Section DumbMap.
(** drv.h is not among the sources: the write bit of the map flags. *)
Variable BO_MAP_WRITE : Z.
(** [DRM_IOCTL_MODE_MAP_DUMB] for a handle: the return value and the offset
    the kernel hands back; [mmap] for a length, a protection and an
    offset: the address, or [MAP_FAILED]. *)
Variable map_dumb : Z -> Z * Z.
Variable mmap : Z -> Z -> Z -> Z.

Definition drv_get_prot (map_flags : Z) : Z :=
  if negb (Z.land BO_MAP_WRITE map_flags =? 0)
  then Z.lor PROT_WRITE PROT_READ
  else PROT_READ.

Definition drv_dumb_bo_map (b : bo) (v : vma) (plane : nat) (map_flags : Z) : Z * vma :=
  let '(r, offset) := map_dumb (handles b !!! plane) in
  if negb (r =? 0)
  then (MAP_FAILED, v)
  else
    let v' := set_length (add_alias_sizes (meta_num_planes (meta b)) 0 b plane
                            (vma_length v)) v in
    (mmap (vma_length v') (drv_get_prot map_flags) offset, v').
End DumbMap.

(** ** Stating further properties *)

(** The record [drv_add_combination] appends. *)
Definition new_combination (md : format_metadata) (flags : Z) (format : Z) : combination :=
  {| combo_format := format; metadata := md; use_flags := flags |}.

(** [n] calls of a reference-count operation on one plane. *)
Fixpoint repeat_count (op : gmap Z Z -> gmap Z Z) (n : nat) (t : gmap Z Z) : gmap Z Z :=
  match n with
  | O => t
  | S n' => repeat_count op n' (op t)
  end.

(** The sizes of the planes of [b] among the first [n] that carry the handle
    of [plane]. *)
Definition alias_sizes (n : nat) (b : bo) (plane : nat) : list Z :=
  (fun i => meta_sizes (meta b) !!! i) <$>
    filter (fun i => handles b !!! i = handles b !!! plane) (seq 0 n).

(** The reply to the [i]-th close of [closes], made after the closes
    before it. *)
Definition close_reply (drmIoctl : list ioctl_request -> ioctl_request -> ioctl_reply)
    (k : kstate) (closes : list Z) (i : nat) (h : Z) : ioctl_reply :=
  drmIoctl (klog k ++ (DRM_IOCTL_GEM_CLOSE <$> take i closes)) (DRM_IOCTL_GEM_CLOSE h).

(** A kernel that imports every file descriptor (handle: the descriptor
    plus 100) and grants everything else. *)
Definition importing_kernel (log : list ioctl_request) (req : ioctl_request) : ioctl_reply :=
  match req with
  | DRM_IOCTL_PRIME_FD_TO_HANDLE fd =>
      {| ret := 0; errno := 0; out_handle := fd + 100; out_pitch := 0; out_size := 0 |}
  | _ => {| ret := 0; errno := 0; out_handle := 0; out_pitch := 0; out_size := 0 |}
  end.

(** * Properties *)

(** One step of the [outcome] monad: a bind whose first part is known. *)
Ltac run_outcome := unfold mbind, outcome_bind; cbv beta iota.

(** ** Arithmetic *)

Lemma wrap32_range z : is_uint32 (wrap32 z).
Proof. unfold is_uint32, wrap32. apply Z.mod_pos_bound. lia. Qed.

Lemma wrap32_small z : is_uint32 z -> wrap32 z = z.
Proof. unfold is_uint32, wrap32. intros. apply Z.mod_small. lia. Qed.

Lemma wrap32_add_l a b : wrap32 (wrap32 a + b) = wrap32 (a + b).
Proof. unfold wrap32. apply Zplus_mod_idemp_l. Qed.

Lemma DIV_ROUND_UP_ceil n d :
  0 < d -> 0 <= n -> n + d - 1 < 2 ^ 32 -> is_ceil_div n d (DIV_ROUND_UP n d).
Proof.
  intros Hd Hn Hfit. unfold is_ceil_div, DIV_ROUND_UP.
  rewrite wrap32_small by (unfold is_uint32; lia).
  pose proof (Z.div_mod (n + d - 1) d ltac:(lia)) as Hdm.
  pose proof (Z.mod_pos_bound (n + d - 1) d Hd) as Hb.
  nia.
Qed.

Lemma DIV_ROUND_UP_uint32 n d : 0 < d -> is_uint32 (DIV_ROUND_UP n d).
Proof.
  intros Hd. unfold DIV_ROUND_UP.
  pose proof (wrap32_range (n + d - 1)) as [H0 H1]. unfold is_uint32. split.
  - apply Z.div_pos; lia.
  - apply Z.div_lt_upper_bound; nia.
Qed.

(** [ALIGN] by a power of two rounds the wrapped sum down to a multiple. *)
Lemma ALIGN_pow2 a n :
  0 <= n -> ALIGN a (2 ^ n) = wrap32 (a + 2 ^ n - 1) / 2 ^ n * 2 ^ n.
Proof.
  intros Hn. unfold ALIGN.
  replace (Z.lnot (2 ^ n - 1)) with (Z.lnot (Z.ones n))
    by (rewrite Z.ones_equiv; f_equal; lia).
  rewrite <- Z.ldiff_land, Z.ldiff_ones_r, Z.shiftr_div_pow2, Z.shiftl_mul_pow2 by lia.
  done.
Qed.

Lemma ALIGN_32_fixpoint s : is_uint32 s -> (s =? ALIGN s 32) = true <-> s mod 32 = 0.
Proof.
  intros Hs. change 32 with (2 ^ 5) at 1. rewrite ALIGN_pow2 by lia.
  change (2 ^ 5) with 32. rewrite Z.eqb_eq.
  unfold wrap32, is_uint32 in *.
  pose proof (Z.div_mod s 32 ltac:(lia)) as Hdm.
  pose proof (Z.mod_pos_bound s 32 ltac:(lia)) as Hb.
  split.
  - intros He. rewrite He. apply Z.mod_mul. lia.
  - intros Hz.
    assert (Hq : (s + 32 - 1) / 32 = s / 32).
    { symmetry. apply (Z.div_unique (s + 32 - 1) 32 (s / 32) 31); lia. }
    rewrite Z.mod_small by lia. rewrite Hq. lia.
Qed.

(** ** The layout catalog *)

Lemma layout_from_format_cases format l :
  layout_from_format format = Some l ->
  l ∈ [packed_1bpp_layout; packed_2bpp_layout; packed_3bpp_layout; packed_4bpp_layout;
       packed_8bpp_layout; biplanar_yuv_420_layout; triplanar_yuv_420_layout;
       biplanar_yuv_p010_layout].
Proof.
  unfold layout_from_format.
  repeat match goal with
         | |- context [if format_in format ?ls then _ else _] =>
             destruct (format_in format ls)
         end;
    intros [= <-]; set_solver.
Qed.

Lemma layout_planes_bounds format l :
  layout_from_format format = Some l ->
  (1 <= num_planes l <= DRV_MAX_PLANES)%nat /\
  (forall p, (p < num_planes l)%nat -> 1 <= vertical_subsampling l !!! p <= 2).
Proof.
  intros H%layout_from_format_cases.
  repeat (apply elem_of_cons in H as [-> | H]);
    [.. | by apply elem_of_nil in H];
    (split; [unfold DRV_MAX_PLANES; simpl; lia |]);
    intros p Hp; simpl in Hp;
    destruct p as [|[|[|p]]]; cbn; lia.
Qed.

Lemma format_in_legacy format :
  format_in format [DRM_FORMAT_YVU420; DRM_FORMAT_YVU420_ANDROID] = true <->
  is_legacy_yvu420 format.
Proof.
  unfold format_in, is_legacy_yvu420. simpl. rewrite orb_false_r, orb_true_iff, !Z.eqb_eq.
  tauto.
Qed.

(** ** C10: the geometry queries *)

(** C10.  [drv_num_planes_from_format] answers for every format code, with
    0 exactly for the codes that are not in the layout catalog.  The other
    four queries (and [drv_size_from_format], which calls one of them)
    dereference the catalog entry: on a code that is not in the catalog
    they fault on the NULL entry, and on a supported format with a plane
    index below its plane count they return a value, so the failing
    [assert] is not reached. *)
Theorem geometry_queries_precondition (format width height stride : Z) (plane : nat) :
  (drv_num_planes_from_format format = 0%nat <-> layout_from_format format = None) /\
  (layout_from_format format = None ->
     drv_stride_from_format format width plane = Fault NullDeref /\
     drv_height_from_format format height plane = Fault NullDeref /\
     drv_vertical_subsampling_from_format format plane = Fault NullDeref /\
     drv_bytes_per_pixel_from_format format plane = Fault NullDeref /\
     drv_size_from_format format stride height plane = Fault NullDeref) /\
  ((plane < drv_num_planes_from_format format)%nat ->
     exists layout, layout_from_format format = Some layout /\
       (exists s, drv_stride_from_format format width plane = Ok s) /\
       drv_height_from_format format height plane =
         Ok (DIV_ROUND_UP height (vertical_subsampling layout !!! plane)) /\
       drv_vertical_subsampling_from_format format plane =
         Ok (vertical_subsampling layout !!! plane) /\
       drv_bytes_per_pixel_from_format format plane =
         Ok (bytes_per_pixel layout !!! plane) /\
       drv_size_from_format format stride height plane =
         Ok (wrap32 (stride * DIV_ROUND_UP height (vertical_subsampling layout !!! plane)))) /\
  (forall layout, layout_from_format format = Some layout ->
     (num_planes layout <= plane)%nat ->
     drv_stride_from_format format width plane = Fault AssertFail /\
     drv_height_from_format format height plane = Fault AssertFail /\
     drv_vertical_subsampling_from_format format plane = Fault AssertFail /\
     drv_bytes_per_pixel_from_format format plane = Fault AssertFail /\
     drv_size_from_format format stride height plane = Fault AssertFail).
Proof.
  unfold drv_num_planes_from_format, drv_size_from_format, drv_stride_from_format,
    drv_height_from_format, drv_vertical_subsampling_from_format,
    drv_bytes_per_pixel_from_format, deref_layout.
  destruct (layout_from_format format) as [l|] eqn:Hl.
  - pose proof (layout_planes_bounds _ _ Hl) as [Hn _].
    split; [split; [lia | done] |].
    split; [done |].
    split.
    + intros Hp. exists l. split; [done |].
      apply Nat.ltb_lt in Hp. run_outcome. rewrite Hp. cbn.
      repeat split; eauto.
    + intros l' [= <-] Hp. apply Nat.ltb_ge in Hp. run_outcome. rewrite Hp. by cbn.
  - split; [done |]. split; [done |]. split; [lia | done].
Qed.

(** The queries at work on the second plane of NV12. *)
Lemma geometry_queries_precondition_witness :
  exists layout, layout_from_format DRM_FORMAT_NV12 = Some layout /\
    (exists s, drv_stride_from_format DRM_FORMAT_NV12 1920 1 = Ok s) /\
    drv_height_from_format DRM_FORMAT_NV12 1080 1 =
      Ok (DIV_ROUND_UP 1080 (vertical_subsampling layout !!! 1%nat)) /\
    drv_vertical_subsampling_from_format DRM_FORMAT_NV12 1 =
      Ok (vertical_subsampling layout !!! 1%nat) /\
    drv_bytes_per_pixel_from_format DRM_FORMAT_NV12 1 =
      Ok (bytes_per_pixel layout !!! 1%nat) /\
    drv_size_from_format DRM_FORMAT_NV12 1920 1080 1 =
      Ok (wrap32 (1920 * DIV_ROUND_UP 1080 (vertical_subsampling layout !!! 1%nat))).
Proof.
  apply (geometry_queries_precondition DRM_FORMAT_NV12 1920 1080 1920 1).
  vm_compute. lia.
Defined.

(** ** The layout resolver *)

Lemma sumZ_app l1 l2 : sumZ (l1 ++ l2) = sumZ l1 + sumZ l2.
Proof. unfold sumZ. induction l1 as [|x l1 IH]; simpl; [done | rewrite IH; lia]. Qed.

Lemma take_lookup_total_map (f : nat -> Z) (l : list Z) (n : nat) :
  (n <= length l)%nat ->
  (forall q, (q < n)%nat -> l !!! q = f q) ->
  take n l = map f (seq 0 n).
Proof.
  induction n as [|n IH]; intros Hn Hf.
  - by rewrite take_0.
  - rewrite seq_S, map_app. simpl.
    rewrite (take_S_r l n (f n)).
    + rewrite IH; [done | lia | intros; apply Hf; lia].
    + rewrite <- (Hf n) by lia. apply list_lookup_lookup_total_lt. lia.
Qed.

Lemma set_stride_wf p v m : meta_wf m -> meta_wf (set_stride p v m).
Proof. unfold meta_wf. simpl. by rewrite length_insert. Qed.

Lemma set_size_wf p v m : meta_wf m -> meta_wf (set_size p v m).
Proof. unfold meta_wf. simpl. by rewrite length_insert. Qed.

Lemma set_offset_wf p v m : meta_wf m -> meta_wf (set_offset p v m).
Proof. unfold meta_wf. simpl. by rewrite length_insert. Qed.

Section Resolver.
Variables (l : planar_layout) (format stride aligned_height : Z) (padding : list Z).
Hypothesis Hl : layout_from_format format = Some l.

Local Abbreviation psz := (plane_size l format stride aligned_height padding).

Lemma drv_size_in_range (s : Z) (p : nat) :
  (p < num_planes l)%nat ->
  drv_size_from_format format s aligned_height p =
    Ok (wrap32 (s * DIV_ROUND_UP aligned_height (vertical_subsampling l !!! p))).
Proof.
  intros Hp. unfold drv_size_from_format, drv_height_from_format, deref_layout.
  rewrite Hl. run_outcome.
  apply Nat.ltb_lt in Hp. rewrite Hp. by cbn.
Qed.

(** What the loop leaves in the buffer object, for the [n] planes from
    [p] on, when it starts with the running offset [offset]. *)
Lemma fill_planes_spec (n : nat) :
  forall (p : nat) (m : bo_metadata) (offset : Z),
    (p + n <= num_planes l)%nat -> meta_wf m -> is_uint32 offset ->
    exists m',
      fill_planes n p stride aligned_height format padding m offset =
        Ok (m', wrap32 (offset + sumZ (map psz (seq p n)))) /\
      meta_wf m' /\
      meta_height m' = meta_height m /\
      meta_num_planes m' = meta_num_planes m /\
      (forall q, (q < p)%nat ->
         meta_strides m' !!! q = meta_strides m !!! q /\
         meta_sizes m' !!! q = meta_sizes m !!! q /\
         meta_offsets m' !!! q = meta_offsets m !!! q) /\
      (forall q, (p <= q < p + n)%nat ->
         meta_strides m' !!! q = plane_stride format stride q /\
         meta_sizes m' !!! q = psz q /\
         meta_offsets m' !!! q = wrap32 (offset + sumZ (map psz (seq p (q - p))))).
Proof.
  pose proof (layout_planes_bounds _ _ Hl) as [Hmax _]. unfold DRV_MAX_PLANES in Hmax.
  induction n as [|n IH]; intros p m offset Hpn Hwf Hoff.
  - exists m. simpl. rewrite Z.add_0_r, wrap32_small by done.
    split; [done |]. split; [done |]. repeat split; try done; intros; lia.
  - cbn [fill_planes].
    destruct Hwf as (Hlo & Hls & Hlt). unfold DRV_MAX_PLANES in *.
    assert (Hst : meta_strides (set_stride p (subsample_stride stride format p) m) !!! p
                  = subsample_stride stride format p).
    { simpl. apply list_lookup_total_insert_eq. lia. }
    rewrite Hst, drv_size_in_range by lia. run_outcome.
    set (m3 := set_offset p offset _).
    assert (Hsz : meta_sizes m3 !!! p = psz p).
    { subst m3. simpl. rewrite list_lookup_total_insert_eq by lia. done. }
    assert (Hof : meta_offsets m3 !!! p = offset).
    { subst m3. simpl. apply list_lookup_total_insert_eq. lia. }
    assert (Hsr : meta_strides m3 !!! p = plane_stride format stride p).
    { subst m3. simpl. apply list_lookup_total_insert_eq. lia. }
    assert (Hwf3 : meta_wf m3).
    { subst m3. apply set_offset_wf, set_size_wf, set_stride_wf. by repeat split. }
    assert (Hlow : forall q, (q < p)%nat ->
              meta_strides m3 !!! q = meta_strides m !!! q /\
              meta_sizes m3 !!! q = meta_sizes m !!! q /\
              meta_offsets m3 !!! q = meta_offsets m !!! q).
    { intros q Hq. subst m3. simpl.
      rewrite !list_lookup_total_insert_ne by lia. done. }
    rewrite Hsz.
    destruct (IH (S p) m3 (wrap32 (offset + psz p)) ltac:(lia) Hwf3 (wrap32_range _))
      as (m' & Hrun & Hwf' & Hh & Hnp & Hkeep & Hnew).
    exists m'. rewrite Hrun. split.
    { f_equal. f_equal. simpl. rewrite wrap32_add_l. f_equal. lia. }
    split; [done |]. split; [by rewrite Hh |]. split; [by rewrite Hnp |]. split.
    + intros q Hq. destruct (Hkeep q ltac:(lia)) as (-> & -> & ->). by apply Hlow.
    + intros q Hq. destruct (decide (q = p)) as [-> | Hne].
      * destruct (Hkeep p ltac:(lia)) as (-> & -> & ->).
        rewrite Hsr, Hsz, Hof, Nat.sub_diag. simpl.
        rewrite Z.add_0_r, wrap32_small by done. done.
      * destruct (Hnew q ltac:(lia)) as (-> & -> & ->).
        split; [done |]. split; [done |].
        replace (q - p)%nat with (S (q - S p)) by lia. simpl.
        rewrite wrap32_add_l. f_equal. lia.
Qed.

Lemma drv_bo_from_format_and_padding_spec (b : bo) :
  bo_wf b -> resolver_asserts_hold b stride aligned_height format ->
  exists m',
    drv_bo_from_format_and_padding b stride aligned_height format padding =
      Ok (0, with_meta m' b) /\
    meta_wf m' /\
    meta_height m' = meta_height (meta b) /\
    meta_num_planes m' = meta_num_planes (meta b) /\
    meta_total_size m' = wrap32 (sumZ (map psz (seq 0 (num_planes l)))) /\
    (forall q, (q < num_planes l)%nat ->
       meta_strides m' !!! q = plane_stride format stride q /\
       meta_sizes m' !!! q = psz q /\
       meta_offsets m' !!! q = wrap32 (sumZ (map psz (seq 0 q)))).
Proof.
  intros [Hwf _] Hassert.
  pose proof (layout_planes_bounds _ _ Hl) as [Hmax _].
  unfold drv_bo_from_format_and_padding, drv_num_planes_from_format. rewrite Hl.
  assert (Hnz : negb (num_planes l =? 0)%nat = true).
  { apply negb_true_iff, Nat.eqb_neq. lia. }
  rewrite Hnz. run_outcome.
  assert (Hchk : (if format =? DRM_FORMAT_YVU420_ANDROID
                  then mbind (fun _ : unit => assert (stride =? ALIGN stride 32))
                         (assert (aligned_height =? meta_height (meta b)))
                  else Ok tt) = Ok tt).
  { destruct (format =? DRM_FORMAT_YVU420_ANDROID) eqn:E; [| done].
    apply Z.eqb_eq in E. destruct (Hassert E) as [Hh Hs].
    rewrite <- Hh, Z.eqb_refl. run_outcome. rewrite <- Hs, Z.eqb_refl. done. }
  unfold mbind, outcome_bind in Hchk. rewrite Hchk.
  destruct (fill_planes_spec (num_planes l) 0 (meta b) 0 ltac:(lia) Hwf
              ltac:(unfold is_uint32; lia))
    as (m' & Hrun & Hwf' & Hh & Hnp & _ & Hnew).
  rewrite Hrun. cbv beta iota. simpl fst. simpl snd.
  exists (set_total_size (wrap32 (0 + sumZ (map psz (seq 0 (num_planes l))))) m').
  split; [done |]. split; [done |]. split; [done |]. split; [done |].
  split; [done |].
  intros q Hq. destruct (Hnew q ltac:(lia)) as (? & ? & ?). simpl.
  repeat split; try done. rewrite Nat.sub_0_r in *. done.
Qed.
End Resolver.

Lemma plane_size_range l format stride aligned_height padding p :
  is_uint32 (plane_size l format stride aligned_height padding p).
Proof. apply wrap32_range. Qed.

Lemma sumZ_map_nonneg (f : nat -> Z) (ns : list nat) :
  (forall q, 0 <= f q) -> 0 <= sumZ (map f ns).
Proof. intros Hf. unfold sumZ. induction ns; simpl; [lia | specialize (Hf a); lia]. Qed.

Lemma sumZ_seq_mono (f : nat -> Z) (p q : nat) :
  (forall k, 0 <= f k) -> (p <= q)%nat ->
  sumZ (map f (seq 0 p)) <= sumZ (map f (seq 0 q)).
Proof.
  intros Hf Hpq. replace q with (p + (q - p))%nat by lia.
  rewrite seq_app, map_app, sumZ_app.
  pose proof (sumZ_map_nonneg f (seq (0 + p) (q - p)) Hf). lia.
Qed.

Lemma padding_lookup_range padding p : padding_wf padding -> is_uint32 (padding !!! p).
Proof.
  intros [_ HF]. destruct (padding !! p) as [x|] eqn:E.
  - rewrite (list_lookup_total_correct _ _ _ E).
    by apply (Forall_lookup_1 _ _ _ _ HF E).
  - rewrite list_lookup_total_alt, E. simpl. unfold is_uint32. lia.
Qed.

(** ** C1: offsets and total size *)

(** C1 (amended).  For every supported format, stride, aligned height and
    per-plane padding for which the asserts of
    [drv_bo_from_format_and_padding] hold, the function fills the buffer
    object so that plane 0 starts at offset 0 and, modulo 2^32 (the
    arithmetic is [uint32_t]), the total size is the sum of the plane sizes
    and every plane's offset is the sum of the sizes of the planes before
    it.  Whenever the plane sizes sum to less than 2^32 the equalities are
    exact and the offsets are non-decreasing. *)
Theorem resolver_offsets_and_total (b : bo) (format stride aligned_height : Z)
    (padding : list Z) (l : planar_layout) :
  layout_from_format format = Some l ->
  bo_wf b ->
  resolver_asserts_hold b stride aligned_height format ->
  exists b',
    drv_bo_from_format_and_padding b stride aligned_height format padding = Ok (0, b') /\
    meta_offsets (meta b') !!! 0%nat = 0 /\
    wrapped_layout (num_planes l) (meta b') /\
    (sumZ (take (num_planes l) (meta_sizes (meta b'))) < 2 ^ 32 ->
     exact_layout (num_planes l) (meta b')).
Proof.
  intros Hl Hwf Hassert.
  destruct (drv_bo_from_format_and_padding_spec l format stride aligned_height padding
              Hl b Hwf Hassert)
    as (m' & Hrun & Hwf' & _ & _ & Htot & Hplanes).
  pose proof (layout_planes_bounds _ _ Hl) as [Hmax _]. unfold DRV_MAX_PLANES in Hmax.
  set (psz := plane_size l format stride aligned_height padding) in *.
  assert (Hnn : forall k, 0 <= psz k) by (intros k; apply plane_size_range).
  assert (Htake : forall q, (q <= num_planes l)%nat ->
            take q (meta_sizes m') = map psz (seq 0 q)).
  { intros q Hq. apply take_lookup_total_map.
    - destruct Hwf' as (_ & Hls & _). rewrite Hls. unfold DRV_MAX_PLANES. lia.
    - intros k Hk. by destruct (Hplanes k ltac:(lia)) as (_ & ? & _). }
  exists (with_meta m' b). simpl. split; [done |]. split.
  { destruct (Hplanes 0%nat ltac:(lia)) as (_ & _ & ->). done. }
  split.
  - split.
    + by rewrite Htake.
    + intros p Hp. rewrite Htake by lia. by destruct (Hplanes p Hp) as (_ & _ & ?).
  - rewrite Htake by lia. intros Hsum.
    assert (Hsmall : forall q, (q <= num_planes l)%nat ->
              wrap32 (sumZ (map psz (seq 0 q))) = sumZ (map psz (seq 0 q))).
    { intros q Hq. apply wrap32_small. split.
      - by apply sumZ_map_nonneg.
      - pose proof (sumZ_seq_mono psz q (num_planes l) Hnn Hq). lia. }
    assert (Hoff : forall p, (p < num_planes l)%nat ->
              meta_offsets m' !!! p = sumZ (map psz (seq 0 p))).
    { intros p Hp. destruct (Hplanes p Hp) as (_ & _ & ->). apply Hsmall. lia. }
    split; [| split].
    + rewrite Htake, Htot by lia. by apply Hsmall.
    + intros p Hp. rewrite Htake by lia. by apply Hoff.
    + intros p q Hpq. rewrite !Hoff by lia. apply sumZ_seq_mono; [done | lia].
Qed.

(** A 1920x1080 NV12 buffer: offsets 0 and 2073600, total size 3110400. *)
Lemma resolver_offsets_and_total_witness :
  exists b',
    drv_bo_from_format_and_padding (blank_bo 1920 1080 DRM_FORMAT_NV12)
      1920 1080 DRM_FORMAT_NV12 [0; 0; 0; 0] = Ok (0, b') /\
    meta_offsets (meta b') !!! 0%nat = 0 /\
    wrapped_layout 2 (meta b') /\
    (sumZ (take 2 (meta_sizes (meta b'))) < 2 ^ 32 -> exact_layout 2 (meta b')).
Proof.
  apply (resolver_offsets_and_total (blank_bo 1920 1080 DRM_FORMAT_NV12)
           DRM_FORMAT_NV12 1920 1080 [0; 0; 0; 0] biplanar_yuv_420_layout).
  - reflexivity.
  - repeat split; reflexivity.
  - intros H. vm_compute in H. discriminate H.
Defined.

(** C1 as stated fails: for a YVU420 buffer of stride 65536 and height
    60000 the running offset wraps, so the third plane starts below the
    second and the total size is not the sum of the plane sizes. *)
Lemma resolver_offsets_wrap_counterexample :
  exists b',
    drv_bo_from_format_and_padding (blank_bo 65536 60000 DRM_FORMAT_YVU420)
      65536 60000 DRM_FORMAT_YVU420 [0; 0; 0; 0] = Ok (0, b') /\
    meta_offsets (meta b') = [0; 3932160000; 620232704; 0] /\
    meta_sizes (meta b') = [3932160000; 983040000; 983040000; 0] /\
    meta_total_size (meta b') = 1603272704 /\
    ~ exact_layout 3 (meta b').
Proof.
  eexists. split; [vm_compute; reflexivity |].
  split; [reflexivity |]. split; [reflexivity |]. split; [reflexivity |].
  intros (Htot & _ & _). vm_compute in Htot. discriminate Htot.
Qed.

(** ** C2: per-plane stride and size *)

Lemma plane_stride_halved format stride p :
  0 <= stride -> stride + 1 < 2 ^ 32 -> p <> 0%nat -> is_legacy_yvu420 format ->
  is_ceil_div stride 2 (plane_stride format stride p).
Proof.
  intros Hs0 Hs Hp Hf%format_in_legacy. unfold plane_stride, subsample_stride.
  apply Nat.eqb_neq in Hp. rewrite Hp, Hf. simpl.
  apply DIV_ROUND_UP_ceil; lia.
Qed.

Lemma plane_stride_kept format stride p :
  p = 0%nat \/ ~ is_legacy_yvu420 format -> plane_stride format stride p = stride.
Proof.
  unfold plane_stride, subsample_stride. intros [-> | Hf]; [done |].
  destruct (negb (p =? 0)%nat); [| done].
  destruct (format_in format _) eqn:E; [| done].
  by apply format_in_legacy in E.
Qed.

Lemma plane_stride_range format stride p :
  is_uint32 stride -> is_uint32 (plane_stride format stride p).
Proof.
  intros Hs. unfold plane_stride, subsample_stride.
  destruct (negb (p =? 0)%nat); [| done].
  destruct (format_in format _); [apply DIV_ROUND_UP_uint32; lia | done].
Qed.

(** C2 (amended).  For every supported format and every plane [p] of it,
    the resolver stores as the plane's stride the base stride halved and
    rounded up when [p >= 1] and the format is one of the two legacy YVU420
    formats, and the base stride unchanged otherwise; it stores as the
    plane's size [stride[p] * hp + padding[p]] reduced modulo 2^32, where
    the plane height [hp] is the aligned height divided by the plane's
    vertical subsampling, rounded up.  The arithmetic is [uint32_t]: the
    roundings are exact for a stride and an aligned height below 2^32 - 1,
    and the size is exactly that value whenever it is below 2^32.  For
    vertical subsampling 2 and height 1080 the plane height is 540. *)
Theorem resolver_plane_geometry (b : bo) (format stride aligned_height : Z)
    (padding : list Z) (l : planar_layout) (p : nat) :
  layout_from_format format = Some l ->
  bo_wf b ->
  resolver_asserts_hold b stride aligned_height format ->
  is_uint32 stride -> is_uint32 aligned_height -> padding_wf padding ->
  (p < num_planes l)%nat ->
  exists b' hp,
    drv_bo_from_format_and_padding b stride aligned_height format padding = Ok (0, b') /\
    drv_height_from_format format aligned_height p = Ok hp /\
    (aligned_height + 1 < 2 ^ 32 ->
       is_ceil_div aligned_height (vertical_subsampling l !!! p) hp) /\
    (p <> 0%nat /\ is_legacy_yvu420 format -> stride + 1 < 2 ^ 32 ->
       is_ceil_div stride 2 (meta_strides (meta b') !!! p)) /\
    (p = 0%nat \/ ~ is_legacy_yvu420 format -> meta_strides (meta b') !!! p = stride) /\
    meta_sizes (meta b') !!! p =
      wrap32 (meta_strides (meta b') !!! p * hp + padding !!! p) /\
    (meta_strides (meta b') !!! p * hp + padding !!! p < 2 ^ 32 ->
       meta_sizes (meta b') !!! p = meta_strides (meta b') !!! p * hp + padding !!! p) /\
    (vertical_subsampling l !!! p = 2 -> aligned_height = 1080 -> hp = 540).
Proof.
  intros Hl Hwf Hassert Hs Hh Hpad Hp.
  destruct (drv_bo_from_format_and_padding_spec l format stride aligned_height padding
              Hl b Hwf Hassert)
    as (m' & Hrun & _ & _ & _ & _ & Hplanes).
  destruct (Hplanes p Hp) as (Hst & Hsz & _).
  pose proof (layout_planes_bounds _ _ Hl) as [_ Hv]. specialize (Hv p Hp).
  set (v := vertical_subsampling l !!! p) in *.
  pose proof (DIV_ROUND_UP_uint32 aligned_height v ltac:(lia)) as Hhp.
  pose proof (padding_lookup_range padding p Hpad) as Hpp.
  pose proof (plane_stride_range format stride p Hs) as Hstr.
  exists (with_meta m' b), (DIV_ROUND_UP aligned_height v). simpl.
  split; [done |]. split.
  { unfold drv_height_from_format, deref_layout. rewrite Hl. run_outcome.
    apply Nat.ltb_lt in Hp. rewrite Hp. cbn. fold v. done. }
  split.
  { intros Hfit. apply DIV_ROUND_UP_ceil; unfold is_uint32 in *; lia. }
  split.
  { intros [Hp0 Hf] Hfit. rewrite Hst.
    apply plane_stride_halved; unfold is_uint32 in *; try done; lia. }
  split.
  { intros Hk. rewrite Hst. by apply plane_stride_kept. }
  assert (Hmod : meta_sizes m' !!! p =
                 wrap32 (meta_strides m' !!! p * DIV_ROUND_UP aligned_height v
                         + padding !!! p)).
  { rewrite Hsz, Hst. unfold plane_size. fold v. apply wrap32_add_l. }
  split; [done |]. split.
  - intros Hlt. rewrite Hmod. apply wrap32_small.
    rewrite Hst in *. unfold is_uint32 in *. split; [nia | lia].
  - intros Hv2 ->. rewrite Hv2. reflexivity.
Qed.

(** The chroma plane of a 1920x1080 NV12 buffer with padding 16. *)
Lemma resolver_plane_geometry_witness :
  exists b' hp,
    drv_bo_from_format_and_padding (blank_bo 1920 1080 DRM_FORMAT_NV12)
      1920 1080 DRM_FORMAT_NV12 [0; 16; 0; 0] = Ok (0, b') /\
    drv_height_from_format DRM_FORMAT_NV12 1080 1 = Ok hp /\
    (1080 + 1 < 2 ^ 32 ->
       is_ceil_div 1080 (vertical_subsampling biplanar_yuv_420_layout !!! 1%nat) hp) /\
    (1%nat <> 0%nat /\ is_legacy_yvu420 DRM_FORMAT_NV12 -> 1920 + 1 < 2 ^ 32 ->
       is_ceil_div 1920 2 (meta_strides (meta b') !!! 1%nat)) /\
    (1%nat = 0%nat \/ ~ is_legacy_yvu420 DRM_FORMAT_NV12 ->
       meta_strides (meta b') !!! 1%nat = 1920) /\
    meta_sizes (meta b') !!! 1%nat =
      wrap32 (meta_strides (meta b') !!! 1%nat * hp + [0; 16; 0; 0] !!! 1%nat) /\
    (meta_strides (meta b') !!! 1%nat * hp + [0; 16; 0; 0] !!! 1%nat < 2 ^ 32 ->
       meta_sizes (meta b') !!! 1%nat =
         meta_strides (meta b') !!! 1%nat * hp + [0; 16; 0; 0] !!! 1%nat) /\
    (vertical_subsampling biplanar_yuv_420_layout !!! 1%nat = 2 -> 1080 = 1080 -> hp = 540).
Proof.
  apply (resolver_plane_geometry (blank_bo 1920 1080 DRM_FORMAT_NV12)
           DRM_FORMAT_NV12 1920 1080 [0; 16; 0; 0] biplanar_yuv_420_layout 1).
  - reflexivity.
  - repeat split; reflexivity.
  - intros H. vm_compute in H. discriminate H.
  - unfold is_uint32. lia.
  - unfold is_uint32. lia.
  - split; [reflexivity |]. repeat constructor; unfold is_uint32; lia.
  - simpl. lia.
Defined.

(** C2 as stated fails: for an XRGB8888 buffer of stride 65536 and aligned
    height 65536 the product 65536 * 65536 does not fit in [uint32_t], and
    the stored plane size is 0. *)
Lemma resolver_plane_size_wrap_counterexample :
  exists b',
    drv_bo_from_format_and_padding (blank_bo 16384 65536 DRM_FORMAT_XRGB8888)
      65536 65536 DRM_FORMAT_XRGB8888 [0; 0; 0; 0] = Ok (0, b') /\
    drv_height_from_format DRM_FORMAT_XRGB8888 65536 0 = Ok 65536 /\
    meta_strides (meta b') !!! 0%nat = 65536 /\
    meta_sizes (meta b') !!! 0%nat = 0 /\
    meta_sizes (meta b') !!! 0%nat <>
      meta_strides (meta b') !!! 0%nat * 65536 + [0; 0; 0; 0] !!! 0%nat.
Proof.
  eexists. split; [vm_compute; reflexivity |].
  split; [reflexivity |]. split; [reflexivity |]. split; [reflexivity |].
  vm_compute. discriminate.
Qed.

(** ** C5: dumb buffers of the Android YV12 format *)

Lemma set_all_handles_meta n : forall plane h b,
  meta (set_all_handles n plane h b) = meta b.
Proof. induction n as [|n IH]; intros; simpl; [done | by rewrite IH]. Qed.

Lemma fill_planes_keeps_height stride aligned_height format padding n :
  forall p m offset m' offset',
    fill_planes n p stride aligned_height format padding m offset = Ok (m', offset') ->
    meta_height m' = meta_height m /\ meta_num_planes m' = meta_num_planes m.
Proof.
  induction n as [|n IH]; intros p m offset m' offset'; simpl.
  - by intros [= <- <-].
  - destruct (drv_size_from_format _ _ _ _) as [sz|]; run_outcome; [| done].
    intros H%IH. simpl in H. done.
Qed.

Lemma drv_bo_from_format_keeps_height b stride aligned_height format padding v b' :
  drv_bo_from_format_and_padding b stride aligned_height format padding = Ok (v, b') ->
  meta_height (meta b') = meta_height (meta b) /\
  meta_num_planes (meta b') = meta_num_planes (meta b) /\
  handles b' = handles b.
Proof.
  unfold drv_bo_from_format_and_padding. cbv zeta.
  destruct (assert (negb _)); run_outcome; [| done].
  destruct (if _ =? _ then _ else _); [| done].
  destruct (fill_planes _ _ _ _ _ _ _ _) as [[m' off]|] eqn:Hfill; [| done].
  intros [= <- <-]. simpl. apply fill_planes_keeps_height in Hfill. tauto.
Qed.

Section DumbCreate.
Variable drmIoctl : list ioctl_request -> ioctl_request -> ioctl_reply.

Lemma dumb_alignment_android (b : bo) (width height : Z) :
  dumb_alignment b width height DRM_FORMAT_YVU420_ANDROID =
    (meta_height (meta b), ALIGN width 32,
     wrap32 (3 * DIV_ROUND_UP (meta_height (meta b)) 2)).
Proof. reflexivity. Qed.

(** C5.  For the Android YV12 format, creating a dumb buffer of width 100
    for a buffer object of height 75 computes the aligned width 128 and the
    aligned height 114 = 3 * ceil(75 / 2), and asks the kernel, in its one
    request, for height 114 and width 128 at 8 bits per pixel (with the
    32-bpp quirk: the same 128 bytes per row as width 32 at 32 bits per
    pixel).  Whatever the kernel answers, the height the buffer object
    reports stays 75, and on success the plane sizes are computed from the
    height 75, not from 114. *)
Theorem dumb_create_android_yv12 (b : bo) (flags quirks : Z) (k : kstate) :
  bo_wf b ->
  meta_height (meta b) = 75 ->
  let req := if Z.land quirks BO_QUIRK_DUMB32BPP =? 0
             then DRM_IOCTL_MODE_CREATE_DUMB 128 114 8 0
             else DRM_IOCTL_MODE_CREATE_DUMB 32 114 32 0 in
  let r := drmIoctl (klog k) req in
  let run := drv_dumb_bo_create_ex drmIoctl b 100 75 DRM_FORMAT_YVU420_ANDROID
               flags quirks k in
  dumb_alignment b 100 75 DRM_FORMAT_YVU420_ANDROID = (75, 128, 114) /\
  (forall v b' k', run = Ok (v, b', k') ->
     klog k' = klog k ++ [req] /\ meta_height (meta b') = 75) /\
  (ret r <> 0 -> run = Ok (- errno r, b, snd (do_ioctl drmIoctl k req))) /\
  (ret r = 0 -> is_uint32 (out_pitch r) -> out_pitch r mod 32 = 0 ->
     exists b', run = Ok (0, b', snd (do_ioctl drmIoctl k req)) /\
       meta_height (meta b') = 75 /\
       meta_total_size (meta b') = out_size r /\
       meta_strides (meta b') !!! 0%nat = out_pitch r /\
       meta_sizes (meta b') !!! 0%nat = wrap32 (out_pitch r * 75)).
Proof.
  intros Hwf Hh req r run.
  assert (Halign : dumb_alignment b 100 75 DRM_FORMAT_YVU420_ANDROID = (75, 128, 114)).
  { rewrite dumb_alignment_android, Hh. reflexivity. }
  assert (Hrun : run =
    if negb (ret r =? 0)
    then Ok (- kerrno (snd (do_ioctl drmIoctl k req)), b, snd (do_ioctl drmIoctl k req))
    else mbind (fun filled : Z * bo =>
           let b1 := set_all_handles (meta_num_planes (meta filled.2)) 0 (out_handle r)
                       filled.2 in
           Ok (0, with_meta (set_total_size (out_size r) (meta b1)) b1,
               snd (do_ioctl drmIoctl k req)))
         (drv_bo_from_format b (out_pitch r) 75 DRM_FORMAT_YVU420_ANDROID)).
  { subst run. unfold drv_dumb_bo_create_ex. rewrite Halign.
    change (deref_layout DRM_FORMAT_YVU420_ANDROID) with (Ok triplanar_yuv_420_layout).
    run_outcome. subst r req.
    destruct (Z.land quirks BO_QUIRK_DUMB32BPP =? 0); reflexivity. }
  split; [done |]. split; [| split].
  - intros v b' k'. rewrite Hrun.
    destruct (negb (ret r =? 0)).
    + intros [= <- <- <-]. simpl. done.
    + destruct (drv_bo_from_format b (out_pitch r) 75 DRM_FORMAT_YVU420_ANDROID)
        as [[v0 b0]|f] eqn:Hfill; run_outcome; [| done].
      intros [= <- <- <-]. split; [done |]. simpl.
      rewrite set_all_handles_meta.
      apply drv_bo_from_format_keeps_height in Hfill as (-> & _ & _). done.
  - intros Hret. rewrite Hrun. apply Z.eqb_neq in Hret. rewrite Hret. simpl.
    subst r. rewrite Hret. done.
  - intros Hret Hpitch Hmod. rewrite Hrun. rewrite Hret. simpl negb. cbv iota.
    destruct (drv_bo_from_format_and_padding_spec triplanar_yuv_420_layout
                DRM_FORMAT_YVU420_ANDROID (out_pitch r) 75 [0; 0; 0; 0]
                ltac:(reflexivity) b Hwf) as (m' & Hfill & _ & Hh' & _ & _ & Hplanes).
    { intros _. split; [done |]. apply Z.eqb_eq.
      by apply ALIGN_32_fixpoint. }
    unfold drv_bo_from_format. rewrite Hfill. run_outcome. simpl.
    eexists. split; [reflexivity |]. simpl. rewrite set_all_handles_meta. simpl.
    destruct (Hplanes 0%nat ltac:(simpl; lia)) as (Hs & Hz & _).
    split; [congruence |]. split; [done |]. split.
    + rewrite Hs. reflexivity.
    + rewrite Hz. unfold plane_size. change (plane_stride _ _ 0) with (out_pitch r).
      simpl. rewrite Z.add_0_r. unfold wrap32. rewrite Zmod_mod. reflexivity.
Qed.
End DumbCreate.

(** ** C6: widening a combination *)

(** What [drv_modify_combination] does to one record. *)
Lemma combo_matches_iff format md combo :
  combo_matches format md combo = true <->
  combo_format combo = format /\ tiling (metadata combo) = tiling md /\
  modifier (metadata combo) = modifier md.
Proof. unfold combo_matches. rewrite !andb_true_iff, !Z.eqb_eq. tauto. Qed.

Lemma land_lor_absorb a b : Z.land a (Z.lor a b) = a.
Proof.
  apply Z.bits_inj'. intros n _. rewrite Z.land_spec, Z.lor_spec.
  by destruct (Z.testbit a n).
Qed.

Lemma modify_loop_lookup format md flags n :
  forall (i : nat) (combos : list combination) (j : nat),
    modify_loop n i combos format md flags !! j =
      if bool_decide (i <= j < i + n)%nat
      then widen_record format md flags <$> combos !! j
      else combos !! j.
Proof.
  induction n as [|n IH]; intros i combos j; simpl.
  - rewrite bool_decide_eq_false_2 by lia. done.
  - rewrite IH. unfold drv_array_at_idx.
    destruct (combos !! i) as [c|] eqn:Hi.
    + assert (Hins : forall k, (if combo_matches format md c
                                then <[i := set_use_flags (Z.lor (use_flags c) flags) c]> combos
                                else combos) !! k =
                               if decide (k = i) then Some (widen_record format md flags c)
                               else combos !! k).
      { intros k. unfold widen_record.
        destruct (combo_matches format md c).
        - destruct (decide (k = i)) as [-> | Hne].
          + apply list_lookup_insert_eq. by eapply lookup_lt_Some.
          + by apply list_lookup_insert_ne.
        - destruct (decide (k = i)) as [-> |]; done. }
      rewrite Hins.
      destruct (decide (j = i)) as [-> | Hne].
      * rewrite bool_decide_eq_false_2 by lia.
        rewrite bool_decide_eq_true_2 by lia. by rewrite Hi.
      * destruct (bool_decide (S i <= j < S i + n)%nat) eqn:E.
        -- apply bool_decide_eq_true in E. rewrite bool_decide_eq_true_2 by lia. done.
        -- apply bool_decide_eq_false in E. rewrite bool_decide_eq_false_2 by lia. done.
    + repeat case_bool_decide; try done; try lia.
      replace j with i by lia. by rewrite Hi.
Qed.

Lemma drv_modify_combination_map combos format md flags :
  drv_modify_combination combos format md flags =
    widen_record format md flags <$> combos.
Proof.
  apply list_eq. intros j. unfold drv_modify_combination, drv_array_size.
  rewrite modify_loop_lookup, list_lookup_fmap.
  case_bool_decide as H; [done |].
  rewrite (lookup_ge_None_2 combos j) by lia. done.
Qed.

(** C6.  [drv_modify_combination] keeps the number and the order of the
    records; a record whose format, tiling and modifier all match gets the
    given usage bits ORed into its usage mask and is otherwise unchanged,
    every other record is unchanged, no record loses a usage bit, and when
    no record matches the registry is left as it was. *)
Theorem modify_combination_widens (combos : list combination) (format : Z)
    (md : format_metadata) (flags : Z) :
  let combos' := drv_modify_combination combos format md flags in
  length combos' = length combos /\
  (forall (i : nat) (combo : combination), combos !! i = Some combo ->
     exists combo', combos' !! i = Some combo' /\
       combo_format combo' = combo_format combo /\
       metadata combo' = metadata combo /\
       (combo_format combo = format /\ tiling (metadata combo) = tiling md /\
        modifier (metadata combo) = modifier md ->
          use_flags combo' = Z.lor (use_flags combo) flags) /\
       (~ (combo_format combo = format /\ tiling (metadata combo) = tiling md /\
           modifier (metadata combo) = modifier md) -> combo' = combo) /\
       Z.land (use_flags combo) (use_flags combo') = use_flags combo) /\
  ((forall combo, combo ∈ combos ->
      ~ (combo_format combo = format /\ tiling (metadata combo) = tiling md /\
         modifier (metadata combo) = modifier md)) ->
   combos' = combos).
Proof.
  intros combos'. subst combos'. rewrite drv_modify_combination_map.
  split; [by rewrite length_fmap |]. split.
  - intros i combo Hi. exists (widen_record format md flags combo).
    rewrite list_lookup_fmap, Hi. split; [done |].
    unfold widen_record.
    destruct (combo_matches format md combo) eqn:E.
    + apply combo_matches_iff in E. simpl.
      repeat split; try done. apply land_lor_absorb.
    + assert (~ (combo_format combo = format /\ tiling (metadata combo) = tiling md /\
                 modifier (metadata combo) = modifier md)) as Hn.
      { rewrite <- combo_matches_iff. congruence. }
      repeat split; try done. apply Z.land_diag.
  - intros Hnone. rewrite <- (list_fmap_id combos) at 2.
    apply list_fmap_ext. intros i c Hc. unfold widen_record.
    destruct (combo_matches format md c) eqn:E; [| done].
    apply combo_matches_iff in E. exfalso.
    apply (Hnone c); [| done]. by eapply list_elem_of_lookup_2.
Qed.

(** ** C8: picking a modifier *)

Lemma scan_modifiers_Some modifiers wanted m :
  scan_modifiers modifiers wanted = Some m -> m = wanted /\ wanted ∈ modifiers.
Proof.
  induction modifiers as [|x rest IH]; simpl; [done |].
  destruct (x =? wanted) eqn:E.
  - apply Z.eqb_eq in E. intros [= <-]. split; [done |]. subst. apply list_elem_of_here.
  - intros [-> Hin]%IH. split; [done |]. by apply list_elem_of_further.
Qed.

Lemma scan_modifiers_None modifiers wanted :
  scan_modifiers modifiers wanted = None -> wanted ∉ modifiers.
Proof.
  induction modifiers as [|x rest IH]; simpl.
  - intros _ H. by apply elem_of_nil in H.
  - destruct (x =? wanted) eqn:E; [done |]. apply Z.eqb_neq in E.
    intros H%IH Hin. apply elem_of_cons in Hin as [-> | Hin]; done.
Qed.

(** C8.  [drv_pick_modifier] returns the first entry of the priority order
    that occurs in the candidate list, and the linear modifier when no
    entry of the priority order occurs there; so picking from [A, B, C]
    with priority [C, A] gives [C], and picking from [A, B] with priority
    [C] gives the linear modifier. *)
Theorem pick_modifier_first_priority (modifiers modifier_order : list Z) :
  ((exists (i : nat) (o : Z),
      modifier_order !! i = Some o /\ o ∈ modifiers /\
      (forall (j : nat) (o' : Z), (j < i)%nat -> modifier_order !! j = Some o' ->
         o' ∉ modifiers) /\
      drv_pick_modifier modifiers modifier_order = o) \/
   ((forall o, o ∈ modifier_order -> o ∉ modifiers) /\
    drv_pick_modifier modifiers modifier_order = DRM_FORMAT_MOD_LINEAR)) /\
  (forall A B C : Z, drv_pick_modifier [A; B; C] [C; A] = C) /\
  (forall A B C : Z, C <> A -> C <> B ->
     drv_pick_modifier [A; B] [C] = DRM_FORMAT_MOD_LINEAR).
Proof.
  split; [| split].
  - induction modifier_order as [|o rest IH]; simpl.
    + right. split; [| done]. intros o H. by apply elem_of_nil in H.
    + destruct (scan_modifiers modifiers o) as [m|] eqn:E.
      * apply scan_modifiers_Some in E as [-> Hin]. left.
        exists 0%nat, o. repeat split; try done. intros; lia.
      * apply scan_modifiers_None in E.
        destruct IH as [(i & o' & Hi & Hin & Hbefore & Hpick) | [Hnone Hpick]].
        -- left. exists (S i), o'. repeat split; try done.
           intros [|j] o'' Hj; simpl; [by intros [= <-] |].
           apply Hbefore. lia.
        -- right. split; [| done].
           intros o' [-> | Hin]%elem_of_cons; [done | by apply Hnone].
  - intros A B C. simpl.
    destruct (A =? C) eqn:E1; [by apply Z.eqb_eq in E1 |].
    destruct (B =? C) eqn:E2; [by apply Z.eqb_eq in E2 |].
    by rewrite Z.eqb_refl.
  - intros A B C HA HB. simpl.
    destruct (A =? C) eqn:E1; [apply Z.eqb_eq in E1; congruence |].
    destruct (B =? C) eqn:E2; [apply Z.eqb_eq in E2; congruence |]. done.
Qed.

(** ** C7: handle reference counts *)

Lemma get_reference_count_lookup (t : gmap Z Z) b plane :
  drv_get_reference_count t b plane = default 0 (t !! (handles b !!! plane)).
Proof. unfold drv_get_reference_count, drmHashLookup. by destruct (t !! _). Qed.

Lemma increment_lookup (t : gmap Z Z) b plane :
  drv_increment_reference_count t b plane !! (handles b !!! plane) =
    Some (wrap64 (drv_get_reference_count t b plane + 1)).
Proof.
  unfold drv_increment_reference_count, drmHashInsert, drmHashDelete.
  rewrite lookup_delete_eq. apply lookup_insert_eq.
Qed.

Lemma decrement_lookup (t : gmap Z Z) b plane :
  drv_decrement_reference_count t b plane !! (handles b !!! plane) =
    if 0 <? drv_get_reference_count t b plane
    then Some (wrap64 (drv_get_reference_count t b plane - 1))
    else None.
Proof.
  unfold drv_decrement_reference_count, drmHashInsert, drmHashDelete.
  destruct (0 <? _).
  - rewrite lookup_delete_eq. apply lookup_insert_eq.
  - apply lookup_delete_eq.
Qed.

Lemma decrement_lookup_other (t : gmap Z Z) b plane key :
  key <> handles b !!! plane ->
  drv_decrement_reference_count t b plane !! key = t !! key.
Proof.
  intros Hne. unfold drv_decrement_reference_count, drmHashInsert, drmHashDelete.
  destruct (0 <? _).
  - rewrite lookup_delete_eq, lookup_insert_ne, lookup_delete_ne by done. done.
  - by rewrite lookup_delete_ne.
Qed.

(** C7.  The reference count of a handle that is not in the table is 0;
    three increments followed by two decrements of such a handle leave its
    count at 1; and a decrement at count 0 stores nothing for the handle,
    so the count stays 0, while no decrement ever puts a negative count
    into the table. *)
Theorem reference_count_ledger (t : gmap Z Z) (b : bo) (plane : nat) :
  let inc t := drv_increment_reference_count t b plane in
  let dec t := drv_decrement_reference_count t b plane in
  (t !! (handles b !!! plane) = None ->
     drv_get_reference_count t b plane = 0 /\
     drv_get_reference_count (dec (dec (inc (inc (inc t))))) b plane = 1) /\
  (drv_get_reference_count t b plane = 0 ->
     dec t !! (handles b !!! plane) = None /\
     drv_get_reference_count (dec t) b plane = 0) /\
  (map_Forall (fun _ count => 0 <= count) t ->
     map_Forall (fun _ count => 0 <= count) (dec t)).
Proof.
  intros inc dec. subst inc dec. split; [| split].
  - intros Hnone.
    assert (H0 : drv_get_reference_count t b plane = 0).
    { by rewrite get_reference_count_lookup, Hnone. }
    split; [done |].
    repeat (rewrite get_reference_count_lookup;
            first [rewrite decrement_lookup | rewrite increment_lookup]).
    rewrite !get_reference_count_lookup. repeat rewrite ?increment_lookup, ?get_reference_count_lookup.
    rewrite Hnone. reflexivity.
  - intros H0.
    assert (Hl : drv_decrement_reference_count t b plane !! (handles b !!! plane) = None).
    { rewrite decrement_lookup, H0. reflexivity. }
    split; [done |]. by rewrite get_reference_count_lookup, Hl.
  - intros Hpos key count.
    destruct (decide (key = handles b !!! plane)) as [-> | Hne].
    + rewrite decrement_lookup.
      destruct (0 <? _); [| done]. intros [= <-].
      unfold wrap64. apply Z.mod_pos_bound. lia.
    + rewrite decrement_lookup_other by done. apply Hpos.
Qed.

(** ** Closing the handles of a buffer object *)

Lemma no_earlier_alias_spec hs q :
  no_earlier_alias hs q = true <-> forall j, (j < q)%nat -> hs !!! j <> hs !!! q.
Proof.
  unfold no_earlier_alias. rewrite forallb_forall. split.
  - intros H j Hj. specialize (H j). rewrite negb_true_iff, Z.eqb_neq in H.
    apply H, in_seq. lia.
  - intros H j Hj%in_seq. rewrite negb_true_iff, Z.eqb_neq. apply H. lia.
Qed.

Lemma first_alias_spec hs plane n :
  forall i, (i + n = plane)%nat ->
    (first_alias hs plane n i =? plane)%nat = true <->
    forall j, (i <= j < plane)%nat -> hs !!! j <> hs !!! plane.
Proof.
  induction n as [|n IH]; intros i Hi; simpl.
  - rewrite Nat.eqb_eq. split; [intros; lia | lia].
  - destruct (hs !!! i =? hs !!! plane) eqn:E.
    + apply Z.eqb_eq in E. rewrite Nat.eqb_eq. split; [lia |].
      intros H. exfalso. apply (H i); [lia | done].
    + apply Z.eqb_neq in E. rewrite IH by lia. split.
      * intros H j Hj. destruct (decide (j = i)) as [-> |]; [done | apply H; lia].
      * intros H j Hj. apply H. lia.
Qed.

Lemma first_alias_fresh hs plane :
  (first_alias hs plane plane 0 =? plane)%nat = no_earlier_alias hs plane.
Proof.
  apply eq_true_iff_eq. rewrite first_alias_spec by lia.
  rewrite no_earlier_alias_spec. split; intros H j Hj; apply H; lia.
Qed.

Lemma handles_to_close_NoDup hs qs : NoDup qs -> NoDup (handles_to_close hs qs).
Proof.
  intros Hnd. unfold handles_to_close. apply NoDup_fmap_2_strong.
  - intros q1 q2 [H1 _]%list_elem_of_filter [H2 _]%list_elem_of_filter Heq.
    pose proof (proj1 (no_earlier_alias_spec _ _) H1) as H1'.
    pose proof (proj1 (no_earlier_alias_spec _ _) H2) as H2'.
    destruct (Nat.lt_trichotomy q1 q2) as [Hlt | [-> | Hlt]]; [| done |].
    + by destruct (H2' q1 Hlt).
    + by destruct (H1' q2 Hlt).
  - by apply NoDup_filter.
Qed.

Lemma forallb_false_witness {A : Type} (f : A -> bool) (l : list A) :
  forallb f l = false -> exists x, In x l /\ f x = false.
Proof.
  induction l as [|x l IH]; simpl; [done |].
  destruct (f x) eqn:E; simpl.
  - intros (y & Hy & Hf)%IH. eauto.
  - intros _. eauto.
Qed.

Lemma earliest_alias hs q :
  exists q', (q' <= q)%nat /\ no_earlier_alias hs q' = true /\ hs !!! q' = hs !!! q.
Proof.
  induction q as [q IH] using lt_wf_ind.
  destruct (no_earlier_alias hs q) eqn:E; [by exists q |].
  assert (exists j, (j < q)%nat /\ hs !!! j = hs !!! q) as (j & Hj & Heq).
  { unfold no_earlier_alias in E.
    apply forallb_false_witness in E as (j & Hj%in_seq & Hf).
    exists j. split; [lia |]. by apply negb_false_iff, Z.eqb_eq in Hf. }
  destruct (IH j Hj) as (q' & Hq' & Hfresh & Heq').
  exists q'. split; [lia |]. split; [done | congruence].
Qed.

Lemma handles_to_close_elem hs n h :
  (n <= length hs)%nat ->
  h ∈ handles_to_close hs (seq 0 n) <-> h ∈ take n hs.
Proof.
  intros Hn. unfold handles_to_close. rewrite list_elem_of_fmap. split.
  - intros (q & -> & [_ Hq%list_elem_of_In%in_seq]%list_elem_of_filter).
    apply list_elem_of_lookup. exists q.
    rewrite lookup_take_lt by lia. apply list_lookup_lookup_total_lt. lia.
  - intros (q & Hq)%list_elem_of_lookup.
    assert (q < n)%nat as Hlt.
    { apply lookup_lt_Some in Hq. rewrite length_take in Hq. lia. }
    rewrite lookup_take_lt in Hq by lia.
    apply list_lookup_total_correct in Hq.
    destruct (earliest_alias hs q) as (q' & Hle & Hfresh & Heq).
    exists q'. split; [congruence |].
    apply list_elem_of_filter. split; [done |].
    apply list_elem_of_In, in_seq. lia.
Qed.

Section GemClose.
Variable drmIoctl : list ioctl_request -> ioctl_request -> ioctl_reply.

Lemma gem_destroy_loop_log (b : bo) (n : nat) :
  forall (plane : nat) (k : kstate) (error : Z),
    klog (gem_destroy_loop drmIoctl n plane b k error).2 =
      klog k ++ (DRM_IOCTL_GEM_CLOSE <$> handles_to_close (handles b) (seq plane n)).
Proof.
  induction n as [|n IH]; intros plane k error.
  - simpl. unfold handles_to_close. simpl. by rewrite app_nil_r.
  - cbn [gem_destroy_loop seq]. rewrite first_alias_fresh.
    unfold handles_to_close. rewrite filter_cons.
    destruct (no_earlier_alias (handles b) plane) eqn:E; simpl negb; cbv iota.
    + rewrite decide_True by done.
      unfold do_ioctl at 1. cbv zeta. rewrite IH. cbn [klog].
      rewrite fmap_cons, fmap_cons, <- app_assoc. done.
    + rewrite decide_False by done. apply IH.
Qed.

Lemma drv_gem_bo_destroy_closes (b : bo) (k : kstate) :
  (meta_num_planes (meta b) <= length (handles b))%nat ->
  exists closes,
    klog (drv_gem_bo_destroy drmIoctl b k).2 =
      klog k ++ (DRM_IOCTL_GEM_CLOSE <$> closes) /\
    NoDup closes /\
    (forall h, h ∈ closes <-> h ∈ take (meta_num_planes (meta b)) (handles b)).
Proof.
  intros Hn.
  exists (handles_to_close (handles b) (seq 0 (meta_num_planes (meta b)))).
  split; [apply gem_destroy_loop_log |]. split.
  - apply handles_to_close_NoDup, NoDup_ListNoDup, seq_NoDup.
  - intros h. by apply handles_to_close_elem.
Qed.
End GemClose.

(** ** C9: a failed import releases what it acquired *)

Lemma import_requests_S data i :
  import_requests data (S i) =
    import_requests data i ++ [DRM_IOCTL_PRIME_FD_TO_HANDLE (fds data !!! i)].
Proof. unfold import_requests. by rewrite seq_S, fmap_app. Qed.

Section PrimeImport.
Variable drmIoctl : list ioctl_request -> ioctl_request -> ioctl_reply.
Variables (data : drv_import_fd_data) (k0 : kstate) (kf : nat).

Hypothesis Hbefore :
  forall i, (i < kf)%nat -> ret (import_reply drmIoctl k0 data i) = 0.
Hypothesis Hfail : ret (import_reply drmIoctl k0 data kf) <> 0.

Lemma prime_import_loop_fails (n : nat) :
  forall (plane : nat) (b : bo) (k : kstate),
    (plane <= kf < plane + n)%nat ->
    (kf <= length (handles b))%nat ->
    klog k = klog k0 ++ import_requests data plane ->
    (forall i, (i < plane)%nat ->
       handles b !!! i = out_handle (import_reply drmIoctl k0 data i)) ->
    exists v b' k' closes,
      prime_import_loop drmIoctl n plane b data k = (v, b', k') /\
      klog k' = klog k0 ++ import_requests data (S kf)
                  ++ (DRM_IOCTL_GEM_CLOSE <$> closes) /\
      NoDup closes /\
      (forall h, h ∈ closes <->
         exists i, (i < kf)%nat /\ h = out_handle (import_reply drmIoctl k0 data i)) /\
      v = - kerrno k' /\
      meta_num_planes (meta b') = kf.
Proof.
  induction n as [|n IH]; intros plane b k Hrange Hlen Hlog Hacq; [lia |].
  cbn [prime_import_loop]. unfold do_ioctl at 1. cbv zeta.
  assert (Hreply : drmIoctl (klog k) (DRM_IOCTL_PRIME_FD_TO_HANDLE (fds data !!! plane))
                   = import_reply drmIoctl k0 data plane).
  { unfold import_reply. by rewrite Hlog. }
  rewrite Hreply.
  destruct (decide (plane = kf)) as [-> | Hne].
  - apply Z.eqb_neq in Hfail. rewrite Hfail. simpl negb. cbv iota.
    set (b1 := with_meta (set_num_planes kf (meta b)) b).
    set (k1 := {| klog := _; kerrno := _ |}).
    destruct (drv_gem_bo_destroy_closes drmIoctl b1 k1 Hlen)
      as (closes & Hcl & Hnd & Hin).
    destruct (drv_gem_bo_destroy drmIoctl b1 k1) as [e k2] eqn:Hdestroy.
    exists (- kerrno k2), b1, k2, closes. simpl in Hcl.
    split; [done |]. split.
    { rewrite Hcl, Hlog, import_requests_S, <- !app_assoc. done. }
    split; [done |]. split; [| done].
    intros h. rewrite Hin. simpl. rewrite list_elem_of_lookup. split.
    + intros (i & Hi).
      assert (i < kf)%nat as Hlt.
      { apply lookup_lt_Some in Hi. rewrite length_take in Hi. lia. }
      rewrite lookup_take_lt in Hi by lia.
      apply list_lookup_total_correct in Hi. exists i. split; [done |].
      rewrite <- Hi. by apply Hacq.
    + intros (i & Hlt & ->). exists i. rewrite lookup_take_lt by lia.
      rewrite <- Hacq by done. apply list_lookup_lookup_total_lt. lia.
  - rewrite (Hbefore plane) by lia. simpl negb. cbv iota.
    apply IH.
    + lia.
    + simpl. by rewrite length_insert.
    + simpl. rewrite Hlog, import_requests_S, <- app_assoc. done.
    + intros i Hi. simpl. destruct (decide (i = plane)) as [-> | Hne'].
      * rewrite list_lookup_total_insert_eq by lia. done.
      * rewrite list_lookup_total_insert_ne by done. apply Hacq. lia.
Qed.
End PrimeImport.

(** C9.  When [drv_prime_bo_import] fails at plane [kf] (the imports of the
    planes below [kf] succeeded and the import of plane [kf] did not), then
    after the failed request and before it returns it issues a
    [DRM_IOCTL_GEM_CLOSE] for every handle the earlier imports acquired,
    each handle once and no other handle; it returns [-errno] and leaves
    [kf] as the plane count of the buffer object. *)
Theorem prime_import_releases_on_failure
    (drmIoctl : list ioctl_request -> ioctl_request -> ioctl_reply)
    (b : bo) (data : drv_import_fd_data) (k : kstate) (kf : nat) :
  (kf < meta_num_planes (meta b))%nat ->
  (meta_num_planes (meta b) <= length (handles b))%nat ->
  (forall i, (i < kf)%nat -> ret (import_reply drmIoctl k data i) = 0) ->
  ret (import_reply drmIoctl k data kf) <> 0 ->
  exists v b' k' closes,
    drv_prime_bo_import drmIoctl b data k = (v, b', k') /\
    klog k' = klog k ++ import_requests data (S kf) ++ (DRM_IOCTL_GEM_CLOSE <$> closes) /\
    NoDup closes /\
    (forall i, (i < kf)%nat -> out_handle (import_reply drmIoctl k data i) ∈ closes) /\
    (forall h, h ∈ closes ->
       exists i, (i < kf)%nat /\ h = out_handle (import_reply drmIoctl k data i)) /\
    v = - kerrno k' /\
    meta_num_planes (meta b') = kf.
Proof.
  intros Hkf Hlen Hbefore Hfail.
  destruct (prime_import_loop_fails drmIoctl data k kf Hbefore Hfail
              (meta_num_planes (meta b)) 0 b k)
    as (v & b' & k' & closes & Hrun & Hlog & Hnd & Hin & Hv & Hn).
  - lia.
  - lia.
  - unfold import_requests. simpl. by rewrite app_nil_r.
  - intros i Hi. lia.
  - exists v, b', k', closes. split; [done |]. split; [done |]. split; [done |].
    split; [| split; [| done]].
    + intros i Hi. apply Hin. eauto.
    + intros h Hh. by apply Hin.
Qed.

(** ** The mapping cache *)

Lemma vma_uses_cons a m ms :
  vma_uses a (m :: ms) =
    if decide (mapping_vma m = a) then S (vma_uses a ms) else vma_uses a ms.
Proof. unfold vma_uses. rewrite filter_cons. by destruct (decide _). Qed.

Lemma vma_uses_zero a ms :
  vma_uses a ms = 0%nat <-> forall m, m ∈ ms -> mapping_vma m <> a.
Proof.
  induction ms as [|m ms IH].
  - split; [intros _ m H; by apply elem_of_nil in H | done].
  - rewrite vma_uses_cons. destruct (decide (mapping_vma m = a)) as [E | E].
    + split; [done |]. intros H. destruct (H m); [apply list_elem_of_here | done].
    + rewrite IH. split.
      * intros H m' [-> | Hin]%elem_of_cons; [done | by apply H].
      * intros H m' Hin. apply H. by apply list_elem_of_further.
Qed.

Lemma vma_uses_zero_elem a ms m :
  vma_uses a ms = 0%nat -> m ∈ ms -> mapping_vma m <> a.
Proof. intros H. by apply (proj1 (vma_uses_zero a ms) H). Qed.

Lemma handle_matches_cons_other heap h m rest :
  handle_matches heap h m = false ->
  other_mappings heap h (m :: rest) = m :: other_mappings heap h rest.
Proof. intros E. unfold other_mappings. by rewrite filter_cons_True. Qed.

Lemma handle_matches_cons_same heap h m rest :
  handle_matches heap h m = true ->
  other_mappings heap h (m :: rest) = other_mappings heap h rest.
Proof.
  intros E. unfold other_mappings. rewrite filter_cons_False; [done |]. by rewrite E.
Qed.

Section MappingDestroy.
Variable bo_unmap : list nat -> bo -> nat -> vma -> Z.
Variables (b : bo) (plane : nat) (heap0 : gmap nat vma).

Local Abbreviation h := (handles b !!! plane).

Lemma unmap_answer_shift (log : list nat) (a : nat) (released : list nat) (i : nat) :
  unmap_answer bo_unmap b heap0 log (a :: released) (S i) =
    unmap_answer bo_unmap b heap0 (log ++ [a]) released i.
Proof.
  unfold unmap_answer. cbn [lookup list_lookup take]. by rewrite <- app_assoc.
Qed.

Lemma unmap_answer_first (log : list nat) (a : nat) (released : list nat) (v0 v : vma) :
  heap0 !! a = Some v0 -> set_refcount 0 v0 = set_refcount 0 v ->
  unmap_answer bo_unmap b heap0 log (a :: released) 0 =
    Some (bo_unmap log b a (set_refcount 0 v)).
Proof.
  intros H0 E. unfold unmap_answer. cbn [lookup list_lookup take].
  by rewrite H0, app_nil_r, E.
Qed.

Lemma scan_mappings_sweeps (rest : list mapping) :
  forall (fuel : nat) (prefix : list mapping) (heap : gmap nat vma) (log : list nat),
    (length rest <= fuel)%nat ->
    scan_inv h heap0 heap rest ->
    exists r,
      scan_mappings bo_unmap fuel b plane (length prefix)
        {| mappings := prefix ++ rest; vmas := heap; unmapped := log |} = Some (Ok r) /\
      match r with
      | Continue idx st' =>
          idx = length (mappings st') /\ swept h prefix rest heap0 heap log st' /\
          (forall i, (i < length (released_vmas heap0 h rest))%nat ->
             unmap_answer bo_unmap b heap0 log (released_vmas heap0 h rest) i = Some 0)
      | Return v st' =>
          stopped h prefix rest heap0 log v st' /\
          exists i,
            unmap_answer bo_unmap b heap0 log (released_vmas heap0 h rest) i = Some v /\
            (forall j, (j < i)%nat ->
               unmap_answer bo_unmap b heap0 log (released_vmas heap0 h rest) j = Some 0) /\
            unmapped st' = log ++ take (S i) (released_vmas heap0 h rest) /\
            (exists v0, heap0 !! (released_vmas heap0 h rest !!! i) = Some v0 /\
               vmas st' !! (released_vmas heap0 h rest !!! i) = Some (set_refcount 0 v0))
      end.
Proof.
  induction rest as [|m rest IH]; intros fuel prefix heap log Hfuel Hinv.
  - eexists. split.
    + destruct fuel; cbn [scan_mappings mappings]; unfold drv_array_at_idx;
        rewrite lookup_ge_None_2 by (rewrite app_nil_r; lia); reflexivity.
    + cbn [mappings]. split; [by rewrite app_nil_r |]. split.
      * unfold swept, other_mappings. cbn. rewrite !app_nil_r.
        repeat split; try done. intros a H. by apply elem_of_nil in H.
      * intros i Hi. simpl in Hi. lia.
  - destruct fuel as [|fuel]; [simpl in Hfuel; lia |]. simpl in Hfuel.
    cbn [scan_mappings mappings vmas unmapped]. unfold drv_array_at_idx.
    rewrite list_lookup_middle by done.
    destruct (Hinv m (list_elem_of_here _ _)) as (v & Hv & Hr & Hm & Hcnt & v0 & Hv0 & Ev0).
    rewrite Hv.
    set (a := mapping_vma m) in *.
    destruct (vma_handle v =? h) eqn:Eh; simpl negb; cbv iota.
    + (* an entry for the handle *)
      apply Z.eqb_eq in Eh. specialize (Hcnt Eh).
      rewrite vma_uses_cons, decide_True in Hcnt by done.
      assert (Hdec : wrap32 (vma_refcount v - 1) = Z.of_nat (vma_uses a rest)).
      { rewrite Hcnt in *.
        replace (Z.of_nat (S (vma_uses a rest)) - 1) with (Z.of_nat (vma_uses a rest))
          by lia.
        apply wrap32_small. unfold is_uint32 in *. lia. }
      cbn [set_refcount vma_refcount]. rewrite Hdec.
      set (v' := set_refcount (Z.of_nat (vma_uses a rest)) v).
      unfold drv_array_remove. rewrite delete_middle.
      destruct (vma_uses a rest) as [|u] eqn:Hu.
      * (* the last entry of its vma: unmap *)
        assert (HR : released_vmas heap0 h (m :: rest) = a :: released_vmas heap0 h rest).
        { cbn [released_vmas]. fold a. by rewrite Hu, Hm. }
        assert (Hans0 : unmap_answer bo_unmap b heap0 log
                          (a :: released_vmas heap0 h rest) 0 = Some (bo_unmap log b a v'))
          by (by apply (unmap_answer_first log a _ v0 v)).
        change (Z.of_nat 0 =? 0) with true. cbv iota.
        destruct (bo_unmap log b a v' =? 0) eqn:Er; simpl negb; cbv iota.
        -- (* unmapped and freed *)
           apply Z.eqb_eq in Er.
           assert (Hinv' : scan_inv h heap0 (delete a (<[a := v']> heap)) rest).
           { intros m' Hm'.
             assert (mapping_vma m' <> a) as Hne by (by eapply vma_uses_zero_elem).
             destruct (Hinv m' (list_elem_of_further _ _ _ Hm'))
               as (w & Hw & Hwr & Hwm & Hwc & Hw0).
             exists w. rewrite lookup_delete_ne, lookup_insert_ne by done.
             split; [done |]. split; [done |]. split; [done |]. split; [| done].
             intros Hh. rewrite (Hwc Hh), vma_uses_cons, decide_False; done. }
           destruct (IH fuel prefix _ (log ++ [a]) ltac:(lia) Hinv') as (r & Hrun & Hpost).
           exists r. split; [done |].
           destruct r as [idx st' | ret st'].
           ++ destruct Hpost as (Hidx & (Hmap & Hlog & Hfreed & Hframe) & Hans).
              split; [done |]. split.
              ** unfold swept.
                 rewrite handle_matches_cons_same by done.
                 rewrite HR. split; [done |]. split; [by rewrite Hlog, <- app_assoc |].
                 split.
                 --- intros x [-> | Hx]%elem_of_cons; [| by apply Hfreed].
                     rewrite Hframe; [apply lookup_delete_eq |].
                     intros m' Hm' Ha. exfalso.
                     by apply (vma_uses_zero_elem a rest m' Hu Hm').
                 --- intros x Hx.
                     assert (x <> a) as Hne.
                     { intros ->. specialize (Hx m (list_elem_of_here _ _) eq_refl).
                       congruence. }
                     rewrite Hframe.
                     +++ by rewrite lookup_delete_ne, lookup_insert_ne.
                     +++ intros m' Hm'. apply Hx. by apply list_elem_of_further.
              ** rewrite HR. intros [|i] Hi.
                 --- by rewrite Hans0, Er.
                 --- rewrite unmap_answer_shift. apply Hans. simpl in Hi. lia.
           ++ destruct Hpost
                as ((Hret & i & mi & Hi & Hmi & Hmap & (l & l' & Hl & Hrel) & Hvma)
                    & k & Hk & Hbefore & Hcalls & Hkept).
              split.
              ** split; [done |]. exists (S i), mi. split; [done |]. split; [done |].
                 split.
                 { cbn [take drop].
                   rewrite handle_matches_cons_same by done.
                   done. }
                 split; [| done].
                 exists (a :: l), l'. split; [by rewrite Hl, <- app_assoc |].
                 by rewrite HR, Hrel.
              ** rewrite HR. exists (S k). split; [by rewrite unmap_answer_shift |].
                 split; [| split].
                 --- intros [|j] Hj; [by rewrite Hans0, Er |].
                     rewrite unmap_answer_shift. apply Hbefore. lia.
                 --- rewrite Hcalls, <- app_assoc. done.
                 --- done.
        -- (* the unmap failed *)
           apply Z.eqb_neq in Er.
           eexists. split; [reflexivity |]. split.
           ++ split; [done |].
              exists 0%nat, m. split; [done |].
              split; [done |].
              cbn [mappings unmapped vmas take drop]. split; [done |].
              split.
              { exists [], (released_vmas heap0 h rest). split; [done |]. by rewrite HR. }
              exists v'. fold a. split; [apply lookup_insert_eq | done].
           ++ rewrite HR. exists 0%nat. split; [done |]. split; [intros j Hj; lia |].
              cbn [unmapped take]. split; [done |].
              exists v0. cbn [lookup_total list_lookup_total vmas]. split; [done |].
              rewrite lookup_insert_eq. f_equal. by rewrite Ev0.
      * (* other entries still point to the vma *)
        assert (HR : released_vmas heap0 h (m :: rest) = released_vmas heap0 h rest).
        { cbn [released_vmas]. fold a. by rewrite Hu, Hm. }
        replace (Z.of_nat (S u) =? 0) with false by (symmetry; apply Z.eqb_neq; lia).
        cbv iota.
        assert (Hinv' : scan_inv h heap0 (<[a := v']> heap) rest).
        { intros m' Hm'.
          destruct (Hinv m' (list_elem_of_further _ _ _ Hm'))
            as (w & Hw & Hwr & Hwm & Hwc & Hw0).
          destruct (decide (mapping_vma m' = a)) as [Ea | Ea].
          - exists v'. rewrite Ea in *. rewrite lookup_insert_eq.
            rewrite Hv in Hw. injection Hw as <-.
            split; [done |]. split; [| split; [done |]; split].
            + subst v'. simpl. unfold is_uint32 in *. lia.
            + intros _. subst v'. simpl. by rewrite Hu.
            + exists v0. split; [done |]. by rewrite Ev0.
          - exists w. rewrite lookup_insert_ne by done.
            split; [done |]. split; [done |]. split; [done |]. split; [| done].
            intros Hh. rewrite (Hwc Hh), vma_uses_cons, decide_False; done. }
        destruct (IH fuel prefix _ log ltac:(lia) Hinv') as (r & Hrun & Hpost).
        exists r. split; [done |].
        destruct r as [idx st' | ret st'].
        -- destruct Hpost as (Hidx & (Hmap & Hlog & Hfreed & Hframe) & Hans).
           split; [done |]. split; [| by rewrite HR].
           unfold swept.
           rewrite handle_matches_cons_same by done.
           rewrite HR. split; [done |]. split; [done |]. split; [done |].
           intros x Hx.
           assert (x <> a) as Hne.
           { intros ->. specialize (Hx m (list_elem_of_here _ _) eq_refl).
             congruence. }
           rewrite Hframe.
           ++ by rewrite lookup_insert_ne.
           ++ intros m' Hm'. apply Hx. by apply list_elem_of_further.
        -- destruct Hpost
             as ((Hret & i & mi & Hi & Hmi & Hmap & (l & l' & Hl & Hrel) & Hvma) & Hans).
           split; [| by rewrite HR].
           split; [done |]. exists (S i), mi. split; [done |]. split; [done |].
           split.
           { cbn [take drop]. rewrite handle_matches_cons_same by done. done. }
           split; [| done]. exists l, l'. split; [done |]. by rewrite HR.
    + (* an entry for another handle: step over it *)
      assert (Hnm : handle_matches heap0 h m = false) by (by rewrite Hm).
      assert (HR : released_vmas heap0 h (m :: rest) = released_vmas heap0 h rest).
      { cbn [released_vmas]. by rewrite Hnm. }
      assert (Hinv' : scan_inv h heap0 heap rest).
      { intros m' Hm'.
        destruct (Hinv m' (list_elem_of_further _ _ _ Hm'))
          as (w & Hw & Hwr & Hwm & Hwc & Hw0).
        exists w. split; [done |]. split; [done |]. split; [done |]. split; [| done].
        intros Hh. rewrite (Hwc Hh), vma_uses_cons, decide_False; [done |].
        intros Ea. fold a in Ea. rewrite <- Ea, Hv in Hw. injection Hw as <-.
        apply Z.eqb_neq in Eh. done. }
      replace (S (length prefix)) with (length (prefix ++ [m]))
        by (rewrite length_app; simpl; lia).
      change (prefix ++ m :: rest) with (prefix ++ [m] ++ rest). rewrite app_assoc.
      destruct (IH fuel (prefix ++ [m]) heap log ltac:(lia) Hinv') as (r & Hrun & Hpost).
      exists r. split; [done |].
      destruct r as [idx st' | ret st'].
      * destruct Hpost as (Hidx & (Hmap & Hlog & Hfreed & Hframe) & Hans).
        split; [done |]. split; [| by rewrite HR].
        unfold swept.
        rewrite handle_matches_cons_other by done.
        rewrite HR.
        split; [by rewrite Hmap, <- app_assoc |]. split; [done |]. split; [done |].
        intros x Hx. apply Hframe. intros m' Hm'. apply Hx.
        by apply list_elem_of_further.
      * destruct Hpost
          as ((Hret & i & mi & Hi & Hmi & Hmap & (l & l' & Hl & Hrel) & Hvma) & Hans).
        split; [| by rewrite HR].
        split; [done |]. exists (S i), mi. split; [done |]. split; [done |].
        split.
        { cbn [take drop]. rewrite handle_matches_cons_other by done.
          by rewrite Hmap, <- app_assoc. }
        split; [| done]. exists l, l'. split; [done |]. by rewrite HR.
Qed.
End MappingDestroy.

Lemma handle_matches_vma heap h m1 m2 :
  mapping_vma m1 = mapping_vma m2 -> handle_matches heap h m1 = handle_matches heap h m2.
Proof. unfold handle_matches, mapping_handle. by intros ->. Qed.

Lemma vma_uses_pos a ms :
  vma_uses a ms <> 0%nat -> exists m, m ∈ ms /\ mapping_vma m = a.
Proof.
  induction ms as [|m ms IH]; [done |].
  rewrite vma_uses_cons. destruct (decide (mapping_vma m = a)) as [E | E].
  - intros _. exists m. split; [apply list_elem_of_here | done].
  - intros (m' & Hin & Ha)%IH. exists m'. split; [by apply list_elem_of_further | done].
Qed.

Lemma released_vmas_elem heap h ms a :
  a ∈ released_vmas heap h ms <->
  exists m, m ∈ ms /\ mapping_vma m = a /\ handle_matches heap h m = true.
Proof.
  induction ms as [|m ms IH]; cbn [released_vmas].
  - split; [intros H; by apply elem_of_nil in H |].
    intros (m & H & _). by apply elem_of_nil in H.
  - destruct (handle_matches heap h m) eqn:Em; simpl andb.
    + destruct (vma_uses (mapping_vma m) ms =? 0)%nat eqn:Eu.
      * rewrite elem_of_cons, IH. split.
        -- intros [-> | (m' & Hin & Ha & Hm')].
           ++ exists m. split; [apply list_elem_of_here | done].
           ++ exists m'. split; [by apply list_elem_of_further | done].
        -- intros (m' & [-> | Hin]%elem_of_cons & Ha & Hm'); [by left | right; eauto].
      * rewrite IH. split.
        -- intros (m' & Hin & Ha & Hm'). exists m'.
           split; [by apply list_elem_of_further | done].
        -- intros (m' & [-> | Hin]%elem_of_cons & Ha & Hm'); [| eauto].
           apply Nat.eqb_neq, vma_uses_pos in Eu as (m'' & Hin & Ha').
           exists m''. split; [done |]. split; [congruence |].
           rewrite <- Hm'. by apply handle_matches_vma.
    + rewrite IH. split.
      * intros (m' & Hin & Ha & Hm'). exists m'.
        split; [by apply list_elem_of_further | done].
      * intros (m' & [-> | Hin]%elem_of_cons & Ha & Hm'); [congruence | eauto].
Qed.

Lemma released_vmas_NoDup heap h ms : NoDup (released_vmas heap h ms).
Proof.
  induction ms as [|m ms IH]; cbn [released_vmas]; [apply NoDup_nil_2 |].
  destruct (handle_matches heap h m); simpl andb; [| done].
  destruct (vma_uses (mapping_vma m) ms =? 0)%nat eqn:Eu; [| done].
  apply NoDup_cons_2; [| done].
  intros (m' & Hin & Ha & _)%released_vmas_elem.
  apply Nat.eqb_eq in Eu. by apply (vma_uses_zero_elem _ _ m' Eu Hin).
Qed.

Lemma ledger_wf_scan_inv st h :
  ledger_wf st -> scan_inv h (vmas st) (vmas st) (mappings st).
Proof.
  intros Hwf m Hm. destruct (Hwf m Hm) as (v & Hv & Hr & Hc).
  exists v. split; [done |]. split; [done |]. split; [| split; [done | by exists v]].
  unfold handle_matches, mapping_handle. by rewrite Hv.
Qed.

Section MappingDestroyLoop.
Variable bo_unmap : list nat -> bo -> nat -> vma -> Z.
Variable b : bo.

(** Once [idx] is at the end of the cache, the scans for the remaining
    planes end at once. *)
Lemma mapping_destroy_loop_done (n : nat) :
  forall (plane : nat) (st : ledger),
    mapping_destroy_loop bo_unmap n plane (length (mappings st)) b st = Some (Ok (0, st)).
Proof.
  induction n as [|n IH]; intros plane st; [done |].
  cbn [mapping_destroy_loop].
  assert (Hend : scan_mappings bo_unmap (drv_array_size (mappings st)) b plane
                   (length (mappings st)) st
                 = Some (Ok (Continue (length (mappings st)) st))).
  { destruct (drv_array_size (mappings st)); cbn [scan_mappings];
      unfold drv_array_at_idx; rewrite lookup_ge_None_2 by lia; reflexivity. }
  rewrite Hend. apply IH.
Qed.

(** What [drv_mapping_destroy] does: the scan for the handle of plane 0,
    which ends as the answers of the backend have it. *)
Lemma drv_mapping_destroy_run (st : ledger) :
  (1 <= meta_num_planes (meta b))%nat ->
  ledger_wf st ->
  exists v st',
    drv_mapping_destroy bo_unmap b st = Some (Ok (v, st')) /\
    ((v = 0 /\
      swept (handles b !!! 0%nat) [] (mappings st) (vmas st) (vmas st) (unmapped st) st' /\
      (forall i,
         (i < length (released_vmas (vmas st) (handles b !!! 0%nat) (mappings st)))%nat ->
         unmap_answer bo_unmap b (vmas st) (unmapped st)
           (released_vmas (vmas st) (handles b !!! 0%nat) (mappings st)) i = Some 0)) \/
     (stopped (handles b !!! 0%nat) [] (mappings st) (vmas st) (unmapped st) v st' /\
      exists i,
        unmap_answer bo_unmap b (vmas st) (unmapped st)
          (released_vmas (vmas st) (handles b !!! 0%nat) (mappings st)) i = Some v /\
        (forall j, (j < i)%nat ->
           unmap_answer bo_unmap b (vmas st) (unmapped st)
             (released_vmas (vmas st) (handles b !!! 0%nat) (mappings st)) j = Some 0) /\
        unmapped st' =
          unmapped st ++
          take (S i) (released_vmas (vmas st) (handles b !!! 0%nat) (mappings st)) /\
        (exists v0,
           vmas st !! (released_vmas (vmas st) (handles b !!! 0%nat) (mappings st) !!! i)
             = Some v0 /\
           vmas st' !! (released_vmas (vmas st) (handles b !!! 0%nat) (mappings st) !!! i)
             = Some (set_refcount 0 v0)))).
Proof.
  intros Hn Hwf. unfold drv_mapping_destroy.
  destruct (meta_num_planes (meta b)) as [|n]; [lia |].
  cbn [mapping_destroy_loop].
  destruct (scan_mappings_sweeps bo_unmap b 0 (vmas st) (mappings st)
              (drv_array_size (mappings st)) [] (vmas st) (unmapped st))
    as (r & Hrun & Hpost).
  { unfold drv_array_size. lia. }
  { by apply ledger_wf_scan_inv. }
  simpl in Hrun. destruct st as [ms heap log]. simpl in *. rewrite Hrun.
  destruct r as [idx st' | v st'].
  - destruct Hpost as (-> & Hswept & Hans). rewrite mapping_destroy_loop_done.
    exists 0, st'. split; [done |]. by left.
  - exists v, st'. split; [done |]. by right.
Qed.

Lemma drv_mapping_destroy_spec (st : ledger) :
  (1 <= meta_num_planes (meta b))%nat ->
  ledger_wf st ->
  exists v st',
    drv_mapping_destroy bo_unmap b st = Some (Ok (v, st')) /\
    ((v = 0 /\
      swept (handles b !!! 0%nat) [] (mappings st) (vmas st) (vmas st) (unmapped st) st') \/
     stopped (handles b !!! 0%nat) [] (mappings st) (vmas st) (unmapped st) v st').
Proof.
  intros Hn Hwf.
  destruct (drv_mapping_destroy_run st Hn Hwf)
    as (v & st' & Hrun & [(Hv & Hswept & _) | (Hstopped & _)]);
    exists v, st'; (split; [done |]); [by left | by right].
Qed.

(** Every unmap succeeds: the scan runs to the end of the cache. *)
Lemma drv_mapping_destroy_succeeds (st : ledger) :
  (1 <= meta_num_planes (meta b))%nat ->
  ledger_wf st ->
  (forall i,
     (i < length (released_vmas (vmas st) (handles b !!! 0%nat) (mappings st)))%nat ->
     unmap_answer bo_unmap b (vmas st) (unmapped st)
       (released_vmas (vmas st) (handles b !!! 0%nat) (mappings st)) i = Some 0) ->
  exists st',
    drv_mapping_destroy bo_unmap b st = Some (Ok (0, st')) /\
    swept (handles b !!! 0%nat) [] (mappings st) (vmas st) (vmas st) (unmapped st) st'.
Proof.
  intros Hn Hwf Hall.
  destruct (drv_mapping_destroy_run st Hn Hwf)
    as (v & st' & Hrun & [(-> & Hswept & _) | (Hstopped & i & Hi & _)]).
  - by exists st'.
  - exfalso. destruct Hstopped as [Hv _]. apply Hv.
    assert (Hlt : (i < length (released_vmas (vmas st) (handles b !!! 0%nat)
                                 (mappings st)))%nat).
    { unfold unmap_answer in Hi.
      destruct (released_vmas _ _ _ !! i) eqn:E; [| done].
      by apply lookup_lt_Some in E. }
    rewrite (Hall i Hlt) in Hi. by injection Hi.
Qed.

(** The [i]-th unmap is the first to fail, with [r]: the function returns
    [r] there. *)
Lemma drv_mapping_destroy_fails (st : ledger) (i : nat) (r : Z) :
  (1 <= meta_num_planes (meta b))%nat ->
  ledger_wf st ->
  unmap_answer bo_unmap b (vmas st) (unmapped st)
    (released_vmas (vmas st) (handles b !!! 0%nat) (mappings st)) i = Some r ->
  r <> 0 ->
  (forall j, (j < i)%nat ->
     unmap_answer bo_unmap b (vmas st) (unmapped st)
       (released_vmas (vmas st) (handles b !!! 0%nat) (mappings st)) j = Some 0) ->
  exists st',
    drv_mapping_destroy bo_unmap b st = Some (Ok (r, st')) /\
    stopped (handles b !!! 0%nat) [] (mappings st) (vmas st) (unmapped st) r st' /\
    unmapped st' =
      unmapped st ++
      take (S i) (released_vmas (vmas st) (handles b !!! 0%nat) (mappings st)) /\
    (exists v0,
       vmas st !! (released_vmas (vmas st) (handles b !!! 0%nat) (mappings st) !!! i)
         = Some v0 /\
       vmas st' !! (released_vmas (vmas st) (handles b !!! 0%nat) (mappings st) !!! i)
         = Some (set_refcount 0 v0)).
Proof.
  intros Hn Hwf Hi Hr Hbefore.
  assert (Hlt : (i < length (released_vmas (vmas st) (handles b !!! 0%nat)
                               (mappings st)))%nat).
  { unfold unmap_answer in Hi.
    destruct (released_vmas _ _ _ !! i) eqn:E; [| done].
    by apply lookup_lt_Some in E. }
  destruct (drv_mapping_destroy_run st Hn Hwf)
    as (v & st' & Hrun & [(-> & _ & Hall) | (Hstopped & i' & Hi' & Hbefore' & Hrest)]).
  - exfalso. rewrite (Hall i Hlt) in Hi. injection Hi as <-. done.
  - assert (i' = i) as ->.
    { destruct (Nat.lt_trichotomy i' i) as [Hlt' | [-> | Hgt]]; [| done |].
      - exfalso. rewrite (Hbefore i' Hlt') in Hi'. injection Hi' as <-.
        by destruct Hstopped as [Hv _].
      - exfalso. rewrite (Hbefore' i Hgt) in Hi. injection Hi as <-. done. }
    rewrite Hi in Hi'. injection Hi' as <-.
    by exists st'.
Qed.
End MappingDestroyLoop.


(** ** C3: destroying the mappings of a buffer object *)


Lemma sample_ledger_wf : ledger_wf sample_ledger.
Proof.
  intros m Hm. simpl in Hm.
  repeat (apply elem_of_cons in Hm as [-> | Hm]); [| | | by apply elem_of_nil in Hm];
    eexists; (split; [vm_compute; reflexivity |]);
    (split; [unfold is_uint32; simpl; lia | reflexivity]).
Qed.



(** The first run, computed: the two entries of handle 5 are removed, their
    vma is unmapped once and freed, the entry of handle 7 stays. *)
Example mapping_destroy_sample_run :
  exists st',
    drv_mapping_destroy unmap_ok (bo_with_handles 2 [5; 5; 0; 0]) sample_ledger
      = Some (Ok (0, st')) /\
    mappings st' = [ {| mapping_vma := 2 |} ] /\
    unmapped st' = [1%nat] /\
    vmas st' !! 1%nat = None /\
    vmas st' !! 2%nat = Some {| vma_handle := 7; vma_refcount := 1; vma_length := 4096 |}.
Proof. eexists. split; [vm_compute; reflexivity |]. repeat split. Qed.


(** The index [idx] is not set back to 0 for the second plane: the entry
    of the handle of plane 1 is not visited when plane 0 carries another
    handle. *)
Example mapping_destroy_later_plane_not_scanned :
  exists st',
    drv_mapping_destroy unmap_ok (bo_with_handles 2 [5; 7; 0; 0]) sample_ledger
      = Some (Ok (0, st')) /\
    mappings st' = [ {| mapping_vma := 2 |} ] /\
    handle_matches (vmas sample_ledger) 7 {| mapping_vma := 2 |} = true /\
    unmapped st' = [1%nat] /\
    vmas st' !! 2%nat = Some {| vma_handle := 7; vma_refcount := 1; vma_length := 4096 |}.
Proof. eexists. split; [vm_compute; reflexivity |]. repeat split. Qed.

(** ** C4: one release per handle *)

Lemma NoDup_all_equal (l : list Z) (h : Z) :
  NoDup l -> (forall x, x ∈ l <-> x = h) -> l = [h].
Proof.
  intros Hnd Hin. destruct l as [|x [|y l]].
  - exfalso. by apply (elem_of_nil h), Hin.
  - f_equal. apply Hin, list_elem_of_here.
  - exfalso. apply NoDup_cons in Hnd as [Hx _].
    assert (x = h) by (apply Hin, list_elem_of_here).
    assert (y = h) by (apply Hin, list_elem_of_further, list_elem_of_here).
    subst. apply Hx, list_elem_of_here.
Qed.

Lemma NoDup_all_equal_nat (l : list nat) (a : nat) :
  NoDup l -> (forall x, x ∈ l <-> x = a) -> l = [a].
Proof.
  intros Hnd Hin. destruct l as [|x [|y l]].
  - exfalso. by apply (elem_of_nil a), Hin.
  - f_equal. apply Hin, list_elem_of_here.
  - exfalso. apply NoDup_cons in Hnd as [Hx _].
    assert (x = a) by (apply Hin, list_elem_of_here).
    assert (y = a) by (apply Hin, list_elem_of_further, list_elem_of_here).
    subst. apply Hx, list_elem_of_here.
Qed.

(** C4 (amended).  [drv_gem_bo_destroy] closes the handle of a plane only
    when no earlier plane of the buffer object carries it: every handle of
    the buffer object is closed once, none twice, and a buffer object whose
    planes all alias one handle [h] gets a single [DRM_IOCTL_GEM_CLOSE].
    The unmap calls of [drv_mapping_destroy] for such a buffer object go
    by vma, not by handle and not by plane: as long as the calls answer 0
    the backend's unmap is called once for each vma of [h] that has cache
    entries (the function then returns 0), and when a call fails the
    function returns its answer and the calls made are those up to it; no
    vma is handed to the backend twice.  So there is one unmap call
    when the entries of [h] share one vma, none when [h] has no entry,
    and as many as there are vmas otherwise. *)
Theorem destroy_releases_aliased_handle_once
    (drmIoctl : list ioctl_request -> ioctl_request -> ioctl_reply)
    (bo_unmap : list nat -> bo -> nat -> vma -> Z)
    (b : bo) (k : kstate) (st : ledger) :
  (1 <= meta_num_planes (meta b) <= length (handles b))%nat ->
  ledger_wf st ->
  klog (drv_gem_bo_destroy drmIoctl b k).2 =
    klog k ++ (DRM_IOCTL_GEM_CLOSE <$>
                 handles_to_close (handles b) (seq 0 (meta_num_planes (meta b)))) /\
  NoDup (handles_to_close (handles b) (seq 0 (meta_num_planes (meta b)))) /\
  (forall h, h ∈ handles_to_close (handles b) (seq 0 (meta_num_planes (meta b))) <->
             h ∈ take (meta_num_planes (meta b)) (handles b)) /\
  (forall h, (forall p, (p < meta_num_planes (meta b))%nat -> handles b !!! p = h) ->
     let released := released_vmas (vmas st) h (mappings st) in
     let answer := unmap_answer bo_unmap b (vmas st) (unmapped st) released in
     handles_to_close (handles b) (seq 0 (meta_num_planes (meta b))) = [h] /\
     NoDup released /\
     (forall a, a ∈ released <->
        exists m, m ∈ mappings st /\ mapping_vma m = a /\
                  handle_matches (vmas st) h m = true) /\
     ((forall i, (i < length released)%nat -> answer i = Some 0) ->
      exists st',
        drv_mapping_destroy bo_unmap b st = Some (Ok (0, st')) /\
        unmapped st' = unmapped st ++ released) /\
     (forall i r,
        answer i = Some r -> r <> 0 ->
        (forall j, (j < i)%nat -> answer j = Some 0) ->
        exists st',
          drv_mapping_destroy bo_unmap b st = Some (Ok (r, st')) /\
          unmapped st' = unmapped st ++ take (S i) released) /\
     (forall a,
        (exists m, m ∈ mappings st /\ handle_matches (vmas st) h m = true) ->
        (forall m, m ∈ mappings st ->
           handle_matches (vmas st) h m = true -> mapping_vma m = a) ->
        released = [a]) /\
     ((forall m, m ∈ mappings st -> handle_matches (vmas st) h m = false) ->
      released = [])).
Proof.
  intros [Hn Hlen] Hwf.
  set (n := meta_num_planes (meta b)) in *.
  assert (Hnd : NoDup (handles_to_close (handles b) (seq 0 n)))
    by apply handles_to_close_NoDup, NoDup_ListNoDup, seq_NoDup.
  split; [apply gem_destroy_loop_log |]. split; [done |].
  split; [intros h; by apply handles_to_close_elem |].
  intros h Hsame. cbv zeta. split.
  { apply NoDup_all_equal; [done |].
    intros x. rewrite handles_to_close_elem by done.
    rewrite list_elem_of_lookup. split.
    + intros (p & Hp).
      assert (p < n)%nat by (apply lookup_lt_Some in Hp; rewrite length_take in Hp; lia).
      rewrite lookup_take_lt in Hp by done.
      apply list_lookup_total_correct in Hp. rewrite <- Hp. by apply Hsame.
    + intros ->. exists 0%nat. rewrite lookup_take_lt by lia.
      rewrite <- (Hsame 0%nat) by lia. apply list_lookup_lookup_total_lt. lia. }
  rewrite <- (Hsame 0%nat) by lia.
  split; [apply released_vmas_NoDup |].
  split; [intros a; apply released_vmas_elem |].
  split; [| split; [| split]].
  - intros Hall.
    destruct (drv_mapping_destroy_succeeds bo_unmap b st Hn Hwf Hall)
      as (st' & Hrun & _ & Hlog & _).
    by exists st'.
  - intros i r Hi Hr Hbefore.
    destruct (drv_mapping_destroy_fails bo_unmap b st i r Hn Hwf Hi Hr Hbefore)
      as (st' & Hrun & _ & Hlog & _).
    by exists st'.
  - intros a (m & Hm & Hmatch) Hone.
    apply NoDup_all_equal_nat; [apply released_vmas_NoDup |].
    intros x. rewrite released_vmas_elem. split.
    + intros (m' & Hm' & <- & Hmatch'). by apply Hone.
    + intros ->. exists m. split; [done |]. split; [by apply Hone | done].
  - intros Hnone.
    destruct (released_vmas (vmas st) (handles b !!! 0%nat) (mappings st))
      as [|a l] eqn:E; [done |].
    assert (Ha : a ∈ released_vmas (vmas st) (handles b !!! 0%nat) (mappings st))
      by (rewrite E; apply list_elem_of_here).
    apply released_vmas_elem in Ha as (m & Hm & _ & Hmatch).
    by rewrite Hnone in Hmatch.
Qed.

(** Two planes on handle 5, and the cache [sample_ledger], whose two
    entries of handle 5 share the vma at address 1: one
    [DRM_IOCTL_GEM_CLOSE] and one unmap call. *)
Lemma destroy_releases_aliased_handle_once_witness :
  klog (drv_gem_bo_destroy granting_kernel (bo_with_handles 2 [5; 5; 0; 0]) fresh_kstate).2
    = [DRM_IOCTL_GEM_CLOSE 5] /\
  exists st',
    drv_mapping_destroy unmap_ok (bo_with_handles 2 [5; 5; 0; 0]) sample_ledger
      = Some (Ok (0, st')) /\
    unmapped st' = [1%nat].
Proof.
  destruct (destroy_releases_aliased_handle_once granting_kernel unmap_ok
              (bo_with_handles 2 [5; 5; 0; 0]) fresh_kstate sample_ledger)
    as (Hlog & _ & _ & Hsame).
  - simpl. lia.
  - exact sample_ledger_wf.
  - destruct (Hsame 5) as (Hone & _ & _ & Hok & _ & Hshared & _).
    { intros p Hp. simpl in Hp. destruct p as [|[|p]]; [reflexivity | reflexivity | lia]. }
    split.
    + rewrite Hlog, Hone. reflexivity.
    + destruct Hok as (st' & Hrun & Hcalls).
      { intros i Hi. destruct i as [|i]; [reflexivity |]. vm_compute in Hi. lia. }
      exists st'. split; [exact Hrun |].
      rewrite Hcalls, (Hshared 1%nat); [reflexivity | |].
      * exists {| mapping_vma := 1 |}. split; [apply list_elem_of_here | reflexivity].
      * intros m Hm Hmatch. simpl in Hm.
        repeat (apply elem_of_cons in Hm as [-> | Hm]);
          [reflexivity | vm_compute in Hmatch; discriminate | reflexivity
          | by apply elem_of_nil in Hm].
Defined.

(** C4 as stated fails for the unmap: two planes on handle 5 and two cache
    entries of handle 5 on two vmas give one [DRM_IOCTL_GEM_CLOSE] but two
    calls of the backend's unmap for the one handle. *)
Lemma destroy_two_vmas_two_unmaps_counterexample :
  (forall p, (p < 2)%nat -> handles (bo_with_handles 2 [5; 5; 0; 0]) !!! p = 5) /\
  (forall m, m ∈ mappings two_vma_ledger ->
     handle_matches (vmas two_vma_ledger) 5 m = true) /\
  klog (drv_gem_bo_destroy granting_kernel (bo_with_handles 2 [5; 5; 0; 0]) fresh_kstate).2
    = [DRM_IOCTL_GEM_CLOSE 5] /\
  exists st',
    drv_mapping_destroy unmap_ok (bo_with_handles 2 [5; 5; 0; 0]) two_vma_ledger
      = Some (Ok (0, st')) /\
    unmapped st' = [1%nat; 2%nat].
Proof.
  split; [| split; [| split]].
  - intros p Hp. destruct p as [|[|p]]; [reflexivity | reflexivity | lia].
  - intros m Hm. simpl in Hm.
    repeat (apply elem_of_cons in Hm as [-> | Hm]);
      [reflexivity | reflexivity | by apply elem_of_nil in Hm].
  - reflexivity.
  - eexists. split; [vm_compute; reflexivity | reflexivity].
Qed.

(** ** Sample runs *)

(** The request of the design document: width 100, height 75, Android YV12,
    on a kernel that grants it with pitch 128. *)
Lemma dumb_create_android_yv12_witness :
  exists b',
    drv_dumb_bo_create granting_kernel
      (blank_bo 100 75 DRM_FORMAT_YVU420_ANDROID) 100 75 DRM_FORMAT_YVU420_ANDROID
      0 fresh_kstate
    = Ok (0, b',
          (do_ioctl granting_kernel fresh_kstate
             (DRM_IOCTL_MODE_CREATE_DUMB 128 114 8 0)).2) /\
    meta_height (meta b') = 75 /\
    meta_total_size (meta b') = 14592 /\
    meta_strides (meta b') !!! 0%nat = 128 /\
    meta_sizes (meta b') !!! 0%nat = wrap32 (128 * 75).
Proof.
  destruct (dumb_create_android_yv12 granting_kernel
              (blank_bo 100 75 DRM_FORMAT_YVU420_ANDROID) 0 BO_QUIRK_NONE fresh_kstate)
    as (_ & _ & _ & Hgranted).
  - repeat split; reflexivity.
  - reflexivity.
  - apply Hgranted; [reflexivity | unfold is_uint32; simpl; lia | reflexivity].
Defined.

(** The import of [two_plane_import] on [picky_kernel]: plane 0 is imported
    as handle 110, plane 1 fails, and handle 110 is closed before the
    function returns -22. *)
Lemma prime_import_releases_on_failure_witness :
  exists v b' k' closes,
    drv_prime_bo_import picky_kernel (bo_with_handles 2 [0; 0; 0; 0]) two_plane_import
      fresh_kstate = (v, b', k') /\
    klog k' = klog fresh_kstate ++ import_requests two_plane_import 2
                ++ (DRM_IOCTL_GEM_CLOSE <$> closes) /\
    NoDup closes /\
    (forall i, (i < 1)%nat ->
       out_handle (import_reply picky_kernel fresh_kstate two_plane_import i) ∈ closes) /\
    (forall h, h ∈ closes ->
       exists i, (i < 1)%nat /\
         h = out_handle (import_reply picky_kernel fresh_kstate two_plane_import i)) /\
    v = - kerrno k' /\
    meta_num_planes (meta b') = 1%nat.
Proof.
  apply (prime_import_releases_on_failure picky_kernel (bo_with_handles 2 [0; 0; 0; 0])
           two_plane_import fresh_kstate 1).
  - simpl. lia.
  - simpl. lia.
  - intros i Hi. destruct i as [|i]; [reflexivity | lia].
  - intros H. vm_compute in H. discriminate H.
Defined.

Example prime_import_sample_run :
  drv_prime_bo_import picky_kernel (bo_with_handles 2 [0; 0; 0; 0]) two_plane_import
    fresh_kstate
  = (-22, bo_with_handles 1 [110; 0; 0; 0],
     {| klog := [DRM_IOCTL_PRIME_FD_TO_HANDLE 10; DRM_IOCTL_PRIME_FD_TO_HANDLE 11;
                 DRM_IOCTL_GEM_CLOSE 110];
        kerrno := 22 |}).
Proof. reflexivity. Qed.

Example modify_combination_sample :
  let linear := {| priority := 1; tiling := 0; modifier := 0 |} in
  let tiled := {| priority := 2; tiling := 1; modifier := 9 |} in
  drv_modify_combination
    [ {| combo_format := DRM_FORMAT_XRGB8888; metadata := linear; use_flags := 1 |};
      {| combo_format := DRM_FORMAT_XRGB8888; metadata := tiled; use_flags := 1 |};
      {| combo_format := DRM_FORMAT_NV12; metadata := linear; use_flags := 4 |} ]
    DRM_FORMAT_XRGB8888 linear 6
  = [ {| combo_format := DRM_FORMAT_XRGB8888; metadata := linear; use_flags := 7 |};
      {| combo_format := DRM_FORMAT_XRGB8888; metadata := tiled; use_flags := 1 |};
      {| combo_format := DRM_FORMAT_NV12; metadata := linear; use_flags := 4 |} ].
Proof. reflexivity. Qed.

Example pick_modifier_sample :
  drv_pick_modifier [11; 12; 13] [13; 11] = 13 /\
  drv_pick_modifier [11; 12] [13] = DRM_FORMAT_MOD_LINEAR.
Proof. split; reflexivity. Qed.

Example reference_count_sample :
  let b := bo_with_handles 1 [5; 0; 0; 0] in
  let inc t := drv_increment_reference_count t b 0 in
  let dec t := drv_decrement_reference_count t b 0 in
  drv_get_reference_count (dec (dec (inc (inc (inc ∅))))) b 0 = 1 /\
  drv_get_reference_count (dec ∅) b 0 = 0.
Proof. split; reflexivity. Qed.

(** * Further properties *)

(** ** The layout catalog *)

(** X1.  Every layout of the catalog has between 1 and [DRV_MAX_PLANES]
    planes and arrays of [DRV_MAX_PLANES] entries; its first plane is not
    subsampled; every plane it has is subsampled by 1 or 2, the same way
    in both directions, and has between 1 and 8 bytes per pixel; the
    entries behind its planes are 0. *)
Theorem layout_catalog_invariants (format : Z) (l : planar_layout) :
  layout_from_format format = Some l ->
  (1 <= num_planes l <= DRV_MAX_PLANES)%nat /\
  length (horizontal_subsampling l) = DRV_MAX_PLANES /\
  length (vertical_subsampling l) = DRV_MAX_PLANES /\
  length (bytes_per_pixel l) = DRV_MAX_PLANES /\
  horizontal_subsampling l !!! 0%nat = 1 /\
  vertical_subsampling l !!! 0%nat = 1 /\
  (forall p, (p < num_planes l)%nat ->
     1 <= horizontal_subsampling l !!! p <= 2 /\
     vertical_subsampling l !!! p = horizontal_subsampling l !!! p /\
     1 <= bytes_per_pixel l !!! p <= 8) /\
  (forall p, (num_planes l <= p < DRV_MAX_PLANES)%nat ->
     horizontal_subsampling l !!! p = 0 /\
     vertical_subsampling l !!! p = 0 /\
     bytes_per_pixel l !!! p = 0).
Proof.
  intros H%layout_from_format_cases.
  repeat (apply elem_of_cons in H as [-> | H]);
    [.. | by apply elem_of_nil in H];
    (split; [unfold DRV_MAX_PLANES; simpl; lia |]);
    (split; [reflexivity |]); (split; [reflexivity |]); (split; [reflexivity |]);
    (split; [reflexivity |]); (split; [reflexivity |]);
    (split; intros p Hp; unfold DRV_MAX_PLANES in Hp; simpl in Hp;
     destruct p as [|[|[|[|p]]]]; cbn; try lia; repeat split; lia).
Qed.

Lemma layout_catalog_invariants_witness :
  (1 <= num_planes biplanar_yuv_420_layout <= DRV_MAX_PLANES)%nat /\
  length (horizontal_subsampling biplanar_yuv_420_layout) = DRV_MAX_PLANES /\
  length (vertical_subsampling biplanar_yuv_420_layout) = DRV_MAX_PLANES /\
  length (bytes_per_pixel biplanar_yuv_420_layout) = DRV_MAX_PLANES /\
  horizontal_subsampling biplanar_yuv_420_layout !!! 0%nat = 1 /\
  vertical_subsampling biplanar_yuv_420_layout !!! 0%nat = 1 /\
  (forall p, (p < num_planes biplanar_yuv_420_layout)%nat ->
     1 <= horizontal_subsampling biplanar_yuv_420_layout !!! p <= 2 /\
     vertical_subsampling biplanar_yuv_420_layout !!! p =
       horizontal_subsampling biplanar_yuv_420_layout !!! p /\
     1 <= bytes_per_pixel biplanar_yuv_420_layout !!! p <= 8) /\
  (forall p, (num_planes biplanar_yuv_420_layout <= p < DRV_MAX_PLANES)%nat ->
     horizontal_subsampling biplanar_yuv_420_layout !!! p = 0 /\
     vertical_subsampling biplanar_yuv_420_layout !!! p = 0 /\
     bytes_per_pixel biplanar_yuv_420_layout !!! p = 0).
Proof.
  apply (layout_catalog_invariants DRM_FORMAT_NV12 biplanar_yuv_420_layout).
  reflexivity.
Defined.

(** ** Format codes *)

(** X2.  [drv_get_standard_fourcc] changes only the Android YV12 code, never
    returns it, is idempotent, and keeps the plane layout of the format. *)
Theorem standard_fourcc_keeps_layout (format : Z) :
  (format <> DRM_FORMAT_YVU420_ANDROID -> drv_get_standard_fourcc format = format) /\
  drv_get_standard_fourcc format <> DRM_FORMAT_YVU420_ANDROID /\
  drv_get_standard_fourcc (drv_get_standard_fourcc format) =
    drv_get_standard_fourcc format /\
  layout_from_format (drv_get_standard_fourcc format) = layout_from_format format.
Proof.
  unfold drv_get_standard_fourcc.
  destruct (format =? DRM_FORMAT_YVU420_ANDROID) eqn:E.
  - apply Z.eqb_eq in E. subst format.
    split; [done |]. split; [by vm_compute |]. split; reflexivity.
  - apply Z.eqb_neq in E. rewrite (proj2 (Z.eqb_neq _ _) E). done.
Qed.

(** X3.  [drv_resolve_format_helper] leaves every code but the two flexible
    ones as it is; it resolves a flexible code to NV12 or XBGR8888, both of
    which are in the layout catalog (NV12 exactly when the code is the
    flexible YCbCr one or a camera usage bit is set); it never returns a
    flexible code and resolving twice is resolving once. *)
Theorem resolve_format_lands_in_catalog (camera_read camera_write format use_flags : Z) :
  let resolved := drv_resolve_format_helper camera_read camera_write format use_flags in
  (format <> DRM_FORMAT_FLEX_IMPLEMENTATION_DEFINED ->
   format <> DRM_FORMAT_FLEX_YCbCr_420_888 -> resolved = format) /\
  (format = DRM_FORMAT_FLEX_YCbCr_420_888 -> resolved = DRM_FORMAT_NV12) /\
  (format = DRM_FORMAT_FLEX_IMPLEMENTATION_DEFINED ->
     (Z.land use_flags (Z.lor camera_read camera_write) <> 0 ->
        resolved = DRM_FORMAT_NV12) /\
     (Z.land use_flags (Z.lor camera_read camera_write) = 0 ->
        resolved = DRM_FORMAT_XBGR8888)) /\
  (format = DRM_FORMAT_FLEX_IMPLEMENTATION_DEFINED \/
   format = DRM_FORMAT_FLEX_YCbCr_420_888 ->
     layout_from_format resolved <> None) /\
  resolved <> DRM_FORMAT_FLEX_IMPLEMENTATION_DEFINED /\
  resolved <> DRM_FORMAT_FLEX_YCbCr_420_888 /\
  drv_resolve_format_helper camera_read camera_write resolved use_flags = resolved.
Proof.
  intros resolved. subst resolved. unfold drv_resolve_format_helper.
  destruct (format =? DRM_FORMAT_FLEX_IMPLEMENTATION_DEFINED) eqn:E1.
  - apply Z.eqb_eq in E1. subst format.
    destruct (Z.land use_flags (Z.lor camera_read camera_write) =? 0) eqn:Eu; simpl negb;
      cbv iota.
    + apply Z.eqb_eq in Eu.
      repeat split; try done; try (intros; by vm_compute).
    + apply Z.eqb_neq in Eu.
      repeat split; try done; try (intros; by vm_compute).
  - apply Z.eqb_neq in E1.
    destruct (format =? DRM_FORMAT_FLEX_YCbCr_420_888) eqn:E2.
    + apply Z.eqb_eq in E2. subst format.
      repeat split; try done; try (intros; by vm_compute).
    + apply Z.eqb_neq in E2.
      rewrite (proj2 (Z.eqb_neq _ _) E1), (proj2 (Z.eqb_neq _ _) E2).
      repeat split; try done. intros [? | ?]; done.
Qed.

(** X4.  [drv_num_planes_from_modifier] is 0 for a format that is not in the
    catalog, whatever the backend's hook would say; for a supported format
    it is the catalog's plane count unless the backend has a hook and the
    modifier is neither linear nor invalid, and only then the hook's
    answer. *)
Theorem num_planes_from_modifier_guards (hook : option (Z -> Z -> nat))
    (format modifier : Z) :
  (layout_from_format format = None ->
     drv_num_planes_from_modifier hook format modifier = 0%nat) /\
  (hook = None \/ modifier = DRM_FORMAT_MOD_LINEAR \/ modifier = DRM_FORMAT_MOD_INVALID ->
     drv_num_planes_from_modifier hook format modifier =
       drv_num_planes_from_format format) /\
  (forall f, hook = Some f -> layout_from_format format <> None ->
     modifier <> DRM_FORMAT_MOD_LINEAR -> modifier <> DRM_FORMAT_MOD_INVALID ->
     drv_num_planes_from_modifier hook format modifier = f format modifier).
Proof.
  unfold drv_num_planes_from_modifier, drv_num_planes_from_format.
  destruct (layout_from_format format) as [l|] eqn:Hl.
  - pose proof (layout_planes_bounds _ _ Hl) as [Hn _].
    replace (num_planes l =? 0)%nat with false by (symmetry; apply Nat.eqb_neq; lia).
    split; [done |]. split.
    + intros [-> | [-> | ->]]; [done | |]; destruct hook; try done.
    + intros f -> _ Hlin Hinv.
      apply Z.eqb_neq in Hlin, Hinv. by rewrite Hlin, Hinv.
  - split; [done |]. split; [| done].
    intros _. done.
Qed.

(** ** Strides: the query and the resolver *)

Lemma ALIGN_multiple a n : 0 <= n -> aligned_to (2 ^ n) (ALIGN a (2 ^ n)).
Proof. intros Hn. unfold aligned_to. rewrite ALIGN_pow2 by done. apply Z.mod_mul. lia. Qed.

Lemma ALIGN_uint32 a n : 0 <= n -> is_uint32 (ALIGN a (2 ^ n)).
Proof.
  intros Hn. rewrite ALIGN_pow2 by done.
  pose proof (wrap32_range (a + 2 ^ n - 1)) as [H0 H1].
  assert (0 < 2 ^ n) by lia.
  pose proof (Z.mul_div_le (wrap32 (a + 2 ^ n - 1)) (2 ^ n) ltac:(lia)).
  assert (0 <= wrap32 (a + 2 ^ n - 1) / 2 ^ n) by (apply Z.div_pos; lia).
  unfold is_uint32. nia.
Qed.

Lemma ALIGN_exact a n :
  0 <= n -> 0 <= a -> a + 2 ^ n - 1 < 2 ^ 32 ->
  ALIGN a (2 ^ n) = (a + 2 ^ n - 1) / 2 ^ n * 2 ^ n /\ a <= ALIGN a (2 ^ n) < a + 2 ^ n.
Proof.
  intros Hn Ha Hfit. rewrite ALIGN_pow2 by done.
  assert (0 < 2 ^ n) by lia.
  rewrite wrap32_small by (unfold is_uint32; lia). split; [done |].
  pose proof (Z.div_mod (a + 2 ^ n - 1) (2 ^ n) ltac:(lia)).
  pose proof (Z.mod_pos_bound (a + 2 ^ n - 1) (2 ^ n) ltac:(lia)). nia.
Qed.

Lemma aligned_to_32_16 x : aligned_to 32 x -> aligned_to 16 x.
Proof.
  unfold aligned_to. intros H.
  pose proof (Z.div_mod x 32 ltac:(lia)) as Hx. rewrite H, Z.add_0_r in Hx.
  rewrite Hx. replace (32 * (x / 32)) with (2 * (x / 32) * 16) by lia.
  apply Z.mod_mul. lia.
Qed.

Lemma DIV_ROUND_UP_by_1 w : is_uint32 w -> DIV_ROUND_UP w 1 = w.
Proof.
  intros Hw. unfold DIV_ROUND_UP. rewrite Z.div_1_r.
  replace (w + 1 - 1) with w by lia. by apply wrap32_small.
Qed.

(** X5.  For the Android YV12 format [drv_stride_from_format] returns, for
    each of the three planes, a stride that is a multiple of 16, and for
    plane 0 a multiple of 32 that [ALIGN] by 32 leaves as it is (what the
    resolver asserts of its stride argument); as long as the width is at
    most 2^32 - 32 the stride is not below the unaligned stride of the
    plane. *)
Theorem android_stride_is_aligned (width : Z) (plane : nat) :
  is_uint32 width ->
  (plane < 3)%nat ->
  exists s,
    drv_stride_from_format DRM_FORMAT_YVU420_ANDROID width plane = Ok s /\
    is_uint32 s /\
    aligned_to 16 s /\
    (plane = 0%nat -> aligned_to 32 s /\ s = ALIGN s 32) /\
    (width + 32 <= 2 ^ 32 ->
       DIV_ROUND_UP width (horizontal_subsampling triplanar_yuv_420_layout !!! plane) *
       (bytes_per_pixel triplanar_yuv_420_layout !!! plane) <= s).
Proof.
  intros Hw Hp. unfold drv_stride_from_format.
  change (deref_layout DRM_FORMAT_YVU420_ANDROID) with (Ok triplanar_yuv_420_layout).
  run_outcome.
  replace (plane <? num_planes triplanar_yuv_420_layout)%nat with true
    by (symmetry; apply Nat.ltb_lt; simpl; lia).
  cbn [assert]. cbv iota. rewrite Z.eqb_refl.
  destruct plane as [|plane].
  - eexists. split; [reflexivity |]. cbn [Nat.eqb]. cbv iota.
    change (horizontal_subsampling triplanar_yuv_420_layout !!! 0%nat) with 1.
    change (bytes_per_pixel triplanar_yuv_420_layout !!! 0%nat) with 1.
    rewrite DIV_ROUND_UP_by_1, Z.mul_1_r, wrap32_small by done.
    change 32 with (2 ^ 5).
    pose proof (ALIGN_uint32 width 5 ltac:(lia)) as Hr.
    pose proof (ALIGN_multiple width 5 ltac:(lia)) as Hm.
    split; [done |]. split.
    { by apply aligned_to_32_16. }
    split.
    { intros _. split; [done |].
      change (2 ^ 5) with 32 in *. apply Z.eqb_eq. by apply ALIGN_32_fixpoint. }
    intros Hfit. unfold is_uint32 in Hw.
    destruct (ALIGN_exact width 5 ltac:(lia) ltac:(lia)) as [_ Hge];
      [change (2 ^ 5) with 32; lia | lia].
  - eexists. split; [reflexivity |]. cbn [Nat.eqb]. cbv iota.
    assert (Hh : horizontal_subsampling triplanar_yuv_420_layout !!! S plane = 2)
      by (destruct plane as [|[|plane]]; [reflexivity | reflexivity | lia]).
    assert (Hb : bytes_per_pixel triplanar_yuv_420_layout !!! S plane = 1)
      by (destruct plane as [|[|plane]]; [reflexivity | reflexivity | lia]).
    rewrite Hh, Hb, Z.mul_1_r.
    pose proof (DIV_ROUND_UP_uint32 width 2 ltac:(lia)) as Hc.
    rewrite (wrap32_small (DIV_ROUND_UP width 2)) by done.
    change 16 with (2 ^ 4).
    split; [by apply ALIGN_uint32 |]. split; [by apply ALIGN_multiple |].
    split; [done |].
    intros Hfit. unfold is_uint32 in *.
    assert (DIV_ROUND_UP width 2 <= width).
    { unfold DIV_ROUND_UP. rewrite wrap32_small by (unfold is_uint32; lia).
      pose proof (Z.div_mod (width + 2 - 1) 2 ltac:(lia)).
      pose proof (Z.mod_pos_bound (width + 2 - 1) 2 ltac:(lia)). lia. }
    destruct (ALIGN_exact (DIV_ROUND_UP width 2) 4 ltac:(lia) ltac:(lia)) as [_ Hge];
      [change (2 ^ 4) with 16; lia | lia].
Qed.

Lemma android_stride_is_aligned_witness :
  exists s,
    drv_stride_from_format DRM_FORMAT_YVU420_ANDROID 100 1 = Ok s /\
    is_uint32 s /\
    aligned_to 16 s /\
    (1%nat = 0%nat -> aligned_to 32 s /\ s = ALIGN s 32) /\
    (100 + 32 <= 2 ^ 32 ->
       DIV_ROUND_UP 100 (horizontal_subsampling triplanar_yuv_420_layout !!! 1%nat) *
       (bytes_per_pixel triplanar_yuv_420_layout !!! 1%nat) <= s).
Proof.
  apply (android_stride_is_aligned 100 1).
  - unfold is_uint32. lia.
  - lia.
Defined.

(** X6.  For the two legacy YVU420 formats the query and the resolver agree:
    when the buffer is laid out with the stride [drv_stride_from_format]
    reports for plane 0, the resolver succeeds (also for the Android
    format, whose assert on the stride holds) and stores for every plane
    the stride the query reports for that plane. *)
Theorem yvu420_query_matches_resolver (b : bo) (format width : Z) (p : nat) :
  is_legacy_yvu420 format ->
  0 <= width -> width + 32 <= 2 ^ 32 ->
  bo_wf b ->
  (p < 3)%nat ->
  exists s0 sp b',
    drv_stride_from_format format width 0 = Ok s0 /\
    drv_stride_from_format format width p = Ok sp /\
    drv_bo_from_format b s0 (meta_height (meta b)) format = Ok (0, b') /\
    meta_strides (meta b') !!! p = sp.
Proof.
  intros Hf Hw0 Hw Hwf Hp.
  assert (Hl : layout_from_format format = Some triplanar_yuv_420_layout)
    by (destruct Hf as [-> | ->]; reflexivity).
  assert (Hwu : is_uint32 width) by (unfold is_uint32; lia).
  assert (Hquery : forall q, (q < 3)%nat ->
    drv_stride_from_format format width q =
      Ok (if format =? DRM_FORMAT_YVU420_ANDROID
          then (if (q =? 0)%nat then (width + 31) / 32 * 32
                else ((width + 1) / 2 + 15) / 16 * 16)
          else (if (q =? 0)%nat then width else (width + 1) / 2))).
  { intros q Hq. unfold drv_stride_from_format, deref_layout. rewrite Hl. run_outcome.
    replace (q <? num_planes triplanar_yuv_420_layout)%nat with true
      by (symmetry; apply Nat.ltb_lt; simpl; lia).
    cbn [assert]. cbv iota. f_equal.
    assert (Hhalf : DIV_ROUND_UP width 2 = (width + 1) / 2).
    { unfold DIV_ROUND_UP. rewrite wrap32_small by (unfold is_uint32; lia).
      f_equal. lia. }
    assert (Hhalf_le : 0 <= (width + 1) / 2 <= width).
    { pose proof (Z.div_mod (width + 1) 2 ltac:(lia)).
      pose proof (Z.mod_pos_bound (width + 1) 2 ltac:(lia)). lia. }
    destruct q as [|q].
    - change (horizontal_subsampling triplanar_yuv_420_layout !!! 0%nat) with 1.
      change (bytes_per_pixel triplanar_yuv_420_layout !!! 0%nat) with 1.
      rewrite DIV_ROUND_UP_by_1, Z.mul_1_r, wrap32_small by done. cbn [Nat.eqb].
      destruct (format =? DRM_FORMAT_YVU420_ANDROID); [| done].
      change 32 with (2 ^ 5) at 1.
      destruct (ALIGN_exact width 5 ltac:(lia) ltac:(lia)) as [-> _];
        [change (2 ^ 5) with 32; lia |].
      change (2 ^ 5) with 32. do 2 f_equal. lia.
    - assert (Hh : horizontal_subsampling triplanar_yuv_420_layout !!! S q = 2)
        by (destruct q as [|[|q]]; [reflexivity | reflexivity | lia]).
      assert (Hb : bytes_per_pixel triplanar_yuv_420_layout !!! S q = 1)
        by (destruct q as [|[|q]]; [reflexivity | reflexivity | lia]).
      rewrite Hh, Hb, Z.mul_1_r, Hhalf.
      rewrite wrap32_small by (unfold is_uint32; lia). cbn [Nat.eqb].
      destruct (format =? DRM_FORMAT_YVU420_ANDROID); [| done].
      change 16 with (2 ^ 4) at 1.
      destruct (ALIGN_exact ((width + 1) / 2) 4 ltac:(lia) ltac:(lia)) as [-> _];
        [change (2 ^ 4) with 16; lia |].
      change (2 ^ 4) with 16. do 2 f_equal. lia. }
  set (s0 := if format =? DRM_FORMAT_YVU420_ANDROID
             then (width + 31) / 32 * 32 else width).
  assert (Hs0 : drv_stride_from_format format width 0 = Ok s0).
  { rewrite Hquery by lia. subst s0. cbn [Nat.eqb]. done. }
  assert (Hs0r : 0 <= s0 /\ s0 + 1 < 2 ^ 32 /\
                 (format = DRM_FORMAT_YVU420_ANDROID -> s0 mod 32 = 0)).
  { subst s0. destruct (format =? DRM_FORMAT_YVU420_ANDROID) eqn:E.
    - pose proof (Z.div_mod (width + 31) 32 ltac:(lia)).
      pose proof (Z.mod_pos_bound (width + 31) 32 ltac:(lia)).
      assert (0 <= (width + 31) / 32) by (apply Z.div_pos; lia).
      split; [lia |]. split; [lia |]. intros _. apply Z.mod_mul. lia.
    - apply Z.eqb_neq in E. split; [lia |]. split; [lia | done]. }
  destruct Hs0r as (Hs0a & Hs0b & Hs0c).
  destruct (drv_bo_from_format_and_padding_spec triplanar_yuv_420_layout format s0
              (meta_height (meta b)) [0; 0; 0; 0] Hl b Hwf)
    as (m' & Hrun & _ & _ & _ & _ & Hplanes).
  { intros Ha. split; [done |]. apply Z.eqb_eq, ALIGN_32_fixpoint; [| by apply Hs0c].
    unfold is_uint32. lia. }
  destruct (Hplanes p ltac:(simpl; lia)) as (Hst & _ & _).
  exists s0, (meta_strides m' !!! p), (with_meta m' b).
  split; [done |]. split; [| split; [done | done]].
  rewrite Hquery, Hst by done.
  unfold plane_stride, subsample_stride. f_equal.
  destruct p as [|p]; cbn [Nat.eqb negb].
  - subst s0. done.
  - rewrite (proj2 (format_in_legacy format) Hf).
    unfold DIV_ROUND_UP. rewrite wrap32_small by (unfold is_uint32; lia).
    subst s0. destruct (format =? DRM_FORMAT_YVU420_ANDROID).
    + replace ((width + 31) / 32 * 32 + 2 - 1) with (1 + (width + 31) / 32 * 16 * 2) by lia.
      rewrite Z.div_add by lia. change (1 / 2) with 0. rewrite Z.add_0_l.
      f_equal.
      replace ((width + 1) / 2 + 15) with ((width + 1 + 15 * 2) / 2)
        by (rewrite Z.div_add by lia; done).
      rewrite Z.div_div by lia. f_equal. lia.
    + f_equal. lia.
Qed.

Lemma yvu420_query_matches_resolver_witness :
  exists s0 sp b',
    drv_stride_from_format DRM_FORMAT_YVU420_ANDROID 100 0 = Ok s0 /\
    drv_stride_from_format DRM_FORMAT_YVU420_ANDROID 100 2 = Ok sp /\
    drv_bo_from_format (blank_bo 100 75 DRM_FORMAT_YVU420_ANDROID) s0
      (meta_height (meta (blank_bo 100 75 DRM_FORMAT_YVU420_ANDROID)))
      DRM_FORMAT_YVU420_ANDROID = Ok (0, b') /\
    meta_strides (meta b') !!! 2%nat = sp.
Proof.
  apply (yvu420_query_matches_resolver (blank_bo 100 75 DRM_FORMAT_YVU420_ANDROID)
           DRM_FORMAT_YVU420_ANDROID 100 2).
  - right. reflexivity.
  - lia.
  - lia.
  - repeat split; reflexivity.
  - lia.
Defined.

(** ** The resolver: when it returns, and what it leaves alone *)

Lemma fill_planes_frame (stride aligned_height format : Z) (padding : list Z) (n : nat) :
  forall (p : nat) (m : bo_metadata) (offset : Z) (m' : bo_metadata) (offset' : Z),
    fill_planes n p stride aligned_height format padding m offset = Ok (m', offset') ->
    meta_width m' = meta_width m /\
    meta_height m' = meta_height m /\
    meta_format m' = meta_format m /\
    meta_tiling m' = meta_tiling m /\
    meta_num_planes m' = meta_num_planes m /\
    (forall q, (q < p \/ p + n <= q)%nat ->
       meta_strides m' !! q = meta_strides m !! q /\
       meta_sizes m' !! q = meta_sizes m !! q /\
       meta_offsets m' !! q = meta_offsets m !! q).
Proof.
  induction n as [|n IH]; intros p m offset m' offset' Hrun.
  - simpl in Hrun. injection Hrun as <- <-. by repeat (split; [done |]).
  - cbn [fill_planes] in Hrun. cbv zeta in Hrun. unfold mbind, outcome_bind in Hrun.
    destruct (drv_size_from_format _ _ _ _) as [sz | f]; [| done].
    apply IH in Hrun. destruct Hrun as (Hw & Hh & Hf & Ht & Hn & Harr).
    simpl in Hw, Hh, Hf, Ht, Hn.
    do 5 (split; [done |]).
    intros q Hq. destruct (Harr q ltac:(lia)) as (Hs & Hz & Ho).
    rewrite Hs, Hz, Ho. simpl.
    rewrite !list_lookup_insert_ne by lia. done.
Qed.

Lemma resolver_frame (b : bo) (stride aligned_height format : Z) (padding : list Z)
    (v : Z) (b' : bo) :
  drv_bo_from_format_and_padding b stride aligned_height format padding = Ok (v, b') ->
  v = 0 /\ same_outside_planes (drv_num_planes_from_format format) b b'.
Proof.
  unfold drv_bo_from_format_and_padding. cbv zeta. unfold mbind, outcome_bind.
  destruct (assert (negb _)); [| done].
  destruct (if format =? DRM_FORMAT_YVU420_ANDROID then _ else _); [| done].
  destruct (fill_planes _ _ _ _ _ _ _ _) as [[m' off'] | f] eqn:Hfill; [| done].
  intros [= <- <-]. split; [done |].
  destruct (fill_planes_frame _ _ _ _ _ _ _ _ _ _ Hfill) as (Hw & Hh & Hf & Ht & Hn & Harr).
  unfold same_outside_planes. simpl.
  do 6 (split; [done |]). intros p Hp. apply Harr. lia.
Qed.

Lemma resolver_asserts_of_success (b : bo) (stride aligned_height format : Z)
    (padding : list Z) (r : Z * bo) :
  drv_bo_from_format_and_padding b stride aligned_height format padding = Ok r ->
  layout_from_format format <> None /\
  resolver_asserts_hold b stride aligned_height format.
Proof.
  unfold drv_bo_from_format_and_padding, drv_num_planes_from_format.
  cbv zeta. unfold mbind, outcome_bind.
  destruct (layout_from_format format) as [l |]; [| done].
  destruct (assert (negb _)); [| done].
  intros Hrun. split; [done |]. intros ->.
  change (DRM_FORMAT_YVU420_ANDROID =? DRM_FORMAT_YVU420_ANDROID) with true in Hrun.
  cbv iota in Hrun. unfold assert in Hrun.
  destruct (aligned_height =? meta_height (meta b)) eqn:Eh; [| done].
  destruct (stride =? ALIGN stride 32) eqn:Es; [| done].
  split; by apply Z.eqb_eq.
Qed.

(** X7.  [drv_bo_from_format_and_padding] stops only on one of its three
    asserts, and otherwise returns 0: an unsupported format trips the
    first assert (no NULL layout is ever read); for the Android YV12
    format an aligned height other than the buffer's height, or a stride
    that is no multiple of 32, trips the second or third; in every other
    case the function returns 0 with a filled buffer object. *)
Theorem resolver_stops_only_on_asserts (b : bo) (stride aligned_height format : Z)
    (padding : list Z) :
  bo_wf b ->
  is_uint32 stride ->
  (layout_from_format format = None ->
     drv_bo_from_format_and_padding b stride aligned_height format padding
       = Fault AssertFail) /\
  (format = DRM_FORMAT_YVU420_ANDROID ->
     aligned_height <> meta_height (meta b) \/ ~ aligned_to 32 stride ->
     drv_bo_from_format_and_padding b stride aligned_height format padding
       = Fault AssertFail) /\
  (layout_from_format format <> None ->
     (format = DRM_FORMAT_YVU420_ANDROID ->
        aligned_height = meta_height (meta b) /\ aligned_to 32 stride) ->
     exists b',
       drv_bo_from_format_and_padding b stride aligned_height format padding
         = Ok (0, b')).
Proof.
  intros Hwf Hs. split; [| split].
  - intros Hl. unfold drv_bo_from_format_and_padding, drv_num_planes_from_format.
    rewrite Hl. reflexivity.
  - intros -> Hbad.
    unfold drv_bo_from_format_and_padding. cbv zeta. unfold mbind, outcome_bind.
    change (assert (negb (drv_num_planes_from_format DRM_FORMAT_YVU420_ANDROID =? 0)%nat))
      with (Ok tt : outcome unit). cbv iota.
    change (DRM_FORMAT_YVU420_ANDROID =? DRM_FORMAT_YVU420_ANDROID) with true. cbv iota.
    unfold assert.
    destruct (aligned_height =? meta_height (meta b)) eqn:Eh; [| done].
    destruct (stride =? ALIGN stride 32) eqn:Es; [| done].
    apply Z.eqb_eq in Eh, Es. destruct Hbad as [Hbad | Hbad]; [done |].
    exfalso. apply Hbad. rewrite Es. change 32 with (2 ^ 5). apply ALIGN_multiple. lia.
  - intros Hl Hok.
    destruct (layout_from_format format) as [l |] eqn:El; [| done].
    destruct (drv_bo_from_format_and_padding_spec l format stride aligned_height padding
                El b Hwf) as (m' & Hrun & _).
    { intros Hf. destruct (Hok Hf) as [Hh Ha]. split; [done |].
      by apply Z.eqb_eq, ALIGN_32_fixpoint. }
    by exists (with_meta m' b).
Qed.

Lemma resolver_stops_only_on_asserts_witness :
  exists b',
    drv_bo_from_format_and_padding (blank_bo 100 75 DRM_FORMAT_YVU420_ANDROID)
      128 75 DRM_FORMAT_YVU420_ANDROID [0; 0; 0; 0] = Ok (0, b').
Proof.
  assert (Hwf : bo_wf (blank_bo 100 75 DRM_FORMAT_YVU420_ANDROID))
    by (repeat split; reflexivity).
  assert (Hs : is_uint32 128) by (unfold is_uint32; lia).
  destruct (resolver_stops_only_on_asserts (blank_bo 100 75 DRM_FORMAT_YVU420_ANDROID)
              128 75 DRM_FORMAT_YVU420_ANDROID [0; 0; 0; 0] Hwf Hs) as (_ & _ & Hok).
  apply Hok.
  - discriminate.
  - intros _. split; reflexivity.
Defined.

(** X8.  A successful run of [drv_bo_from_format_and_padding] returns 0 and
    writes only the strides, sizes and offsets of the planes of the format
    and the total size: the handles, the width, height, format, tiling and
    plane count of the buffer object, and the array slots from the
    format's plane count on, are as before. *)
Theorem resolver_writes_only_its_planes (b : bo) (stride aligned_height format : Z)
    (padding : list Z) (v : Z) (b' : bo) :
  drv_bo_from_format_and_padding b stride aligned_height format padding = Ok (v, b') ->
  v = 0 /\ same_outside_planes (drv_num_planes_from_format format) b b'.
Proof. apply resolver_frame. Qed.

Lemma resolver_writes_only_its_planes_witness :
  exists b',
    drv_bo_from_format (bo_with_handles 2 [7; 7; 0; 0]) 640 480 DRM_FORMAT_NV12 = Ok (0, b') /\
    same_outside_planes 2 (bo_with_handles 2 [7; 7; 0; 0]) b'.
Proof.
  eexists. split; [reflexivity |].
  apply (resolver_writes_only_its_planes (bo_with_handles 2 [7; 7; 0; 0]) 640 480
           DRM_FORMAT_NV12 [0; 0; 0; 0] 0 _).
  reflexivity.
Defined.

(** X9.  Recomputing a layout is idempotent: running
    [drv_bo_from_format_and_padding] again, with the same arguments, on the
    buffer object it returned gives that buffer object back unchanged. *)
Theorem resolver_recompute_is_idempotent (b : bo) (stride aligned_height format : Z)
    (padding : list Z) (v : Z) (b' : bo) :
  bo_wf b ->
  drv_bo_from_format_and_padding b stride aligned_height format padding = Ok (v, b') ->
  drv_bo_from_format_and_padding b' stride aligned_height format padding = Ok (v, b').
Proof.
  intros Hwf Hrun.
  destruct (resolver_asserts_of_success _ _ _ _ _ _ Hrun) as [Hl Hassert].
  destruct (layout_from_format format) as [l |] eqn:El; [| done]. clear Hl.
  destruct (drv_bo_from_format_and_padding_spec l format stride aligned_height padding
              El b Hwf Hassert) as (m1 & Hrun1 & Hwf1 & Hh1 & Hn1 & Ht1 & Hp1).
  rewrite Hrun1 in Hrun. injection Hrun as <- <-.
  assert (Hwf' : bo_wf (with_meta m1 b)) by (destruct Hwf; by split).
  assert (Hassert' : resolver_asserts_hold (with_meta m1 b) stride aligned_height format).
  { intros Hf. destruct (Hassert Hf) as [Hh Hs]. simpl. by rewrite Hh1. }
  destruct (drv_bo_from_format_and_padding_spec l format stride aligned_height padding
              El (with_meta m1 b) Hwf' Hassert')
    as (m2 & Hrun2 & Hwf2 & Hh2 & Hn2 & Ht2 & Hp2).
  rewrite Hrun2. do 2 f_equal.
  destruct (resolver_frame _ _ _ _ _ _ _ Hrun2) as [_ Hfr].
  unfold same_outside_planes, drv_num_planes_from_format in Hfr. rewrite El in Hfr.
  simpl in Hfr. destruct Hfr as (_ & Hw & Hh & Hf & Hti & Hn & Harr).
  assert (Harrays : meta_strides m2 = meta_strides m1 /\
                    meta_sizes m2 = meta_sizes m1 /\
                    meta_offsets m2 = meta_offsets m1).
  { destruct Hwf1 as (Lo1 & Ls1 & Lt1). destruct Hwf2 as (Lo2 & Ls2 & Lt2).
    split; [| split]; apply list_eq; intros q;
      (destruct (decide (q < num_planes l)%nat) as [Hq | Hq];
       [ destruct (Hp1 q Hq) as (E1 & E2 & E3); destruct (Hp2 q Hq) as (F1 & F2 & F3);
         pose proof (layout_planes_bounds _ _ El) as [Hmax _];
         rewrite !list_lookup_lookup_total_lt by lia; congruence
       | by apply Harr; lia ]). }
  destruct Harrays as (As & Az & Ao). simpl in Ht2.
  unfold with_meta. simpl. f_equal.
  destruct m1, m2. simpl in *. subst. reflexivity.
Qed.

Lemma resolver_recompute_is_idempotent_witness :
  exists b',
    drv_bo_from_format (blank_bo 640 480 DRM_FORMAT_NV12) 640 480 DRM_FORMAT_NV12
      = Ok (0, b') /\
    drv_bo_from_format b' 640 480 DRM_FORMAT_NV12 = Ok (0, b').
Proof.
  eexists. split; [reflexivity |].
  apply (resolver_recompute_is_idempotent (blank_bo 640 480 DRM_FORMAT_NV12) 640 480
           DRM_FORMAT_NV12 [0; 0; 0; 0] 0 _).
  - repeat split; reflexivity.
  - reflexivity.
Defined.

(** ** The registry: adding, widening, and the backends' [init] *)

Lemma drv_add_combinations_app (formats : list Z) :
  forall (combos : list combination) (md : format_metadata) (flags : Z),
    drv_add_combinations combos formats md flags =
      combos ++ (new_combination md flags <$> formats).
Proof.
  induction formats as [|f rest IH]; intros combos md flags; simpl.
  - by rewrite app_nil_r.
  - rewrite IH. unfold drv_add_combination, drv_array_append.
    by rewrite <- app_assoc.
Qed.

Lemma widen_record_keeps_key format md flags combo :
  combo_format (widen_record format md flags combo) = combo_format combo /\
  metadata (widen_record format md flags combo) = metadata combo.
Proof. unfold widen_record. by destruct (combo_matches format md combo). Qed.

Lemma combo_matches_widen f1 md1 f2 md2 flags combo :
  combo_matches f1 md1 (widen_record f2 md2 flags combo) = combo_matches f1 md1 combo.
Proof.
  unfold combo_matches.
  destruct (widen_record_keeps_key f2 md2 flags combo) as [-> ->]. done.
Qed.

Lemma widen_record_flags format md flags combo :
  use_flags (widen_record format md flags combo) =
    if combo_matches format md combo then Z.lor (use_flags combo) flags
    else use_flags combo.
Proof. unfold widen_record. by destruct (combo_matches format md combo). Qed.

Lemma combination_eq (c c' : combination) :
  combo_format c = combo_format c' -> metadata c = metadata c' ->
  use_flags c = use_flags c' -> c = c'.
Proof. destruct c, c'. simpl. by intros -> -> ->. Qed.

(** X10.  [drv_add_combinations] appends one record per entry of the format
    array, in the array's order, each with the given metadata and usage
    mask: the records already in the registry keep their places, and no
    format is skipped for being registered already. *)
Theorem add_combinations_appends (combos : list combination) (formats : list Z)
    (md : format_metadata) (flags : Z) :
  let combos' := drv_add_combinations combos formats md flags in
  combos' = combos ++ (new_combination md flags <$> formats) /\
  length combos' = (length combos + length formats)%nat /\
  (forall i, (i < length combos)%nat -> combos' !! i = combos !! i) /\
  (forall j format, formats !! j = Some format ->
     combos' !! (length combos + j)%nat =
       Some {| combo_format := format; metadata := md; use_flags := flags |}).
Proof.
  intros combos'. subst combos'. rewrite drv_add_combinations_app.
  split; [done |]. split; [by rewrite length_app, length_fmap |]. split.
  - intros i Hi. by rewrite lookup_app_l.
  - intros j format Hj. rewrite lookup_app_r by lia.
    replace (length combos + j - length combos)%nat with j by lia.
    by rewrite list_lookup_fmap, Hj.
Qed.

(** X11.  Widenings compose: two calls of [drv_modify_combination] for the
    same format and metadata are one call with the union of the usage
    bits, a repeated call changes nothing more, and calls for different
    formats or metadata commute. *)
Theorem modify_combination_composes (combos : list combination)
    (f1 f2 : Z) (md1 md2 : format_metadata) (u1 u2 : Z) :
  drv_modify_combination (drv_modify_combination combos f1 md1 u1) f1 md1 u2 =
    drv_modify_combination combos f1 md1 (Z.lor u1 u2) /\
  drv_modify_combination (drv_modify_combination combos f1 md1 u1) f1 md1 u1 =
    drv_modify_combination combos f1 md1 u1 /\
  drv_modify_combination (drv_modify_combination combos f1 md1 u1) f2 md2 u2 =
    drv_modify_combination (drv_modify_combination combos f2 md2 u2) f1 md1 u1.
Proof.
  rewrite !drv_modify_combination_map, <- !list_fmap_compose.
  split; [| split]; apply list_fmap_ext; intros i combo _; simpl;
    apply combination_eq;
    rewrite ?(proj1 (widen_record_keeps_key _ _ _ _)),
            ?(proj2 (widen_record_keeps_key _ _ _ _)),
            ?widen_record_flags, ?combo_matches_widen, ?widen_record_flags; try done.
  - destruct (combo_matches f1 md1 combo); [| done]. by rewrite Z.lor_assoc.
  - destruct (combo_matches f1 md1 combo); [| done].
    by rewrite <- Z.lor_assoc, Z.lor_diag.
  - destruct (combo_matches f1 md1 combo), (combo_matches f2 md2 combo); try done.
    rewrite <- !Z.lor_assoc. f_equal. apply Z.lor_comm.
Qed.

Section RegistryFacts.
Variables BO_USE_CURSOR BO_USE_SCANOUT : Z.
Variables BO_USE_RENDER_MASK BO_USE_TEXTURE_MASK : Z.
Variables BO_USE_HW_VIDEO_ENCODER BO_USE_HW_VIDEO_DECODER : Z.
Variable LINEAR_METADATA : format_metadata.

Local Abbreviation modify_linear :=
  (drv_modify_linear_combinations BO_USE_CURSOR BO_USE_SCANOUT LINEAR_METADATA).
Local Abbreviation vc4_init' :=
  (vc4_init BO_USE_CURSOR BO_USE_SCANOUT BO_USE_RENDER_MASK BO_USE_TEXTURE_MASK
     BO_USE_HW_VIDEO_ENCODER BO_USE_HW_VIDEO_DECODER LINEAR_METADATA).
Local Abbreviation magma_init' := (magma_init BO_USE_SCANOUT BO_USE_RENDER_MASK).

Lemma combo_matches_linear format flags :
  combo_matches format LINEAR_METADATA (new_combination LINEAR_METADATA flags format) = true.
Proof. unfold combo_matches. simpl. by rewrite !Z.eqb_refl. Qed.

Lemma combo_matches_other format format' md flags :
  format' <> format ->
  combo_matches format md (new_combination LINEAR_METADATA flags format') = false.
Proof.
  intros Hne. unfold combo_matches. simpl.
  by rewrite (proj2 (Z.eqb_neq _ _) Hne).
Qed.

(** X12.  [drv_modify_linear_combinations] returns 0 and keeps the number
    and order of the records; a record changes exactly when its format is
    XRGB8888 or ARGB8888 and its tiling and modifier are those of
    [LINEAR_METADATA], and then only by gaining the cursor and scanout
    bits. *)
Theorem modify_linear_combinations_scanout (combos : list combination) :
  (modify_linear combos).1 = 0 /\
  length (modify_linear combos).2 = length combos /\
  forall (i : nat) (combo : combination), combos !! i = Some combo ->
    exists combo', (modify_linear combos).2 !! i = Some combo' /\
      combo_format combo' = combo_format combo /\
      metadata combo' = metadata combo /\
      use_flags combo' =
        (if ((combo_format combo =? DRM_FORMAT_XRGB8888) ||
             (combo_format combo =? DRM_FORMAT_ARGB8888)) &&
            (tiling (metadata combo) =? tiling LINEAR_METADATA) &&
            (modifier (metadata combo) =? modifier LINEAR_METADATA)
         then Z.lor (use_flags combo) (Z.lor BO_USE_CURSOR BO_USE_SCANOUT)
         else use_flags combo).
Proof.
  unfold drv_modify_linear_combinations. cbv zeta. simpl.
  rewrite !drv_modify_combination_map, <- list_fmap_compose.
  split; [done |]. split; [by rewrite length_fmap |].
  intros i combo Hi. eexists. rewrite list_lookup_fmap, Hi. simpl.
  split; [done |].
  rewrite !(proj1 (widen_record_keeps_key _ _ _ _)),
          !(proj2 (widen_record_keeps_key _ _ _ _)).
  split; [done |]. split; [done |].
  rewrite widen_record_flags, combo_matches_widen, widen_record_flags.
  unfold combo_matches.
  destruct (combo_format combo =? DRM_FORMAT_XRGB8888) eqn:Ex.
  - apply Z.eqb_eq in Ex. rewrite Ex.
    change (DRM_FORMAT_XRGB8888 =? DRM_FORMAT_ARGB8888) with false. simpl.
    by destruct (_ && _).
  - simpl. by destruct (_ && _ && _).
Qed.

(** X13.  [vc4_init] returns 0 and appends five records to the registry,
    all with [LINEAR_METADATA] and all of a format the layout catalog knows:
    ARGB8888 and XRGB8888 with the render mask, cursor and scanout; RGB565
    with the render mask; NV12 with the texture mask, video decoder,
    scanout and video encoder; YVU420 with the texture mask and video
    encoder.  Records registered before keep their place, format and
    metadata and lose no usage bit. *)
Theorem vc4_init_registers_five (combos : list combination) :
  (vc4_init' combos).1 = 0 /\
  (exists old,
     (vc4_init' combos).2 =
       old ++
       [ new_combination LINEAR_METADATA
           (Z.lor BO_USE_RENDER_MASK (Z.lor BO_USE_CURSOR BO_USE_SCANOUT))
           DRM_FORMAT_ARGB8888;
         new_combination LINEAR_METADATA BO_USE_RENDER_MASK DRM_FORMAT_RGB565;
         new_combination LINEAR_METADATA
           (Z.lor BO_USE_RENDER_MASK (Z.lor BO_USE_CURSOR BO_USE_SCANOUT))
           DRM_FORMAT_XRGB8888;
         new_combination LINEAR_METADATA
           (Z.lor BO_USE_TEXTURE_MASK
              (Z.lor (Z.lor BO_USE_HW_VIDEO_DECODER BO_USE_SCANOUT)
                     BO_USE_HW_VIDEO_ENCODER))
           DRM_FORMAT_NV12;
         new_combination LINEAR_METADATA
           (Z.lor BO_USE_TEXTURE_MASK BO_USE_HW_VIDEO_ENCODER) DRM_FORMAT_YVU420 ] /\
     length old = length combos /\
     forall (i : nat) (combo : combination), combos !! i = Some combo ->
       exists combo', old !! i = Some combo' /\
         combo_format combo' = combo_format combo /\
         metadata combo' = metadata combo /\
         Z.land (use_flags combo) (use_flags combo') = use_flags combo) /\
  (forall (i : nat) (combo : combination),
     (length combos <= i)%nat -> (vc4_init' combos).2 !! i = Some combo ->
     metadata combo = LINEAR_METADATA /\
     layout_from_format (combo_format combo) <> None).
Proof.
  set (W := fun c : combination =>
    widen_record DRM_FORMAT_ARGB8888 LINEAR_METADATA (Z.lor BO_USE_CURSOR BO_USE_SCANOUT)
      (widen_record DRM_FORMAT_XRGB8888 LINEAR_METADATA (Z.lor BO_USE_CURSOR BO_USE_SCANOUT)
         (widen_record DRM_FORMAT_NV12 LINEAR_METADATA
            (Z.lor (Z.lor BO_USE_HW_VIDEO_DECODER BO_USE_SCANOUT) BO_USE_HW_VIDEO_ENCODER)
            (widen_record DRM_FORMAT_YVU420 LINEAR_METADATA BO_USE_HW_VIDEO_ENCODER c)))).
  assert (Hrun : vc4_init' combos =
    (0, (W <$> combos) ++
        [ new_combination LINEAR_METADATA
            (Z.lor BO_USE_RENDER_MASK (Z.lor BO_USE_CURSOR BO_USE_SCANOUT))
            DRM_FORMAT_ARGB8888;
          new_combination LINEAR_METADATA BO_USE_RENDER_MASK DRM_FORMAT_RGB565;
          new_combination LINEAR_METADATA
            (Z.lor BO_USE_RENDER_MASK (Z.lor BO_USE_CURSOR BO_USE_SCANOUT))
            DRM_FORMAT_XRGB8888;
          new_combination LINEAR_METADATA
            (Z.lor BO_USE_TEXTURE_MASK
               (Z.lor (Z.lor BO_USE_HW_VIDEO_DECODER BO_USE_SCANOUT)
                      BO_USE_HW_VIDEO_ENCODER))
            DRM_FORMAT_NV12;
          new_combination LINEAR_METADATA
            (Z.lor BO_USE_TEXTURE_MASK BO_USE_HW_VIDEO_ENCODER) DRM_FORMAT_YVU420 ])).
  { unfold vc4_init, drv_modify_linear_combinations. cbv zeta. f_equal.
    rewrite !drv_modify_combination_map, !drv_add_combinations_app.
    rewrite <- !list_fmap_compose, <- app_assoc, fmap_app. f_equal.
    unfold render_target_formats, texture_only_formats.
    cbn [fmap list_fmap app compose].
    repeat f_equal; apply combination_eq;
      rewrite ?(proj1 (widen_record_keeps_key _ _ _ _)),
              ?(proj2 (widen_record_keeps_key _ _ _ _)); try done;
      rewrite !widen_record_flags, !combo_matches_widen;
      rewrite ?combo_matches_linear;
      rewrite ?combo_matches_other by discriminate; done. }
  rewrite Hrun. simpl. split; [done |]. split.
  - exists (W <$> combos). split; [done |]. split; [by rewrite length_fmap |].
    intros i combo Hi. eexists. rewrite list_lookup_fmap, Hi. simpl.
    split; [done |]. subst W. cbv beta.
    rewrite !(proj1 (widen_record_keeps_key _ _ _ _)),
            !(proj2 (widen_record_keeps_key _ _ _ _)).
    split; [done |]. split; [done |].
    rewrite !widen_record_flags, !combo_matches_widen.
    repeat (match goal with |- context [combo_matches ?f ?m ?c] =>
              destruct (combo_matches f m c) end);
      rewrite <- ?Z.lor_assoc, ?land_lor_absorb; try done; apply Z.land_diag.
  - intros i combo Hi. rewrite lookup_app_r by (rewrite length_fmap; lia).
    rewrite length_fmap.
    destruct (i - length combos)%nat as [|[|[|[|[|j]]]]]; simpl;
      intros [= <-]; try done.
Qed.

(** X14.  [magma_init] returns 0 on every path, also when the device
    import or the connection fails (those paths [return NULL]); the device
    is released exactly when the import succeeded, whatever the connection
    call gives; on a failure the driver is left as it was, and on success
    the connection is stored in [priv] and four records, ABGR8888,
    ARGB8888, XBGR8888 and XRGB8888 with zeroed metadata and the render and
    scanout bits, are appended to the registry. *)
Theorem magma_init_always_returns_zero
    (magma_device_import magma_create_connection2 : Z -> Z * Z) (drv : magma_driver) :
  let r := magma_init' magma_device_import magma_create_connection2 drv in
  let imported := magma_device_import (drv_fd drv) in
  let connected := magma_create_connection2 imported.2 in
  r.1.1 = 0 /\
  drv_fd r.1.2 = drv_fd drv /\
  r.2 = (if imported.1 =? MAGMA_STATUS_OK then [imported.2] else []) /\
  (imported.1 <> MAGMA_STATUS_OK \/ connected.1 <> MAGMA_STATUS_OK -> r.1.2 = drv) /\
  (imported.1 = MAGMA_STATUS_OK -> connected.1 = MAGMA_STATUS_OK ->
     drv_priv r.1.2 = connected.2 /\
     drv_combos r.1.2 =
       drv_combos drv ++
       (new_combination {| priority := 0; tiling := 0; modifier := 0 |}
          (Z.lor BO_USE_RENDER_MASK BO_USE_SCANOUT) <$>
        [DRM_FORMAT_ABGR8888; DRM_FORMAT_ARGB8888; DRM_FORMAT_XBGR8888;
         DRM_FORMAT_XRGB8888])).
Proof.
  cbv zeta. unfold magma_init.
  destruct (magma_device_import (drv_fd drv)) as [s1 device]. cbn [fst snd].
  destruct (s1 =? MAGMA_STATUS_OK) eqn:E1; cbn [negb fst snd].
  - apply Z.eqb_eq in E1.
    destruct (magma_create_connection2 device) as [s2 connection]. cbn [fst snd].
    destruct (s2 =? MAGMA_STATUS_OK) eqn:E2; cbn [negb fst snd drv_fd drv_priv drv_combos].
    + apply Z.eqb_eq in E2. do 3 (split; [done |]). split.
      * intros [H | H]; done.
      * intros _ _. split; [done |]. by rewrite drv_add_combinations_app.
    + apply Z.eqb_neq in E2. do 3 (split; [done |]). split; [done |]. done.
  - apply Z.eqb_neq in E1. do 3 (split; [done |]). split; [done |]. done.
Qed.
End RegistryFacts.

(** ** The modifier selector *)

Lemma drv_has_modifier_elem (l : list Z) (m : Z) :
  drv_has_modifier l m = true <-> m ∈ l.
Proof.
  induction l as [|x rest IH]; simpl.
  - split; [done | by intros ?%elem_of_nil].
  - rewrite elem_of_cons. destruct (x =? m) eqn:E.
    + apply Z.eqb_eq in E. split; [by left | done].
    + apply Z.eqb_neq in E. rewrite IH. split; [by right | by intros [? | ?]].
Qed.

(** X15.  [drv_has_modifier] answers true exactly for the members of the
    list.  [drv_pick_modifier] returns either a modifier that
    [drv_has_modifier] finds in both lists, or [DRM_FORMAT_MOD_LINEAR]; it
    returns [DRM_FORMAT_MOD_LINEAR] when the lists share no entry, also
    when the caller's list does not hold it; and with the one-entry
    priority list of [vc4_bo_create_with_modifiers] the choice is
    [DRM_FORMAT_MOD_LINEAR] whatever the caller passes. *)
Theorem modifier_membership_and_choice (modifiers modifier_order : list Z) (m : Z) :
  (drv_has_modifier modifiers m = true <-> m ∈ modifiers) /\
  (drv_has_modifier modifiers (drv_pick_modifier modifiers modifier_order) = true /\
   drv_has_modifier modifier_order (drv_pick_modifier modifiers modifier_order) = true \/
   drv_pick_modifier modifiers modifier_order = DRM_FORMAT_MOD_LINEAR) /\
  ((forall o, o ∈ modifier_order -> drv_has_modifier modifiers o = false) ->
   drv_pick_modifier modifiers modifier_order = DRM_FORMAT_MOD_LINEAR) /\
  drv_pick_modifier modifiers vc4_modifier_order = DRM_FORMAT_MOD_LINEAR.
Proof.
  split; [apply drv_has_modifier_elem |]. split; [| split].
  - induction modifier_order as [|o rest IH]; simpl; [by right |].
    destruct (scan_modifiers modifiers o) as [x |] eqn:E.
    + apply scan_modifiers_Some in E. destruct E as [-> Hin]. left.
      rewrite Z.eqb_refl. split; [by apply drv_has_modifier_elem | done].
    + destruct IH as [[H1 H2] | H]; [left | by right].
      split; [done |]. by destruct (o =? _).
  - induction modifier_order as [|o rest IH]; simpl; [done |]. intros Hno.
    destruct (scan_modifiers modifiers o) as [x |] eqn:E.
    + apply scan_modifiers_Some in E. destruct E as [-> Hin].
      apply drv_has_modifier_elem in Hin.
      rewrite Hno in Hin by (apply elem_of_cons; by left). done.
    + apply IH. intros o' Ho'. apply Hno. apply elem_of_cons. by right.
  - unfold vc4_modifier_order. simpl.
    destruct (scan_modifiers modifiers DRM_FORMAT_MOD_LINEAR) as [x |] eqn:E; [| done].
    apply scan_modifiers_Some in E. by destruct E as [-> _].
Qed.

(** ** Dumb buffers: creation and destruction *)

Lemma set_all_handles_lookup (h : Z) (n : nat) :
  forall (plane : nat) (b : bo) (q : nat),
    handles (set_all_handles n plane h b) !! q =
      if decide (plane <= q < plane + n)%nat
      then (fun _ => h) <$> handles b !! q
      else handles b !! q.
Proof.
  induction n as [|n IH]; intros plane b q; simpl.
  - case_decide; [lia | done].
  - rewrite IH. simpl.
    destruct (decide (q = plane)) as [-> | Hne].
    + rewrite decide_False by lia. rewrite decide_True by lia.
      destruct (decide (plane < length (handles b))%nat) as [Hlt | Hge].
      * rewrite list_lookup_insert_eq by done.
        by rewrite (list_lookup_lookup_total_lt (handles b) plane Hlt).
      * rewrite !lookup_ge_None_2; [done | lia | rewrite length_insert; lia].
    + rewrite list_lookup_insert_ne by done.
      repeat case_decide; try done; lia.
Qed.

Section DumbFacts.
Variable drmIoctl : list ioctl_request -> ioctl_request -> ioctl_reply.

(** [drv_dumb_bo_create_ex] once the [switch] is through and the layout is
    known: one request, then the two ways on. *)
Lemma dumb_create_unfold (b : bo) (width height format flags quirks : Z) (k : kstate)
    (l : planar_layout) (h aw ah : Z) :
  layout_from_format format = Some l ->
  dumb_alignment b width height format = (h, aw, ah) ->
  let w := if Z.land quirks BO_QUIRK_DUMB32BPP =? 0 then aw
           else DIV_ROUND_UP (wrap32 (aw * bytes_per_pixel l !!! 0%nat)) 4 in
  let bpp := if Z.land quirks BO_QUIRK_DUMB32BPP =? 0
             then wrap32 (bytes_per_pixel l !!! 0%nat * 8) else 32 in
  let req := DRM_IOCTL_MODE_CREATE_DUMB w ah bpp 0 in
  let r := drmIoctl (klog k) req in
  drv_dumb_bo_create_ex drmIoctl b width height format flags quirks k =
    if negb (ret r =? 0)
    then Ok (- errno r, b, {| klog := klog k ++ [req]; kerrno := errno r |})
    else mbind (fun filled : Z * bo =>
           let b1 := set_all_handles (meta_num_planes (meta filled.2)) 0 (out_handle r)
                       filled.2 in
           Ok (0, with_meta (set_total_size (out_size r) (meta b1)) b1,
               {| klog := klog k ++ [req]; kerrno := kerrno k |}))
         (drv_bo_from_format b (out_pitch r) h format).
Proof.
  intros Hl Hal. cbv zeta.
  unfold drv_dumb_bo_create_ex. rewrite Hal. unfold deref_layout. rewrite Hl.
  run_outcome. unfold do_ioctl. cbv zeta.
  destruct (Z.land quirks BO_QUIRK_DUMB32BPP =? 0); cbn [negb]; cbv iota;
    match goal with |- context [ret ?r =? 0] => destruct (ret r =? 0) end; reflexivity.
Qed.

(** X16.  [drv_dumb_bo_create_ex] on a supported format makes exactly one
    request, a [DRM_IOCTL_MODE_CREATE_DUMB] with flags 0 and with 32 bits
    per pixel under the 32-bpp quirk, else 8 times the bytes per pixel of
    plane 0.  When the kernel refuses, the function returns minus the
    [errno] of that call and leaves the buffer object as it was.  When the
    kernel grants the buffer (and, for the Android YV12 format, the pitch
    is a multiple of 32), the function returns 0; every plane below the
    buffer object's plane count carries the one handle of the reply, the
    other handle slots are untouched, the strides follow from the kernel's
    pitch, and the total size is the size the kernel reports, not the sum
    the resolver computed. *)
Theorem dumb_create_outcomes (b : bo) (width height format flags quirks : Z)
    (k : kstate) (l : planar_layout) :
  bo_wf b ->
  layout_from_format format = Some l ->
  exists w h,
    let bpp := if Z.land quirks BO_QUIRK_DUMB32BPP =? 0
               then wrap32 (bytes_per_pixel l !!! 0%nat * 8) else 32 in
    let req := DRM_IOCTL_MODE_CREATE_DUMB w h bpp 0 in
    let r := drmIoctl (klog k) req in
    let run := drv_dumb_bo_create_ex drmIoctl b width height format flags quirks k in
    (forall v b' k', run = Ok (v, b', k') -> klog k' = klog k ++ [req]) /\
    (ret r <> 0 ->
       run = Ok (- errno r, b, {| klog := klog k ++ [req]; kerrno := errno r |})) /\
    (ret r = 0 -> is_uint32 (out_pitch r) ->
     (format = DRM_FORMAT_YVU420_ANDROID -> aligned_to 32 (out_pitch r)) ->
     exists b',
       run = Ok (0, b', {| klog := klog k ++ [req]; kerrno := kerrno k |}) /\
       meta_total_size (meta b') = out_size r /\
       (forall p, (p < meta_num_planes (meta b))%nat ->
          handles b' !! p = (fun _ => out_handle r) <$> handles b !! p) /\
       (forall p, (meta_num_planes (meta b) <= p)%nat ->
          handles b' !! p = handles b !! p) /\
       (forall p, (p < num_planes l)%nat ->
          meta_strides (meta b') !!! p = plane_stride format (out_pitch r) p)).
Proof.
  intros Hwf Hl.
  destruct (dumb_alignment b width height format) as [[h aw] ah] eqn:Hal.
  assert (Hh : format = DRM_FORMAT_YVU420_ANDROID -> h = meta_height (meta b)).
  { intros ->. unfold dumb_alignment in Hal. simpl in Hal. congruence. }
  exists (if Z.land quirks BO_QUIRK_DUMB32BPP =? 0 then aw
          else DIV_ROUND_UP (wrap32 (aw * bytes_per_pixel l !!! 0%nat)) 4), ah.
  cbv zeta.
  rewrite (dumb_create_unfold b width height format flags quirks k l h aw ah Hl Hal).
  set (req := DRM_IOCTL_MODE_CREATE_DUMB _ _ _ _).
  set (r := drmIoctl (klog k) req).
  split; [| split].
  - intros v b' k'. destruct (negb (ret r =? 0)).
    + by intros [= <- <- <-].
    + destruct (drv_bo_from_format b (out_pitch r) h format) as [[v0 b0] | f];
        run_outcome; [| done].
      by intros [= <- <- <-].
  - intros Hret. apply Z.eqb_neq in Hret. by rewrite Hret.
  - intros Hret Hpitch Hmod. rewrite Hret. simpl negb. cbv iota.
    destruct (drv_bo_from_format_and_padding_spec l format (out_pitch r) h [0; 0; 0; 0]
                Hl b Hwf) as (m' & Hfill & _ & _ & Hn & _ & Hplanes).
    { intros Hf. split; [by apply Hh |]. by apply Z.eqb_eq, ALIGN_32_fixpoint, Hmod. }
    unfold drv_bo_from_format. rewrite Hfill. run_outcome. cbv zeta. cbn [snd].
    eexists. split; [reflexivity |].
    cbn [meta with_meta set_total_size meta_total_size meta_strides handles].
    rewrite set_all_handles_meta. cbn [meta with_meta]. rewrite Hn.
    split; [done |]. split; [| split].
    + intros p Hp. rewrite set_all_handles_lookup. rewrite decide_True by lia. done.
    + intros p Hp. rewrite set_all_handles_lookup. rewrite decide_False by lia. done.
    + intros p Hp. by destruct (Hplanes p Hp) as (-> & _).
Qed.

(** X17.  [drv_dumb_bo_destroy] makes one request, a
    [DRM_IOCTL_MODE_DESTROY_DUMB] for the handle of plane 0, and returns 0
    or minus the [errno] of that call.  After a creation the kernel
    granted, for a buffer object of at least one plane, that handle is the
    one the kernel handed out: what [drv_dumb_bo_create_ex] acquired is
    what [drv_dumb_bo_destroy] gives back. *)
Theorem dumb_destroy_releases_created (b : bo) (width height format flags quirks : Z)
    (k : kstate) (v : Z) (b' : bo) (k' k2 : kstate) :
  bo_wf b ->
  (1 <= meta_num_planes (meta b))%nat ->
  drv_dumb_bo_create_ex drmIoctl b width height format flags quirks k = Ok (v, b', k') ->
  exists req,
    klog k' = klog k ++ [req] /\
    (ret (drmIoctl (klog k) req) = 0 ->
     let h := out_handle (drmIoctl (klog k) req) in
     let r := drmIoctl (klog k2) (DRM_IOCTL_MODE_DESTROY_DUMB h) in
     v = 0 /\
     drv_dumb_bo_destroy drmIoctl b' k2 =
       (if ret r =? 0 then 0 else - errno r,
        {| klog := klog k2 ++ [DRM_IOCTL_MODE_DESTROY_DUMB h];
           kerrno := if ret r =? 0 then kerrno k2 else errno r |})).
Proof.
  intros Hwf Hn Hrun.
  destruct (dumb_alignment b width height format) as [[h aw] ah] eqn:Hal.
  destruct (layout_from_format format) as [l |] eqn:Hl.
  2: { unfold drv_dumb_bo_create_ex, deref_layout in Hrun. by rewrite Hal, Hl in Hrun. }
  rewrite (dumb_create_unfold b width height format flags quirks k l h aw ah Hl Hal) in Hrun.
  cbv zeta in Hrun.
  set (req := DRM_IOCTL_MODE_CREATE_DUMB _ _ _ _) in Hrun.
  exists req. split.
  - destruct (negb (ret (drmIoctl (klog k) req) =? 0)).
    + by injection Hrun as <- <- <-.
    + destruct (drv_bo_from_format b _ h format) as [[v0 b0] | f];
        unfold mbind, outcome_bind in Hrun; [| done].
      by injection Hrun as <- <- <-.
  - intros Hret. cbv zeta. rewrite Hret in Hrun. simpl negb in Hrun. cbv iota in Hrun.
    destruct (drv_bo_from_format b _ h format) as [[v0 b0] | f] eqn:Hfill;
      unfold mbind, outcome_bind in Hrun; [| done].
    cbn [snd] in Hrun. injection Hrun as <- <- <-. split; [done |].
    apply drv_bo_from_format_keeps_height in Hfill as (_ & Hnp & Hhs).
    assert (Hh0 : handles (with_meta
                     (set_total_size (out_size (drmIoctl (klog k) req))
                        (meta (set_all_handles (meta_num_planes (meta b0)) 0
                                 (out_handle (drmIoctl (klog k) req)) b0)))
                     (set_all_handles (meta_num_planes (meta b0)) 0
                        (out_handle (drmIoctl (klog k) req)) b0)) !!! 0%nat
                  = out_handle (drmIoctl (klog k) req)).
    { apply list_lookup_total_correct. cbn [handles with_meta].
      rewrite set_all_handles_lookup, decide_True by lia.
      destruct Hwf as [_ Hlen]. rewrite Hhs.
      rewrite (list_lookup_lookup_total_lt (handles b) 0)
        by (rewrite Hlen; unfold DRV_MAX_PLANES; lia).
      done. }
    unfold drv_dumb_bo_destroy, do_ioctl. cbv zeta. rewrite Hh0.
    by destruct (ret _ =? 0).
Qed.

End DumbFacts.

Lemma dumb_create_outcomes_witness :
  exists w h, forall v b' k',
    drv_dumb_bo_create_ex granting_kernel (blank_bo 64 64 DRM_FORMAT_NV12) 64 64
      DRM_FORMAT_NV12 0 BO_QUIRK_NONE fresh_kstate = Ok (v, b', k') ->
    klog k' = [DRM_IOCTL_MODE_CREATE_DUMB w h 8 0].
Proof.
  assert (Hwf : bo_wf (blank_bo 64 64 DRM_FORMAT_NV12)) by (repeat split; reflexivity).
  assert (Hl : layout_from_format DRM_FORMAT_NV12 = Some biplanar_yuv_420_layout)
    by reflexivity.
  destruct (dumb_create_outcomes granting_kernel (blank_bo 64 64 DRM_FORMAT_NV12) 64 64
              DRM_FORMAT_NV12 0 BO_QUIRK_NONE fresh_kstate biplanar_yuv_420_layout Hwf Hl)
    as (w & h & Hlog & _).
  exists w, h. exact Hlog.
Defined.

Lemma dumb_destroy_releases_created_witness :
  exists b',
    drv_dumb_bo_create granting_kernel (blank_bo 64 64 DRM_FORMAT_NV12) 64 64
      DRM_FORMAT_NV12 0 fresh_kstate
      = Ok (0, b', {| klog := [DRM_IOCTL_MODE_CREATE_DUMB 64 96 8 0]; kerrno := 0 |}) /\
    drv_dumb_bo_destroy granting_kernel b' fresh_kstate =
      (0, {| klog := [DRM_IOCTL_MODE_DESTROY_DUMB 7]; kerrno := 0 |}).
Proof.
  eexists. split; [reflexivity |].
  assert (Hwf : bo_wf (blank_bo 64 64 DRM_FORMAT_NV12)) by (repeat split; reflexivity).
  destruct (dumb_destroy_releases_created granting_kernel (blank_bo 64 64 DRM_FORMAT_NV12)
              64 64 DRM_FORMAT_NV12 0 BO_QUIRK_NONE fresh_kstate _ _ _ fresh_kstate Hwf
              ltac:(apply Nat.leb_le; reflexivity) eq_refl) as (req & Hlog & Hdestroy).
  destruct (Hdestroy eq_refl) as [_ Hd]. exact Hd.
Defined.

(** ** Dumb buffers: the rows requested and the planes laid out *)

Lemma DIV_ROUND_UP_half n : 0 <= n -> n + 1 < 2 ^ 32 -> DIV_ROUND_UP n 2 = (n + 1) / 2.
Proof.
  intros Hn Hfit. unfold DIV_ROUND_UP. rewrite wrap32_small by (unfold is_uint32; lia).
  f_equal. lia.
Qed.

Lemma half_bounds n : 0 <= n -> 0 <= (n + 1) / 2 /\ n <= 2 * ((n + 1) / 2) <= n + 1.
Proof.
  intros Hn. pose proof (Z.div_mod (n + 1) 2 ltac:(lia)).
  pose proof (Z.mod_pos_bound (n + 1) 2 ltac:(lia)). lia.
Qed.

Lemma even_half n : n mod 2 = 0 -> 2 * ((n + 1) / 2) = n.
Proof.
  intros He. pose proof (Z.div_mod n 2 ltac:(lia)) as Hn. rewrite He, Z.add_0_r in Hn.
  rewrite Hn at 1. replace (2 * (n / 2) + 1) with (1 + (n / 2) * 2) by lia.
  rewrite Z.div_add by lia. change (1 / 2) with 0. lia.
Qed.

(** The total size the resolver computes for a 4:2:0 format with two or
    three planes, an even stride and no overflow. *)
Lemma resolver_total_420 (b : bo) (format stride h : Z) (l : planar_layout) :
  bo_wf b ->
  layout_from_format format = Some l ->
  l = biplanar_yuv_420_layout \/ l = biplanar_yuv_p010_layout \/
    l = triplanar_yuv_420_layout ->
  resolver_asserts_hold b stride h format ->
  0 < stride < 2 ^ 32 -> stride mod 2 = 0 -> 0 <= h ->
  stride * (3 * ((h + 1) / 2)) < 2 ^ 32 ->
  exists b',
    drv_bo_from_format b stride h format = Ok (0, b') /\
    meta_total_size (meta b') = stride * h + stride * ((h + 1) / 2).
Proof.
  intros Hwf Hl Hcase Hassert Hs He Hh Hfit.
  destruct (half_bounds h Hh) as [Hc0 Hc].
  destruct (half_bounds stride ltac:(lia)) as [Hd0 Hd].
  pose proof (even_half stride He) as Hhalf.
  assert (Hc3 : 3 * ((h + 1) / 2) <= stride * (3 * ((h + 1) / 2))) by nia.
  assert (Hh1 : h + 1 < 2 ^ 32) by lia.
  assert (Hs1 : stride + 1 < 2 ^ 32) by lia.
  destruct (drv_bo_from_format_and_padding_spec l format stride h [0; 0; 0; 0]
              Hl b Hwf Hassert) as (m' & Hrun & _ & _ & _ & Htot & _).
  exists (with_meta m' b). split; [done |]. cbn [meta with_meta]. rewrite Htot.
  assert (Hvs : DIV_ROUND_UP h 1 = h) by (apply DIV_ROUND_UP_by_1; unfold is_uint32; lia).
  assert (Hvh : DIV_ROUND_UP h 2 = (h + 1) / 2) by (apply DIV_ROUND_UP_half; lia).
  assert (Hsh : DIV_ROUND_UP stride 2 = (stride + 1) / 2) by (apply DIV_ROUND_UP_half; lia).
  assert (Hstr : forall p, plane_stride format stride (S p) = stride \/
                           plane_stride format stride (S p) = (stride + 1) / 2).
  { intros p. unfold plane_stride, subsample_stride. cbn [Nat.eqb negb].
    destruct (format_in _ _); [right | left]; done. }
  assert (Hstr3 : l = triplanar_yuv_420_layout ->
                  forall p, plane_stride format stride (S p) = (stride + 1) / 2).
  { intros -> p. unfold plane_stride, subsample_stride. cbn [Nat.eqb negb].
    assert (Hf : is_legacy_yvu420 format).
    { unfold layout_from_format in Hl.
      repeat match type of Hl with
             | context [if format_in format ?ls then _ else _] =>
                 destruct (format_in format ls) eqn:?; try discriminate
             end.
      by apply format_in_legacy. }
    by rewrite (proj2 (format_in_legacy format) Hf). }
  assert (Hstr2 : l <> triplanar_yuv_420_layout ->
                  forall p, plane_stride format stride (S p) = stride).
  { intros Hne p. unfold plane_stride, subsample_stride. cbn [Nat.eqb negb].
    destruct (format_in format [DRM_FORMAT_YVU420; DRM_FORMAT_YVU420_ANDROID]) eqn:E;
      [| done].
    exfalso. apply Hne. apply format_in_legacy in E.
    assert (layout_from_format format = Some triplanar_yuv_420_layout)
      by (destruct E as [-> | ->]; reflexivity).
    congruence. }
  assert (Hp0 : plane_stride format stride 0 = stride) by reflexivity.
  destruct Hcase as [-> | [-> | ->]].
  - cbn [num_planes biplanar_yuv_420_layout seq map sumZ foldr]. unfold plane_size.
    rewrite Hp0, (Hstr2 ltac:(discriminate) 0%nat).
    change (vertical_subsampling biplanar_yuv_420_layout !!! 0%nat) with 1.
    change (vertical_subsampling biplanar_yuv_420_layout !!! 1%nat) with 2.
    change ([0; 0; 0; 0] !!! 0%nat) with 0. change ([0; 0; 0; 0] !!! 1%nat) with 0.
    rewrite Hvs, Hvh, !Z.add_0_r.
    rewrite ?(wrap32_small (stride * _)) by (unfold is_uint32; nia).
    rewrite ?(wrap32_small (stride * _)) by (unfold is_uint32; nia).
    rewrite wrap32_small by (unfold is_uint32; nia). done.
  - cbn [num_planes biplanar_yuv_p010_layout seq map sumZ foldr]. unfold plane_size.
    rewrite Hp0, (Hstr2 ltac:(discriminate) 0%nat).
    change (vertical_subsampling biplanar_yuv_p010_layout !!! 0%nat) with 1.
    change (vertical_subsampling biplanar_yuv_p010_layout !!! 1%nat) with 2.
    change ([0; 0; 0; 0] !!! 0%nat) with 0. change ([0; 0; 0; 0] !!! 1%nat) with 0.
    rewrite Hvs, Hvh, !Z.add_0_r.
    rewrite ?(wrap32_small (stride * _)) by (unfold is_uint32; nia).
    rewrite ?(wrap32_small (stride * _)) by (unfold is_uint32; nia).
    rewrite wrap32_small by (unfold is_uint32; nia). done.
  - cbn [num_planes triplanar_yuv_420_layout seq map sumZ foldr]. unfold plane_size.
    rewrite Hp0, !(Hstr3 eq_refl).
    change (vertical_subsampling triplanar_yuv_420_layout !!! 0%nat) with 1.
    change (vertical_subsampling triplanar_yuv_420_layout !!! 1%nat) with 2.
    change (vertical_subsampling triplanar_yuv_420_layout !!! 2%nat) with 2.
    change ([0; 0; 0; 0] !!! 0%nat) with 0. change ([0; 0; 0; 0] !!! 1%nat) with 0.
    change ([0; 0; 0; 0] !!! 2%nat) with 0.
    rewrite Hvs, Hvh, !Z.add_0_r.
    rewrite ?(wrap32_small (stride * _)) by (unfold is_uint32; nia).
    rewrite ?(wrap32_small ((stride + 1) / 2 * _)) by (unfold is_uint32; nia).
    rewrite ?(wrap32_small (stride * _)) by (unfold is_uint32; nia).
    rewrite ?(wrap32_small ((stride + 1) / 2 * _)) by (unfold is_uint32; nia).
    rewrite wrap32_small by (unfold is_uint32; nia). nia.
Qed.

Lemma dumb_alignment_420 (b : bo) (width height format : Z) :
  format = DRM_FORMAT_YVU420 \/ format = DRM_FORMAT_NV12 \/ format = DRM_FORMAT_NV21 \/
    format = DRM_FORMAT_YVU420_ANDROID ->
  exists h aw,
    dumb_alignment b width height format = (h, aw, wrap32 (3 * DIV_ROUND_UP h 2)) /\
    (format = DRM_FORMAT_YVU420_ANDROID -> h = meta_height (meta b)) /\
    (format <> DRM_FORMAT_YVU420_ANDROID -> h = height /\ aw = width).
Proof.
  intros [-> | [-> | [-> | ->]]]; eexists _, _; (split; [reflexivity |]); split; done.
Qed.

(** X18.  For the four 4:2:0 formats of its [switch] (YVU420, NV12, NV21
    and Android YV12), [drv_dumb_bo_create_ex] asks the kernel for
    3 * ceil(height / 2) rows, and that is enough for the planes the
    resolver then lays out: with an even pitch and no overflow, the sizes
    of the planes sum to pitch * (height + ceil(height / 2)), at most the
    pitch times the rows requested. *)
Theorem dumb_rows_cover_planes (b : bo) (width height format pitch h aw ah : Z) :
  bo_wf b ->
  format = DRM_FORMAT_YVU420 \/ format = DRM_FORMAT_NV12 \/ format = DRM_FORMAT_NV21 \/
    format = DRM_FORMAT_YVU420_ANDROID ->
  dumb_alignment b width height format = (h, aw, ah) ->
  0 < pitch < 2 ^ 32 -> pitch mod 2 = 0 ->
  (format = DRM_FORMAT_YVU420_ANDROID -> aligned_to 32 pitch) ->
  0 <= h -> pitch * (3 * ((h + 1) / 2)) < 2 ^ 32 ->
  ah = 3 * ((h + 1) / 2) /\
  exists b',
    drv_bo_from_format b pitch h format = Ok (0, b') /\
    meta_total_size (meta b') = pitch * h + pitch * ((h + 1) / 2) /\
    meta_total_size (meta b') <= pitch * ah.
Proof.
  intros Hwf Hf Hal Hp He Ha Hh Hfit.
  destruct (dumb_alignment_420 b width height format Hf) as (h' & aw' & Hal' & Hand & _).
  rewrite Hal in Hal'. injection Hal' as <- <- ->.
  destruct (half_bounds h Hh) as [Hc0 Hc].
  assert (Hc3 : 3 * ((h + 1) / 2) <= pitch * (3 * ((h + 1) / 2))) by nia.
  rewrite DIV_ROUND_UP_half by lia.
  rewrite wrap32_small by (unfold is_uint32; lia). split; [done |].
  assert (Hl : exists l, layout_from_format format = Some l /\
                 (l = biplanar_yuv_420_layout \/ l = biplanar_yuv_p010_layout \/
                  l = triplanar_yuv_420_layout)).
  { destruct Hf as [-> | [-> | [-> | ->]]]; eexists; (split; [reflexivity |]); tauto. }
  destruct Hl as (l & Hl & Hcase).
  destruct (resolver_total_420 b format pitch h l Hwf Hl Hcase) as (b' & Hrun & Htot);
    try done.
  { intros Hff. split; [by apply Hand |].
    apply Z.eqb_eq, ALIGN_32_fixpoint; [unfold is_uint32; lia | by apply Ha]. }
  exists b'. split; [done |]. split; [done |]. rewrite Htot. nia.
Qed.

Lemma dumb_rows_cover_planes_witness :
  114 = 3 * ((75 + 1) / 2) /\
  exists b',
    drv_bo_from_format (blank_bo 100 75 DRM_FORMAT_YVU420_ANDROID) 128 75
      DRM_FORMAT_YVU420_ANDROID = Ok (0, b') /\
    meta_total_size (meta b') = 128 * 75 + 128 * ((75 + 1) / 2) /\
    meta_total_size (meta b') <= 128 * 114.
Proof.
  apply (dumb_rows_cover_planes (blank_bo 100 75 DRM_FORMAT_YVU420_ANDROID) 100 75
           DRM_FORMAT_YVU420_ANDROID 128 75 128 114).
  - repeat split; reflexivity.
  - right. right. right. reflexivity.
  - reflexivity.
  - lia.
  - reflexivity.
  - intros _. reflexivity.
  - lia.
  - reflexivity.
Defined.

(** X19.  P010 has two planes with 2:1 vertical chroma subsampling but is
    not among the formats of the [switch] of [drv_dumb_bo_create_ex]: the
    rows requested are the height itself, while the planes the resolver
    lays out take pitch * (height + ceil(height / 2)) bytes, more than the
    pitch times the rows requested. *)
Theorem dumb_rows_for_p010 (b : bo) (width height pitch h aw ah : Z) :
  bo_wf b ->
  dumb_alignment b width height DRM_FORMAT_P010 = (h, aw, ah) ->
  0 < pitch < 2 ^ 32 -> pitch mod 2 = 0 ->
  0 < height -> pitch * (3 * ((height + 1) / 2)) < 2 ^ 32 ->
  h = height /\ aw = width /\ ah = height /\
  exists b',
    drv_bo_from_format b pitch h DRM_FORMAT_P010 = Ok (0, b') /\
    meta_total_size (meta b') = pitch * height + pitch * ((height + 1) / 2) /\
    pitch * ah < meta_total_size (meta b').
Proof.
  intros Hwf Hal Hp He Hh Hfit.
  change (dumb_alignment b width height DRM_FORMAT_P010) with (height, width, height) in Hal.
  injection Hal as <- <- <-. do 3 (split; [done |]).
  destruct (half_bounds height ltac:(lia)) as [Hc0 Hc].
  destruct (resolver_total_420 b DRM_FORMAT_P010 pitch height biplanar_yuv_p010_layout
              Hwf eq_refl) as (b' & Hrun & Htot); try done; try lia.
  { by right; left. }
  exists b'. split; [done |]. split; [done |]. rewrite Htot. nia.
Qed.

Lemma dumb_rows_for_p010_witness :
  64 = 64 /\ 64 = 64 /\ 64 = 64 /\
  exists b',
    drv_bo_from_format (blank_bo 64 64 DRM_FORMAT_P010) 128 64 DRM_FORMAT_P010
      = Ok (0, b') /\
    meta_total_size (meta b') = 128 * 64 + 128 * ((64 + 1) / 2) /\
    128 * 64 < meta_total_size (meta b').
Proof.
  apply (dumb_rows_for_p010 (blank_bo 64 64 DRM_FORMAT_P010) 64 64 128 64 64 64).
  - repeat split; reflexivity.
  - reflexivity.
  - lia.
  - reflexivity.
  - lia.
  - reflexivity.
Defined.

(** X20.  The [switch] of [drv_dumb_bo_create_ex] never narrows the buffer:
    the aligned width is the width rounded up to a multiple of 16 for R16
    and of 32 for Android YV12, and the width itself for every other
    format (for a width of at most 2^32 - 32); the height handed to the
    resolver is the buffer object's own height for Android YV12 and the
    [height] argument otherwise. *)
Theorem dumb_alignment_never_narrows (b : bo) (width height format h aw ah : Z) :
  0 <= width -> width + 32 <= 2 ^ 32 ->
  dumb_alignment b width height format = (h, aw, ah) ->
  width <= aw < width + 32 /\
  (format = DRM_FORMAT_R16 -> aligned_to 16 aw /\ aw < width + 16) /\
  (format = DRM_FORMAT_YVU420_ANDROID -> aligned_to 32 aw) /\
  (format <> DRM_FORMAT_R16 -> format <> DRM_FORMAT_YVU420_ANDROID -> aw = width) /\
  (format = DRM_FORMAT_YVU420_ANDROID -> h = meta_height (meta b)) /\
  (format <> DRM_FORMAT_YVU420_ANDROID -> h = height).
Proof.
  intros Hw0 Hw Hal. unfold dumb_alignment in Hal.
  destruct (format =? DRM_FORMAT_R16) eqn:E16.
  - apply Z.eqb_eq in E16. subst format. injection Hal as <- <- <-.
    change 16 with (2 ^ 4).
    destruct (ALIGN_exact width 4 ltac:(lia) Hw0) as [_ Hr];
      [change (2 ^ 4) with 16; lia |].
    pose proof (ALIGN_multiple width 4 ltac:(lia)) as Hm.
    change (2 ^ 4) with 16 in *.
    split; [lia |]. split; [by split; [| lia] |]. split; [done |].
    split; [done |]. split; done.
  - apply Z.eqb_neq in E16.
    destruct (format =? DRM_FORMAT_YVU420_ANDROID) eqn:Ea.
    + apply Z.eqb_eq in Ea. subst format. cbv zeta in Hal. injection Hal as <- <- <-.
      change 32 with (2 ^ 5) at 1 2 4.
      destruct (ALIGN_exact width 5 ltac:(lia) Hw0) as [_ Hr];
        [change (2 ^ 5) with 32; lia |].
      pose proof (ALIGN_multiple width 5 ltac:(lia)) as Hm.
      change (2 ^ 5) with 32 in *.
      split; [lia |]. split; [done |]. split; [done |].
      split; [done |]. split; done.
    + apply Z.eqb_neq in Ea.
      destruct (format_in format _); injection Hal as <- <- <-;
        (split; [lia |]); (split; [done |]); (split; [done |]);
        (split; [done |]); split; done.
Qed.

Lemma dumb_alignment_never_narrows_witness :
  100 <= 128 < 100 + 32 /\
  (DRM_FORMAT_YVU420_ANDROID = DRM_FORMAT_R16 -> aligned_to 16 128 /\ 128 < 100 + 16) /\
  (DRM_FORMAT_YVU420_ANDROID = DRM_FORMAT_YVU420_ANDROID -> aligned_to 32 128) /\
  (DRM_FORMAT_YVU420_ANDROID <> DRM_FORMAT_R16 ->
   DRM_FORMAT_YVU420_ANDROID <> DRM_FORMAT_YVU420_ANDROID -> 128 = 100) /\
  (DRM_FORMAT_YVU420_ANDROID = DRM_FORMAT_YVU420_ANDROID ->
   75 = meta_height (meta (blank_bo 100 75 DRM_FORMAT_YVU420_ANDROID))) /\
  (DRM_FORMAT_YVU420_ANDROID <> DRM_FORMAT_YVU420_ANDROID -> 75 = 80).
Proof.
  apply (dumb_alignment_never_narrows (blank_bo 100 75 DRM_FORMAT_YVU420_ANDROID)
           100 80 DRM_FORMAT_YVU420_ANDROID 75 128 114).
  - lia.
  - lia.
  - reflexivity.
Defined.

(** ** GEM handles: closing and importing *)

Section GemFacts.
Variable drmIoctl : list ioctl_request -> ioctl_request -> ioctl_reply.

Local Abbreviation close_reply := (close_reply drmIoctl).

Lemma gem_destroy_loop_result (b : bo) (n : nat) :
  forall (plane : nat) (k : kstate) (error : Z),
    let closes := handles_to_close (handles b) (seq plane n) in
    let res := gem_destroy_loop drmIoctl n plane b k error in
    ((forall i h, closes !! i = Some h -> ret (close_reply k closes i h) = 0) ->
     res.1 = error /\ kerrno res.2 = kerrno k) /\
    (forall i h, closes !! i = Some h -> ret (close_reply k closes i h) <> 0 ->
       (forall j h', (i < j)%nat -> closes !! j = Some h' ->
          ret (close_reply k closes j h') = 0) ->
       res.1 = - errno (close_reply k closes i h) /\
       kerrno res.2 = errno (close_reply k closes i h)).
Proof.
  induction n as [|n IH]; intros plane k error; cbv zeta.
  - unfold handles_to_close. simpl. split; [done |]. intros i h Hi. done.
  - cbn [gem_destroy_loop seq]. rewrite first_alias_fresh.
    unfold handles_to_close. rewrite filter_cons.
    destruct (no_earlier_alias (handles b) plane) eqn:E; simpl negb; cbv iota.
    + rewrite decide_True by done. rewrite fmap_cons.
      unfold do_ioctl. cbv zeta.
      set (h0 := handles b !!! plane).
      set (r0 := drmIoctl (klog k) (DRM_IOCTL_GEM_CLOSE h0)).
      set (k1 := {| klog := klog k ++ [DRM_IOCTL_GEM_CLOSE h0];
                    kerrno := if ret r0 =? 0 then kerrno k else errno r0 |}).
      fold (handles_to_close (handles b) (seq (S plane) n)).
      set (rest := handles_to_close (handles b) (seq (S plane) n)).
      assert (Hshift : forall j h, close_reply k (h0 :: rest) (S j) h = close_reply k1 rest j h).
      { intros j h. unfold close_reply. subst k1. cbn [klog take fmap list_fmap].
        by rewrite <- app_assoc. }
      assert (Hfirst : close_reply k (h0 :: rest) 0 h0 = r0).
      { unfold close_reply. simpl. by rewrite app_nil_r. }
      destruct (IH (S plane) k1 (if ret r0 =? 0 then error else - kerrno k1)) as [IHok IHfail].
      fold rest in IHok, IHfail. cbv zeta in IHok, IHfail.
      split.
      * intros Hall.
        pose proof (Hall 0%nat h0 eq_refl) as H0. rewrite Hfirst in H0.
        destruct IHok as [-> ->].
        { intros i h Hi. rewrite <- Hshift. by apply (Hall (S i)). }
        subst k1. simpl. by rewrite H0.
      * intros i h Hi Hbad Hlater. destruct i as [|i].
        -- injection Hi as <-. rewrite Hfirst in *.
           destruct IHok as [-> ->].
           { intros j h Hj. rewrite <- Hshift. apply (Hlater (S j)); [lia | done]. }
           subst k1. simpl. apply Z.eqb_neq in Hbad. by rewrite Hbad.
        -- rewrite Hshift in *. apply IHfail; [done | done |].
           intros j h' Hj Hj'. rewrite <- Hshift. apply (Hlater (S j)); [lia | done].
    + rewrite decide_False by done.
      fold (handles_to_close (handles b) (seq (S plane) n)). apply IH.
Qed.

(** X21.  [drv_gem_bo_destroy] never stops at a failed close: every first
    occurrence of a handle among the planes is closed.  It returns 0, with
    [errno] as it was, when every close succeeds, and otherwise minus the
    [errno] of the last close that failed. *)
Theorem gem_destroy_reports_last_failure (b : bo) (k : kstate) :
  let closes := handles_to_close (handles b) (seq 0 (meta_num_planes (meta b))) in
  let res := drv_gem_bo_destroy drmIoctl b k in
  klog res.2 = klog k ++ (DRM_IOCTL_GEM_CLOSE <$> closes) /\
  ((forall i h, closes !! i = Some h -> ret (close_reply k closes i h) = 0) ->
   res.1 = 0 /\ kerrno res.2 = kerrno k) /\
  (forall i h, closes !! i = Some h -> ret (close_reply k closes i h) <> 0 ->
     (forall j h', (i < j)%nat -> closes !! j = Some h' ->
        ret (close_reply k closes j h') = 0) ->
     res.1 = - errno (close_reply k closes i h) /\
     kerrno res.2 = errno (close_reply k closes i h)).
Proof.
  cbv zeta. unfold drv_gem_bo_destroy. split; [apply gem_destroy_loop_log |].
  apply (gem_destroy_loop_result b (meta_num_planes (meta b)) 0 k 0).
Qed.
End GemFacts.

Section ImportFacts.
Variable drmIoctl : list ioctl_request -> ioctl_request -> ioctl_reply.
Variable data : drv_import_fd_data.
Variable k0 : kstate.

Lemma prime_import_loop_succeeds (n : nat) :
  forall (plane : nat) (b : bo) (k : kstate),
    (plane + n <= length (handles b))%nat ->
    klog k = klog k0 ++ import_requests data plane ->
    (forall i, (plane <= i < plane + n)%nat ->
       ret (import_reply drmIoctl k0 data i) = 0) ->
    exists b',
      prime_import_loop drmIoctl n plane b data k =
        (0, b', {| klog := klog k0 ++ import_requests data (plane + n);
                   kerrno := kerrno k |}) /\
      meta b' = set_tiling (data_tiling data) (meta b) /\
      length (handles b') = length (handles b) /\
      (forall i, (plane <= i < plane + n)%nat ->
         handles b' !!! i = out_handle (import_reply drmIoctl k0 data i)) /\
      (forall i, (i < plane \/ plane + n <= i)%nat -> handles b' !! i = handles b !! i).
Proof.
  induction n as [|n IH]; intros plane b k Hlen Hlog Hok.
  - eexists. cbn [prime_import_loop]. split.
    { rewrite Nat.add_0_r, <- Hlog. by destruct k. }
    split; [done |]. split; [done |]. split; [intros; lia | done].
  - cbn [prime_import_loop]. unfold do_ioctl at 1. cbv zeta.
    assert (Hreply : drmIoctl (klog k) (DRM_IOCTL_PRIME_FD_TO_HANDLE (fds data !!! plane))
                     = import_reply drmIoctl k0 data plane).
    { unfold import_reply. by rewrite Hlog. }
    rewrite Hreply, (Hok plane) by lia. change (0 =? 0) with true. simpl negb. cbv iota.
    destruct (IH (S plane)
                (set_handle plane (out_handle (import_reply drmIoctl k0 data plane)) b)
                {| klog := klog k ++ [DRM_IOCTL_PRIME_FD_TO_HANDLE (fds data !!! plane)];
                   kerrno := kerrno k |})
      as (b' & Hrun & Hmeta & Hlen' & Hnew & Hold).
    + simpl. rewrite length_insert. lia.
    + simpl. by rewrite Hlog, import_requests_S, <- app_assoc.
    + intros i Hi. apply Hok. lia.
    + exists b'. rewrite Hrun. cbn [kerrno].
      replace (S plane + n)%nat with (plane + S n)%nat by lia.
      split; [done |]. split; [done |].
      split; [by rewrite Hlen'; simpl; rewrite length_insert |]. split.
      * intros i Hi. destruct (decide (i = plane)) as [-> | Hne].
        -- apply list_lookup_total_correct. rewrite Hold by lia. simpl.
           apply list_lookup_insert_eq. lia.
        -- apply Hnew. lia.
      * intros i Hi. rewrite Hold by lia. simpl.
        apply list_lookup_insert_ne. lia.
Qed.
End ImportFacts.

Section ImportRoundTrip.
Variable drmIoctl : list ioctl_request -> ioctl_request -> ioctl_reply.

(** X22.  When the kernel imports the file descriptor of every plane,
    [drv_prime_bo_import] returns 0 after one
    [DRM_IOCTL_PRIME_FD_TO_HANDLE] per plane, in plane order, and no other
    request; plane [i] carries the handle of the [i]-th reply, the handle
    slots from the plane count on are untouched, and of the metadata only
    the tiling changes, to the tiling of the import data. *)
Theorem prime_import_acquires_every_plane (b : bo) (data : drv_import_fd_data)
    (k : kstate) :
  (meta_num_planes (meta b) <= length (handles b))%nat ->
  (forall i, (i < meta_num_planes (meta b))%nat ->
     ret (import_reply drmIoctl k data i) = 0) ->
  exists b',
    drv_prime_bo_import drmIoctl b data k =
      (0, b', {| klog := klog k ++ import_requests data (meta_num_planes (meta b));
                 kerrno := kerrno k |}) /\
    meta b' = set_tiling (data_tiling data) (meta b) /\
    (forall i, (i < meta_num_planes (meta b))%nat ->
       handles b' !!! i = out_handle (import_reply drmIoctl k data i)) /\
    (forall i, (meta_num_planes (meta b) <= i)%nat -> handles b' !! i = handles b !! i).
Proof.
  intros Hlen Hok. unfold drv_prime_bo_import.
  destruct (prime_import_loop_succeeds drmIoctl data k (meta_num_planes (meta b)) 0 b k)
    as (b' & Hrun & Hmeta & _ & Hnew & Hold).
  - lia.
  - unfold import_requests. simpl. by rewrite app_nil_r.
  - intros i Hi. apply Hok. lia.
  - exists b'. split; [done |]. split; [done |]. split.
    + intros i Hi. apply Hnew. lia.
    + intros i Hi. apply Hold. lia.
Qed.

(** X23.  Import and destruction pair up: after an import that succeeded
    for every plane, [drv_gem_bo_destroy] closes each handle the kernel
    handed out exactly once, also when several planes were given the same
    handle, and closes nothing else. *)
Theorem import_then_destroy_closes_imported (b : bo) (data : drv_import_fd_data)
    (k k2 : kstate) :
  (meta_num_planes (meta b) <= length (handles b))%nat ->
  (forall i, (i < meta_num_planes (meta b))%nat ->
     ret (import_reply drmIoctl k data i) = 0) ->
  exists b' k' closes,
    drv_prime_bo_import drmIoctl b data k = (0, b', k') /\
    klog (drv_gem_bo_destroy drmIoctl b' k2).2 =
      klog k2 ++ (DRM_IOCTL_GEM_CLOSE <$> closes) /\
    NoDup closes /\
    (forall h, h ∈ closes <->
       exists i, (i < meta_num_planes (meta b))%nat /\
                 h = out_handle (import_reply drmIoctl k data i)).
Proof.
  intros Hlen Hok. unfold drv_prime_bo_import.
  destruct (prime_import_loop_succeeds drmIoctl data k (meta_num_planes (meta b)) 0 b k)
    as (b' & Hrun & Hmeta & Hlen' & Hnew & _).
  - lia.
  - unfold import_requests. simpl. by rewrite app_nil_r.
  - intros i Hi. apply Hok. lia.
  - assert (Hn : meta_num_planes (meta b') = meta_num_planes (meta b))
      by (by rewrite Hmeta).
    destruct (drv_gem_bo_destroy_closes drmIoctl b' k2) as (closes & Hlog & Hnd & Hin).
    { rewrite Hn, Hlen'. done. }
    eexists b', _, closes. split; [done |]. split; [done |]. split; [done |].
    intros h. rewrite Hin, Hn, list_elem_of_lookup. split.
    + intros (i & Hi).
      assert (i < meta_num_planes (meta b))%nat as Hlt.
      { apply lookup_lt_Some in Hi. rewrite length_take in Hi. lia. }
      rewrite lookup_take_lt in Hi by lia.
      apply list_lookup_total_correct in Hi. exists i. split; [done |].
      rewrite <- Hi. apply Hnew. lia.
    + intros (i & Hlt & ->). exists i. rewrite lookup_take_lt by lia.
      rewrite <- Hnew by lia. apply list_lookup_lookup_total_lt. lia.
Qed.
End ImportRoundTrip.

Lemma prime_import_acquires_every_plane_witness :
  exists b',
    drv_prime_bo_import importing_kernel (bo_with_handles 2 [0; 0; 0; 0])
      two_plane_import fresh_kstate =
      (0, b', {| klog := [DRM_IOCTL_PRIME_FD_TO_HANDLE 10; DRM_IOCTL_PRIME_FD_TO_HANDLE 11];
                 kerrno := 0 |}) /\
    handles b' = [110; 111; 0; 0].
Proof.
  destruct (prime_import_acquires_every_plane importing_kernel
              (bo_with_handles 2 [0; 0; 0; 0]) two_plane_import fresh_kstate)
    as (b' & Hrun & _).
  - simpl. lia.
  - intros i Hi. reflexivity.
  - eexists. split; [exact Hrun |]. vm_compute in Hrun.
    injection Hrun as <-. reflexivity.
Defined.

Lemma import_then_destroy_closes_imported_witness :
  exists b' k' closes,
    drv_prime_bo_import importing_kernel (bo_with_handles 2 [0; 0; 0; 0])
      two_plane_import fresh_kstate = (0, b', k') /\
    klog (drv_gem_bo_destroy importing_kernel b' fresh_kstate).2 =
      klog fresh_kstate ++ (DRM_IOCTL_GEM_CLOSE <$> closes) /\
    NoDup closes /\
    (forall h, h ∈ closes <->
       exists i, (i < 2)%nat /\
                 h = out_handle (import_reply importing_kernel fresh_kstate
                                   two_plane_import i)).
Proof.
  apply (import_then_destroy_closes_imported importing_kernel
           (bo_with_handles 2 [0; 0; 0; 0]) two_plane_import fresh_kstate fresh_kstate).
  - simpl. lia.
  - intros i Hi. reflexivity.
Defined.

(** ** Mapping a dumb buffer *)

Lemma wrap64_small z : 0 <= z < 2 ^ 64 -> wrap64 z = z.
Proof. unfold wrap64. intros. apply Z.mod_small. lia. Qed.

Lemma wrap64_add_l a b : wrap64 (wrap64 a + b) = wrap64 (a + b).
Proof. unfold wrap64. apply Zplus_mod_idemp_l. Qed.

Lemma add_alias_sizes_sum (b : bo) (plane : nat) (n : nat) :
  forall (i : nat) (len : Z),
    0 <= len < 2 ^ 64 ->
    add_alias_sizes n i b plane len =
      wrap64 (len + sumZ ((fun j => meta_sizes (meta b) !!! j) <$>
                          filter (fun j => handles b !!! j = handles b !!! plane)
                                 (seq i n))).
Proof.
  induction n as [|n IH]; intros i len Hlen.
  - simpl. rewrite Z.add_0_r. by rewrite wrap64_small.
  - cbn [add_alias_sizes seq]. rewrite filter_cons.
    destruct (handles b !!! i =? handles b !!! plane) eqn:E.
    + apply Z.eqb_eq in E. rewrite decide_True by done.
      rewrite IH by (unfold wrap64; apply Z.mod_pos_bound; lia).
      rewrite fmap_cons. cbn [sumZ foldr]. fold (sumZ).
      rewrite wrap64_add_l. f_equal. unfold sumZ. lia.
    + apply Z.eqb_neq in E. rewrite decide_False by done. by apply IH.
Qed.

Section DumbMapFacts.
Variable BO_MAP_WRITE : Z.
Variable map_dumb : Z -> Z * Z.
Variable mmap : Z -> Z -> Z -> Z.

Local Abbreviation drv_dumb_bo_map' := (drv_dumb_bo_map BO_MAP_WRITE map_dumb mmap).
Local Abbreviation drv_get_prot' := (drv_get_prot BO_MAP_WRITE).

(** X24.  [drv_dumb_bo_map]: when [DRM_IOCTL_MODE_MAP_DUMB] fails the
    result is [MAP_FAILED] and the vma is as before.  Otherwise the length
    of the vma grows, modulo 2^64, by the sizes of all planes that carry
    the handle of the plane mapped (the length is added to, not set), and
    the result is what [mmap] gives for that length, the kernel's offset
    and a protection that always has the read bit and has the write bit
    exactly when the map flags have the write flag. *)
Theorem dumb_map_covers_aliased_planes (b : bo) (v : vma) (plane : nat) (map_flags : Z) :
  0 <= vma_length v < 2 ^ 64 ->
  let r := map_dumb (handles b !!! plane) in
  let len := wrap64 (vma_length v +
                     sumZ (alias_sizes (meta_num_planes (meta b)) b plane)) in
  (r.1 <> 0 -> drv_dumb_bo_map' b v plane map_flags = (MAP_FAILED, v)) /\
  (r.1 = 0 ->
     drv_dumb_bo_map' b v plane map_flags =
       (mmap len (drv_get_prot' map_flags) r.2, set_length len v)) /\
  Z.land (drv_get_prot' map_flags) PROT_READ = PROT_READ /\
  (Z.land (drv_get_prot' map_flags) PROT_WRITE = PROT_WRITE <->
   Z.land BO_MAP_WRITE map_flags <> 0).
Proof.
  intros Hlen. cbv zeta. unfold drv_dumb_bo_map.
  destruct (map_dumb (handles b !!! plane)) as [ret offset]. cbn [fst snd].
  split; [| split; [| split]].
  - intros Hret. apply Z.eqb_neq in Hret. by rewrite Hret.
  - intros ->. change (0 =? 0) with true. cbn [negb]. cbv zeta.
    rewrite add_alias_sizes_sum by done. reflexivity.
  - unfold drv_get_prot. by destruct (negb _).
  - unfold drv_get_prot. destruct (Z.land BO_MAP_WRITE map_flags =? 0) eqn:E.
    + apply Z.eqb_eq in E. cbn [negb]. split; [done | by intros ?].
    + apply Z.eqb_neq in E. cbn [negb]. split; [done | reflexivity].
Qed.
End DumbMapFacts.

(** [sized_bo] mapped into a vma whose length is 100 already, with an
    [mmap] whose result shows the length, the protection and the offset it
    was given.  Plane 0 shares handle 7 with plane 2: the length grows by
    4096 + 1024, and with the write flag the protection is 3.  Plane 1 is
    alone on handle 9: the length grows by 2048, and without the write
    flag the protection is 1. *)
Lemma dumb_map_covers_aliased_planes_witness :
  let v := {| vma_handle := 7; vma_refcount := 1; vma_length := 100 |} in
  let map_dumb := fun handle : Z => (0, 4096 * handle) in
  let mmap := fun len prot offset : Z => offset + 8 * len + prot in
  drv_dumb_bo_map 2 map_dumb mmap sized_bo v 0 3 = (28672 + 8 * 5220 + 3, set_length 5220 v) /\
  drv_dumb_bo_map 2 map_dumb mmap sized_bo v 1 1 = (36864 + 8 * 2148 + 1, set_length 2148 v).
Proof.
  cbv zeta. split.
  - destruct (dumb_map_covers_aliased_planes 2 (fun handle : Z => (0, 4096 * handle))
                (fun len prot offset : Z => offset + 8 * len + prot) sized_bo
                {| vma_handle := 7; vma_refcount := 1; vma_length := 100 |} 0 3)
      as (_ & Hok & _).
    + simpl. lia.
    + rewrite (Hok eq_refl). reflexivity.
  - destruct (dumb_map_covers_aliased_planes 2 (fun handle : Z => (0, 4096 * handle))
                (fun len prot offset : Z => offset + 8 * len + prot) sized_bo
                {| vma_handle := 7; vma_refcount := 1; vma_length := 100 |} 1 1)
      as (_ & Hok & _).
    + simpl. lia.
    + rewrite (Hok eq_refl). reflexivity.
Defined.

(** ** Reference counts *)

Lemma repeat_count_S (op : gmap Z Z -> gmap Z Z) (n : nat) :
  forall t, repeat_count op (S n) t = op (repeat_count op n t).
Proof. induction n as [|n IH]; intros t; [done |]. cbn [repeat_count] in *. by rewrite IH. Qed.

Lemma increment_lookup_other (t : gmap Z Z) b plane key :
  key <> handles b !!! plane ->
  drv_increment_reference_count t b plane !! key = t !! key.
Proof.
  intros Hne. unfold drv_increment_reference_count, drmHashInsert, drmHashDelete.
  rewrite lookup_delete_eq, lookup_insert_ne, lookup_delete_ne by done. done.
Qed.

Lemma get_after_increment (t : gmap Z Z) b plane :
  drv_get_reference_count (drv_increment_reference_count t b plane) b plane =
    wrap64 (drv_get_reference_count t b plane + 1).
Proof. by rewrite get_reference_count_lookup, increment_lookup. Qed.

Lemma get_after_decrement (t : gmap Z Z) b plane :
  drv_get_reference_count (drv_decrement_reference_count t b plane) b plane =
    if 0 <? drv_get_reference_count t b plane
    then wrap64 (drv_get_reference_count t b plane - 1) else 0.
Proof.
  rewrite get_reference_count_lookup, decrement_lookup. by destruct (0 <? _).
Qed.

(** X25.  The reference count of a handle counts: from a count [c], [n]
    increments followed by [m] decrements of a plane leave its handle at
    max (c + n - m, 0) (as long as c + n stays below 2^64), and the entry
    is dropped from the table only by a decrement at count 0; the counts
    of all other handles are untouched, and two planes that carry the same
    handle share one count. *)
Theorem reference_count_counts (t : gmap Z Z) (b : bo) (plane : nat) (n m : nat) :
  0 <= drv_get_reference_count t b plane ->
  drv_get_reference_count t b plane + Z.of_nat n < 2 ^ 64 ->
  let c := drv_get_reference_count t b plane in
  let t' := repeat_count (fun t => drv_decrement_reference_count t b plane) m
              (repeat_count (fun t => drv_increment_reference_count t b plane) n t) in
  drv_get_reference_count t' b plane = Z.max (c + Z.of_nat n - Z.of_nat m) 0 /\
  (0 < Z.of_nat m <= c + Z.of_nat n -> t' !! (handles b !!! plane) =
     Some (c + Z.of_nat n - Z.of_nat m)) /\
  (c + Z.of_nat n < Z.of_nat m -> t' !! (handles b !!! plane) = None) /\
  (forall key, key <> handles b !!! plane -> t' !! key = t !! key) /\
  (forall q, handles b !!! q = handles b !!! plane ->
     drv_get_reference_count t' b q = drv_get_reference_count t' b plane).
Proof.
  intros Hc Hfit. cbv zeta.
  set (c := drv_get_reference_count t b plane) in *.
  set (inc := fun t => drv_increment_reference_count t b plane).
  set (dec := fun t => drv_decrement_reference_count t b plane).
  assert (Hinc : forall n, c + Z.of_nat n < 2 ^ 64 ->
            drv_get_reference_count (repeat_count inc n t) b plane = c + Z.of_nat n).
  { clear Hfit. intros n'. induction n' as [|n' IH]; intros Hfit.
    - simpl. subst c. lia.
    - rewrite repeat_count_S. subst inc. cbv beta.
      rewrite get_after_increment, IH by lia. rewrite wrap64_small by lia. lia. }
  set (t1 := repeat_count inc n t).
  assert (Hdec : forall m,
            drv_get_reference_count (repeat_count dec m t1) b plane
              = Z.max (c + Z.of_nat n - Z.of_nat m) 0).
  { intros m'. induction m' as [|m' IH].
    - simpl. subst t1. rewrite Hinc by done. lia.
    - rewrite repeat_count_S. subst dec. cbv beta.
      rewrite get_after_decrement, IH.
      destruct (0 <? Z.max (c + Z.of_nat n - Z.of_nat m') 0) eqn:E.
      + apply Z.ltb_lt in E. rewrite wrap64_small by lia. lia.
      + apply Z.ltb_ge in E. lia. }
  split; [apply Hdec |]. split; [| split; [| split]].
  - intros Hm. destruct m as [|m]; [lia |].
    rewrite repeat_count_S. subst dec. cbv beta.
    rewrite decrement_lookup, Hdec.
    replace (0 <? Z.max (c + Z.of_nat n - Z.of_nat m) 0) with true
      by (symmetry; apply Z.ltb_lt; lia).
    rewrite wrap64_small by lia. f_equal. lia.
  - intros Hm. destruct m as [|m]; [lia |].
    rewrite repeat_count_S. subst dec. cbv beta.
    rewrite decrement_lookup, Hdec.
    replace (0 <? Z.max (c + Z.of_nat n - Z.of_nat m) 0) with false
      by (symmetry; apply Z.ltb_ge; lia).
    done.
  - intros key Hne.
    assert (H1 : forall m t0, repeat_count dec m t0 !! key = t0 !! key).
    { intros m'. induction m' as [|m' IH]; intros t0; [done |].
      rewrite repeat_count_S. subst dec. cbv beta.
      by rewrite decrement_lookup_other, IH. }
    assert (H2 : forall n t0, repeat_count inc n t0 !! key = t0 !! key).
    { intros n'. induction n' as [|n' IH]; intros t0; [done |].
      rewrite repeat_count_S. subst inc. cbv beta.
      by rewrite increment_lookup_other, IH. }
    subst t1. by rewrite H1, H2.
  - intros q Hq. unfold drv_get_reference_count. by rewrite Hq.
Qed.

Lemma reference_count_counts_witness :
  let b := bo_with_handles 2 [7; 7; 0; 0] in
  drv_get_reference_count
    (repeat_count (fun t => drv_decrement_reference_count t b 0) 5
       (repeat_count (fun t => drv_increment_reference_count t b 0) 3 ∅)) b 0 = 0.
Proof.
  cbv zeta.
  destruct (reference_count_counts ∅ (bo_with_handles 2 [7; 7; 0; 0]) 0 3 5)
    as (Hget & _).
  - vm_compute. discriminate.
  - vm_compute. reflexivity.
  - exact Hget.
Defined.

(** ** The mapping cache after a destruction *)

Lemma vma_uses_other_mappings heap h a ms :
  (forall m, m ∈ ms -> mapping_vma m = a -> handle_matches heap h m = false) ->
  vma_uses a (other_mappings heap h ms) = vma_uses a ms.
Proof.
  induction ms as [|m ms IH]; intros Hall; [done |].
  assert (IH' : vma_uses a (other_mappings heap h ms) = vma_uses a ms).
  { apply IH. intros m' Hm'. apply Hall. apply elem_of_cons. by right. }
  destruct (handle_matches heap h m) eqn:E.
  - rewrite handle_matches_cons_same by done. rewrite vma_uses_cons.
    rewrite decide_False; [done |]. intros Ha.
    rewrite (Hall m) in E; [done | apply elem_of_cons; by left | done].
  - rewrite handle_matches_cons_other by done. rewrite !vma_uses_cons.
    destruct (decide _); by rewrite IH'.
Qed.

Lemma other_mappings_elem heap h ms m :
  m ∈ other_mappings heap h ms <-> m ∈ ms /\ handle_matches heap h m = false.
Proof. unfold other_mappings. by rewrite list_elem_of_filter, (comm and). Qed.

Lemma other_mappings_all heap h ms :
  (forall m, m ∈ ms -> handle_matches heap h m = false) ->
  other_mappings heap h ms = ms.
Proof.
  induction ms as [|m ms IH]; intros Hall; [done |].
  rewrite handle_matches_cons_other by (apply Hall, elem_of_cons; by left).
  f_equal. apply IH. intros m' Hm'. apply Hall, elem_of_cons. by right.
Qed.

Lemma released_vmas_none heap h ms :
  (forall m, m ∈ ms -> handle_matches heap h m = false) ->
  released_vmas heap h ms = [].
Proof.
  intros Hall. destruct (released_vmas heap h ms) as [|a l] eqn:E; [done |].
  assert (Ha : a ∈ released_vmas heap h ms) by (rewrite E; apply elem_of_cons; by left).
  apply released_vmas_elem in Ha as (m & Hm & _ & Hmatch).
  by rewrite Hall in Hmatch.
Qed.

(** What a scan that ran to the end leaves: a cache that is well formed
    again and holds no entry for the handle. *)
Lemma swept_ledger_wf (st st' : ledger) (h : Z) :
  ledger_wf st ->
  swept h [] (mappings st) (vmas st) (vmas st) (unmapped st) st' ->
  ledger_wf st' /\
  (forall m, m ∈ mappings st' -> handle_matches (vmas st') h m = false) /\
  (forall m, m ∈ mappings st' -> m ∈ mappings st) /\
  (forall m, m ∈ mappings st -> handle_matches (vmas st) h m = false ->
     m ∈ mappings st') /\
  (forall a, a ∈ released_vmas (vmas st) h (mappings st) -> vmas st' !! a = None).
Proof.
  intros Hwf (Hms & Hlog & Hfreed & Hkept). simpl in Hms.
  assert (Hsame : forall m, m ∈ mappings st' ->
            vmas st' !! mapping_vma m = vmas st !! mapping_vma m /\
            vma_uses (mapping_vma m) (mappings st') = vma_uses (mapping_vma m) (mappings st)).
  { intros m Hm. rewrite Hms in Hm. apply other_mappings_elem in Hm as [Hm Hno].
    assert (Hall : forall m', m' ∈ mappings st -> mapping_vma m' = mapping_vma m ->
                     handle_matches (vmas st) h m' = false).
    { intros m' _ Heq. by rewrite (handle_matches_vma _ _ m' m Heq). }
    split; [by apply Hkept |]. rewrite Hms. by apply vma_uses_other_mappings. }
  split; [| split; [| split; [| split]]].
  - intros m Hm. destruct (Hsame m Hm) as [Hv Hu].
    assert (Hm0 : m ∈ mappings st).
    { rewrite Hms in Hm. by apply other_mappings_elem in Hm as [? _]. }
    destruct (Hwf m Hm0) as (v & Hlook & Hr & Hcount).
    exists v. rewrite Hv, Hu. done.
  - intros m Hm. destruct (Hsame m Hm) as [Hv _].
    rewrite Hms in Hm. apply other_mappings_elem in Hm as [_ Hno].
    unfold handle_matches, mapping_handle in *. by rewrite Hv.
  - intros m Hm. rewrite Hms in Hm. by apply other_mappings_elem in Hm as [? _].
  - intros m Hm Hno. rewrite Hms. by apply other_mappings_elem.
  - done.
Qed.

Section MappingFacts.
Variable bo_unmap : list nat -> bo -> nat -> vma -> Z.

Lemma mapping_destroy_noop (b : bo) (st : ledger) :
  ledger_wf st ->
  (forall m, m ∈ mappings st -> handle_matches (vmas st) (handles b !!! 0%nat) m = false) ->
  drv_mapping_destroy bo_unmap b st = Some (Ok (0, st)).
Proof.
  intros Hwf Hno.
  destruct (decide (meta_num_planes (meta b) = 0)%nat) as [Hz | Hnz].
  { unfold drv_mapping_destroy. by rewrite Hz. }
  destruct (drv_mapping_destroy_spec bo_unmap b st ltac:(lia) Hwf)
    as (v & st' & Hrun & [[-> Hswept] | Hstopped]).
  - rewrite Hrun. do 3 f_equal.
    destruct Hswept as (Hms & Hlog & _ & Hkept). simpl in Hms.
    rewrite other_mappings_all in Hms by done.
    rewrite released_vmas_none, app_nil_r in Hlog by done.
    assert (Hv : vmas st' = vmas st).
    { apply map_eq. intros a. apply Hkept. intros m Hm _. by apply Hno. }
    destruct st, st'. simpl in *. by subst.
  - destruct Hstopped as (_ & i & m & Hi & Hmatch & _).
    rewrite Hno in Hmatch; [done |]. by apply list_elem_of_lookup_2 in Hi.
Qed.

(** X26.  A destruction that returns 0 leaves the mapping cache well
    formed: every remaining entry was in the cache before, still points to
    an allocated vma, and the refcount of that vma is still the number of
    entries pointing to it; no remaining entry is tied to the handle of
    plane 0, every entry tied to another handle is still in the cache
    (also one tied to the handle of a later plane of the buffer object),
    and the vmas that were handed to the backend are no longer
    allocated. *)
Theorem mapping_destroy_keeps_cache_well_formed (b : bo) (st st' : ledger) :
  (1 <= meta_num_planes (meta b))%nat ->
  ledger_wf st ->
  drv_mapping_destroy bo_unmap b st = Some (Ok (0, st')) ->
  ledger_wf st' /\
  (forall m, m ∈ mappings st' ->
     handle_matches (vmas st') (handles b !!! 0%nat) m = false) /\
  (forall m, m ∈ mappings st' -> m ∈ mappings st) /\
  (forall m, m ∈ mappings st ->
     handle_matches (vmas st) (handles b !!! 0%nat) m = false -> m ∈ mappings st') /\
  (forall a, a ∈ released_vmas (vmas st) (handles b !!! 0%nat) (mappings st) ->
     vmas st' !! a = None).
Proof.
  intros Hn Hwf Hrun.
  destruct (drv_mapping_destroy_spec bo_unmap b st Hn Hwf)
    as (v & st1 & Hrun1 & Hpost).
  rewrite Hrun1 in Hrun. injection Hrun as -> ->.
  destruct Hpost as [[_ Hswept] | (Hv & _)]; [| done].
  by apply swept_ledger_wf.
Qed.

(** X27.  [drv_mapping_destroy] changes nothing and returns 0 when no
    entry of the cache is tied to the handle of plane 0; in particular a
    second destruction, after one that returned 0, is such a call. *)
Theorem mapping_destroy_twice_is_once (b : bo) (st : ledger) :
  ledger_wf st ->
  ((forall m, m ∈ mappings st ->
      handle_matches (vmas st) (handles b !!! 0%nat) m = false) ->
   drv_mapping_destroy bo_unmap b st = Some (Ok (0, st))) /\
  (forall st', drv_mapping_destroy bo_unmap b st = Some (Ok (0, st')) ->
     drv_mapping_destroy bo_unmap b st' = Some (Ok (0, st'))).
Proof.
  intros Hwf. split; [by apply mapping_destroy_noop |].
  intros st' Hrun.
  destruct (decide (meta_num_planes (meta b) = 0)%nat) as [Hz | Hnz].
  { unfold drv_mapping_destroy in *. rewrite Hz in *. simpl in *. done. }
  destruct (drv_mapping_destroy_spec bo_unmap b st ltac:(lia) Hwf)
    as (v & st1 & Hrun1 & Hpost).
  rewrite Hrun1 in Hrun. injection Hrun as -> ->.
  destruct Hpost as [[_ Hswept] | (Hv & _)]; [| done].
  destruct (swept_ledger_wf st st' _ Hwf Hswept) as (Hwf' & Hno & _).
  by apply mapping_destroy_noop.
Qed.
End MappingFacts.

Lemma mapping_destroy_keeps_cache_well_formed_witness :
  exists st',
    drv_mapping_destroy unmap_ok (bo_with_handles 2 [5; 5; 0; 0]) sample_ledger
      = Some (Ok (0, st')) /\
    ledger_wf st' /\
    mappings st' = [ {| mapping_vma := 2 |} ].
Proof.
  eexists. split; [vm_compute; reflexivity |]. split; [| reflexivity].
  apply (mapping_destroy_keeps_cache_well_formed unmap_ok
           (bo_with_handles 2 [5; 5; 0; 0]) sample_ledger).
  - simpl. lia.
  - apply sample_ledger_wf.
  - vm_compute. reflexivity.
Defined.

Lemma mapping_destroy_twice_is_once_witness :
  drv_mapping_destroy unmap_ok (bo_with_handles 2 [9; 9; 0; 0]) sample_ledger
    = Some (Ok (0, sample_ledger)).
Proof.
  destruct (mapping_destroy_twice_is_once unmap_ok (bo_with_handles 2 [9; 9; 0; 0])
              sample_ledger sample_ledger_wf) as [Hnoop _].
  apply Hnoop. intros m Hm. simpl in Hm.
  repeat (apply elem_of_cons in Hm as [-> | Hm]); [| | | by apply elem_of_nil in Hm];
    vm_compute; reflexivity.
Defined.
